(** * CraftMyFlow: relevance search, search history and the chat concierge

    A shallow embedding of the client-side search component
    (SearchSystem: calculateRelevance, performSearch, saveSearchToHistory
    and the debounce effect), of the Gemini service wrappers
    (getChatbotResponse, analyzeChatForLeadQualification,
    getAiConsultation, getBrainstormResponse) and of the Chatbot
    component handlers of App.tsx (handleCloseChat,
    handleConsultationSubmit), followed by the properties the
    specification states about them.

    Conventions of the embedding.
    - A JavaScript string is a [string]: a sequence of code units in the
      range U+0000..U+00FF.  [toLowerCase] and [trim] are the JavaScript
      ones restricted to that range.
    - A JavaScript number that the code uses as a counter or a score is
      a [Z].
    - An asynchronous handler is run to completion: the outcome of each
      awaited call is an input of the handler, and no other event is
      interleaved with it. *)

From Stdlib Require Import ZArith Ascii Lia Sorting.Sorted.
From stdpp Require Import base list strings.

Local Open Scope Z_scope.

(** ** JavaScript string primitives *)

Module JsString.

Definition code (c : ascii) : N := N_of_ascii c.

(** Upper-case letters of U+0000..U+00FF: A-Z, and U+00C0..U+00DE
    without the multiplication sign U+00D7. *)
Definition isUpper (c : ascii) : bool :=
  let n := code c in
  ((65 <=? n) && (n <=? 90))%N
  || ((192 <=? n) && (n <=? 222) && negb (n =? 215))%N.

Definition toLowerChar (c : ascii) : ascii :=
  if isUpper c then ascii_of_N (code c + 32) else c.

Fixpoint toLowerCase (s : string) : string :=
  match s with
  | EmptyString => EmptyString
  | String c s' => String (toLowerChar c) (toLowerCase s')
  end.

(** White space and line terminators of U+0000..U+00FF, the characters
    that [trim] removes: TAB, LF, VT, FF, CR, SP and NBSP. *)
Definition isWhiteSpace (c : ascii) : bool :=
  let n := code c in
  (((9 <=? n) && (n <=? 13)) || (n =? 32) || (n =? 160))%N.

Fixpoint trimStart (s : string) : string :=
  match s with
  | EmptyString => EmptyString
  | String c s' => if isWhiteSpace c then trimStart s' else s
  end.

Definition trimEnd (s : string) : string :=
  String.rev (trimStart (String.rev s)).

Definition trim (s : string) : string := trimEnd (trimStart s).

Fixpoint startsWith (s p : string) : bool :=
  match p, s with
  | EmptyString, _ => true
  | String _ _, EmptyString => false
  | String a p', String b s' => if Ascii.eqb a b then startsWith s' p' else false
  end.

(** [s.includes(sub)]: [sub] occurs in [s] at some position. *)
Fixpoint includes (s sub : string) : bool :=
  startsWith s sub ||
  match s with
  | EmptyString => false
  | String _ s' => includes s' sub
  end.

(** [s.split(sep)] for a separator of one character: the pieces
    between the occurrences of [sep], empty pieces included. *)
Fixpoint split (sep : ascii) (s : string) : list string :=
  match s with
  | EmptyString => [EmptyString]
  | String c s' =>
      if Ascii.eqb c sep then EmptyString :: split sep s'
      else match split sep s' with
           | w :: ws => String c w :: ws
           | [] => [String c EmptyString]
           end
  end.

Definition isEmpty (s : string) : bool :=
  match s with EmptyString => true | String _ _ => false end.

Definition SP : ascii := " "%char.
Definition TAB : ascii := "009"%char.
Definition LF : ascii := "010"%char.
Definition DQ : ascii := "034"%char.

End JsString.

Import JsString.

(** ** The relevance score (SearchSystem.calculateRelevance) *)

(** [l.forEach(body)] over a mutable accumulator [acc]. *)
Definition forEach {A St : Type} (l : list A) (body : St -> A -> St) (acc : St) : St :=
  fold_left body l acc.

(** [l.forEach((x, index) => ...)]: the callback also gets the index. *)
Fixpoint forEachIdx {A St : Type} (l : list A) (index : nat)
    (body : St -> A -> nat -> St) (acc : St) : St :=
  match l with
  | [] => acc
  | x :: l' => forEachIdx l' (S index) body (body acc x index)
  end.

Definition calculateRelevance (query : string) (fields : list string) : Z :=
  let queryLower := toLowerCase query in
  let len := Z.of_nat (length fields) in
  forEachIdx fields 0%nat
    (fun score field index =>
       if isEmpty field then score
       else
         let fieldLower := toLowerCase field in
         let score :=
           if includes fieldLower queryLower
           then score + (len - Z.of_nat index) * 10
           else score in
         let queryWords := split SP queryLower in
         let fieldWords := split SP fieldLower in
         forEach queryWords
           (fun score queryWord =>
              forEach fieldWords
                (fun score fieldWord =>
                   if includes fieldWord queryWord || includes queryWord fieldWord
                   then score + (len - Z.of_nat index) * 2
                   else score)
                score)
           score)
    0.

(** ** Statements that may throw, over a component state *)

Module Stmt.

Inductive Completion (A : Type) := Normal (a : A) | Thrown.
Arguments Normal {A} a.
Arguments Thrown {A}.

Definition M (St A : Type) : Type := St -> Completion A * St.

Global Instance M_ret {St} : MRet (M St) := fun A a s => (Normal a, s).
Global Instance M_bind {St} : MBind (M St) := fun A B k m s =>
  match m s with
  | (Normal a, s') => k a s'
  | (Thrown, s') => (Thrown, s')
  end.
Definition throw {St A} : M St A := fun s => (Thrown, s).
Definition modify {St} (f : St -> St) : M St unit := fun s => (Normal tt, f s).
Definition get {St} : M St St := fun s => (Normal s, s).

(** [try { body } catch (error) { handler }] *)
Definition try_catch {St} (body handler : M St unit) : M St unit :=
  fun s => match body s with
           | (Normal _, s') => (Normal tt, s')
           | (Thrown, s') => handler s'
           end.

(** [try { body } catch (error) { handler } finally { fin }] *)
Definition try_catch_finally {St} (body handler fin : M St unit) : M St unit :=
  fun s => match body s with
           | (Normal _, s') => fin s'
           | (Thrown, s') => (handler ;; fin) s'
           end.

(** The state a handler leaves. *)
Definition exec {St A} (m : M St A) (s : St) : St := (m s).2.

End Stmt.

Import Stmt.

(** The two languages of the site. *)
Inductive Lang := en | ar.

(** ** The search component (SearchSystem) *)

Module SearchSystem.

(** A localized text [{ en, ar }]; a side may be absent in the store. *)
Record Localized := { loc_en : option string; loc_ar : option string }.

(** [text?.[lang] || ''] *)
Definition pick (lang : Lang) (text : option Localized) : string :=
  match text with
  | None => EmptyString
  | Some t => default EmptyString (match lang with en => loc_en t | ar => loc_ar t end)
  end.

Record Project := {
  p_title : option Localized;
  p_description : option Localized;
  p_category : option Localized;
  p_image : option string }.

Record Service := {
  s_title : option Localized;
  s_desc : option Localized }.

Record CommunityPost := {
  c_title : string;
  c_description : string;
  c_isApproved : bool }.

Inductive ResultType := project_ | service_ | post_.

Record SearchResult := {
  id : string;
  title : string;
  description : string;
  type : ResultType;
  category : option string;
  image : option string;
  relevanceScore : Z }.

Record Filters := { f_type : string; f_category : string; f_sortBy : string }.

(** What one [once('value')] read of each collection gives: the
    children in key order, or [None] when the read is rejected. *)
Record Database := {
  projects : option (list (string * Project));
  services : option (list (string * Service));
  communityPosts : option (list (string * CommunityPost)) }.

(** The surroundings of one run of performSearch: the store, the
    date part of [new Date().toISOString()], and the paths that
    [database.ref] of the Firebase library accepts; on the others (a
    path that holds a dot, for one) it throws. *)
Record Env := { db : Database; today : string; validPath : string -> bool }.

Inductive Effect :=
| Fetch (ref : string)
| ConsoleError (msg : string)
| LocalStorageSet (key : string) (value : list string)
| Transaction (path : string).

(** What a render closes over and the debounce timer keeps. *)
Record Closure := {
  cl_query : string;
  cl_filters : Filters;
  cl_history : list string }.

Record State := {
  searchQuery : string;
  searchResults : list SearchResult;
  isSearching : bool;
  showResults : bool;
  searchHistory : list string;
  filters : Filters;
  pending : option Closure;
  trace : list Effect }.

Definition initial : State := {|
  searchQuery := EmptyString;
  searchResults := [];
  isSearching := false;
  showResults := false;
  searchHistory := [];
  filters := {| f_type := "all"; f_category := "all"; f_sortBy := "relevance" |};
  pending := None;
  trace := [] |}.

Definition with_searchQuery (v : string) (s : State) : State :=
  {| searchQuery := v; searchResults := searchResults s;
     isSearching := isSearching s; showResults := showResults s;
     searchHistory := searchHistory s; filters := filters s;
     pending := pending s; trace := trace s |}.
Definition with_searchResults (v : list SearchResult) (s : State) : State :=
  {| searchQuery := searchQuery s; searchResults := v;
     isSearching := isSearching s; showResults := showResults s;
     searchHistory := searchHistory s; filters := filters s;
     pending := pending s; trace := trace s |}.
Definition with_isSearching (v : bool) (s : State) : State :=
  {| searchQuery := searchQuery s; searchResults := searchResults s;
     isSearching := v; showResults := showResults s;
     searchHistory := searchHistory s; filters := filters s;
     pending := pending s; trace := trace s |}.
Definition with_showResults (v : bool) (s : State) : State :=
  {| searchQuery := searchQuery s; searchResults := searchResults s;
     isSearching := isSearching s; showResults := v;
     searchHistory := searchHistory s; filters := filters s;
     pending := pending s; trace := trace s |}.
Definition with_searchHistory (v : list string) (s : State) : State :=
  {| searchQuery := searchQuery s; searchResults := searchResults s;
     isSearching := isSearching s; showResults := showResults s;
     searchHistory := v; filters := filters s;
     pending := pending s; trace := trace s |}.
Definition with_filters (v : Filters) (s : State) : State :=
  {| searchQuery := searchQuery s; searchResults := searchResults s;
     isSearching := isSearching s; showResults := showResults s;
     searchHistory := searchHistory s; filters := v;
     pending := pending s; trace := trace s |}.
Definition with_pending (v : option Closure) (s : State) : State :=
  {| searchQuery := searchQuery s; searchResults := searchResults s;
     isSearching := isSearching s; showResults := showResults s;
     searchHistory := searchHistory s; filters := filters s;
     pending := v; trace := trace s |}.
Definition emit (e : Effect) (s : State) : State :=
  {| searchQuery := searchQuery s; searchResults := searchResults s;
     isSearching := isSearching s; showResults := showResults s;
     searchHistory := searchHistory s; filters := filters s;
     pending := pending s; trace := trace s ++ [e] |}.

(** [await database.ref(ref).once('value')], for the three constant
    references of performSearch, which the library accepts. *)
Definition once {A} (ref : string) (read : option (list (string * A)))
    : M State (list (string * A)) :=
  modify (emit (Fetch ref)) ;;
  match read with
  | Some snapshot => mret snapshot
  | None => throw
  end.

(** [arr.sort(cmp)]: the sort is stable, and an element goes before
    another when [cmp] is negative. *)
Fixpoint sort_insert {A} (cmp : A -> A -> Z) (x : A) (l : list A) : list A :=
  match l with
  | [] => [x]
  | y :: l' => if cmp x y <=? 0 then x :: l else y :: sort_insert cmp x l'
  end.
Definition sort {A} (cmp : A -> A -> Z) (l : list A) : list A :=
  foldr (sort_insert cmp) [] l.

Section Component.

(** [a.localeCompare(b)] is the collation of the browser. *)
Variable localeCompare : string -> string -> Z.
Variable lang : Lang.

(** [database.ref(path).transaction(...)]: the reference is made
    first, and the transaction starts when the path is accepted. *)
Definition transaction (E : Env) (path : string) : M State unit :=
  if validPath E path then modify (emit (Transaction path)) else throw.

Definition saveSearchToHistory (E : Env) (c : Closure) (query : string) : M State unit :=
  let newHistory :=
    take 10 (query :: filter (fun h => h <> query) (cl_history c)) in
  modify (with_searchHistory newHistory) ;;
  modify (emit (LocalStorageSet "searchHistory" newHistory)) ;;
  transaction E ("analytics/searches/" +:+ today E) ;;
  transaction E ("analytics/popularSearches/" +:+ query).

Definition searchProjects (query : string)
    (snapshot : list (string * Project)) (results : list SearchResult)
    : list SearchResult :=
  forEach snapshot
    (fun results child =>
       let project := child.2 in
       let relevance := calculateRelevance query
         [pick lang (p_title project);
          pick lang (p_description project);
          pick lang (p_category project)] in
       if 0 <? relevance
       then results ++
            [{| id := child.1;
                title := pick lang (p_title project);
                description := pick lang (p_description project);
                type := project_;
                category := Some (pick lang (p_category project));
                image := p_image project;
                relevanceScore := relevance |}]
       else results)
    results.

Definition searchServices (query : string)
    (snapshot : list (string * Service)) (results : list SearchResult)
    : list SearchResult :=
  forEach snapshot
    (fun results child =>
       let service := child.2 in
       let relevance := calculateRelevance query
         [pick lang (s_title service);
          pick lang (s_desc service)] in
       if 0 <? relevance
       then results ++
            [{| id := child.1;
                title := pick lang (s_title service);
                description := pick lang (s_desc service);
                type := service_;
                category := None;
                image := None;
                relevanceScore := relevance |}]
       else results)
    results.

Definition searchPosts (query : string)
    (snapshot : list (string * CommunityPost)) (results : list SearchResult)
    : list SearchResult :=
  forEach snapshot
    (fun results child =>
       let post := child.2 in
       if c_isApproved post then
         let relevance := calculateRelevance query
           [c_title post; c_description post] in
         if 0 <? relevance
         then results ++
              [{| id := child.1;
                  title := c_title post;
                  description := c_description post;
                  type := post_;
                  category := None;
                  image := None;
                  relevanceScore := relevance |}]
         else results
       else results)
    results.

(** The [switch (filters.sortBy)] of performSearch. *)
Definition sortResults (sortBy : string) (results : list SearchResult)
    : list SearchResult :=
  if String.eqb sortBy "relevance"
  then sort (fun a b => relevanceScore b - relevanceScore a) results
  else if String.eqb sortBy "title"
  then sort (fun a b => localeCompare (title a) (title b)) results
  else results.

Definition typeSelected (f : Filters) (kind : string) : bool :=
  String.eqb (f_type f) "all" || String.eqb (f_type f) kind.

(** The body of the [try] of performSearch. *)
Definition searchBody (E : Env) (c : Closure) : M State unit :=
  let searchQuery := cl_query c in
  let filters := cl_filters c in
  let results : list SearchResult := [] in
  results ← (if typeSelected filters "project"
             then projectsSnapshot ← once "projects" (projects (db E));
                  mret (searchProjects searchQuery projectsSnapshot results)
             else mret results);
  results ← (if typeSelected filters "service"
             then servicesSnapshot ← once "services" (services (db E));
                  mret (searchServices searchQuery servicesSnapshot results)
             else mret results);
  results ← (if typeSelected filters "post"
             then postsSnapshot ← once "communityPosts" (communityPosts (db E));
                  mret (searchPosts searchQuery postsSnapshot results)
             else mret results);
  let sortedResults := sortResults (f_sortBy filters) results in
  modify (with_searchResults sortedResults) ;;
  saveSearchToHistory E c searchQuery.

Definition performSearch (E : Env) (c : Closure) : M State unit :=
  if isEmpty (trim (cl_query c)) then mret tt
  else
    modify (with_isSearching true) ;;
    modify (with_showResults true) ;;
    try_catch_finally
      (searchBody E c)
      (modify (emit (ConsoleError "Error performing search:")))
      (modify (with_isSearching false)).

(** The effect on [searchQuery, filters].  React first runs the
    cleanup of the previous run, which clears its timer; then the
    body: a query of more than two characters once trimmed starts
    the 300 ms timer, whose callback is the performSearch of this
    render; any other query clears the results and hides the panel. *)
Definition debounceEffect (s : State) : State :=
  let s := with_pending None s in
  if (2 <? String.length (trim (searchQuery s)))%nat
  then with_pending
         (Some {| cl_query := searchQuery s;
                  cl_filters := filters s;
                  cl_history := searchHistory s |}) s
  else with_showResults false (with_searchResults [] s).

Inductive Event :=
| SetSearchQuery (text : string)
| SetFilters (f : Filters)
| Focus
| ResultClicked
| TimerFired (E : Env).

(** One event of the component.  SetSearchQuery and SetFilters are
    the state update and the effect of the render that follows (the
    input reports changed values only, and every new filters object
    counts as a change); Focus is the onFocus of the input;
    ResultClicked is handleResultClick, which hides the panel and
    empties the query; TimerFired is the end of the 300 ms, when a
    timer is pending, with the search that it starts run to its end
    before the next event.  [SearchAsync.step] has the searches
    suspended at their reads, with the other events in between. *)
Definition step (s : State) (ev : Event) : State :=
  match ev with
  | SetSearchQuery text => debounceEffect (with_searchQuery text s)
  | SetFilters f => debounceEffect (with_filters f s)
  | Focus => with_showResults (2 <? String.length (searchQuery s))%nat s
  | ResultClicked =>
      debounceEffect (with_searchQuery EmptyString (with_showResults false s))
  | TimerFired E =>
      match pending s with
      | Some c => exec (performSearch E c) (with_pending None s)
      | None => s
      end
  end.

Definition run (s : State) (evs : list Event) : State := fold_left step evs s.

(** The store reads a trace holds. *)
Definition fetches (t : list Effect) : list string :=
  omap (fun e => match e with Fetch ref => Some ref | _ => None end) t.

End Component.

End SearchSystem.

(** ** JSON values and the part of JSON.parse the examples use *)

Module Json.

#[local] Set Warnings "-register-all".
Inductive Value :=
| Null
| Bool (b : bool)
| Num (z : Z)
| Str (s : string)
| Arr (items : list Value)
| Obj (members : list (string * Value)).

(** The last member of that name, as JSON.parse keeps it. *)
Fixpoint member (key : string) (members : list (string * Value)) : option Value :=
  match members with
  | [] => None
  | (k, v) :: rest =>
      match member key rest with
      | Some v' => Some v'
      | None => if String.eqb k key then Some v else None
      end
  end.

(** [v[key]] for a key that is no built-in property: [None] is
    [undefined]. *)
Definition prop (v : Value) (key : string) : option Value :=
  match v with
  | Obj members => member key members
  | _ => None
  end.

(** [Boolean(v)] *)
Definition truthy (v : Value) : bool :=
  match v with
  | Null => false
  | Bool b => b
  | Num z => negb (z =? 0)
  | Str s => negb (isEmpty s)
  | Arr _ | Obj _ => true
  end.

Definition truthy_opt (v : option Value) : bool :=
  match v with Some v => truthy v | None => false end.

(** A reader for JSON texts whose numbers are integers and whose
    strings have no escape: the value JSON.parse gives on such a text.
    It answers [None] on the texts JSON.parse rejects, and also on the
    valid texts outside that part. *)

Definition isJsonWs (c : ascii) : bool :=
  let n := code c in ((n =? 32) || (n =? 9) || (n =? 10) || (n =? 13))%N.

Fixpoint skip_ws (s : string) : string :=
  match s with
  | String c s' => if isJsonWs c then skip_ws s' else s
  | EmptyString => EmptyString
  end.

Definition digit (c : ascii) : option Z :=
  let n := code c in
  if ((48 <=? n) && (n <=? 57))%N then Some (Z.of_N n - 48) else None.

Fixpoint read_digits (s : string) (acc : list Z) : list Z * string :=
  match s with
  | String c s' =>
      match digit c with
      | Some d => read_digits s' (acc ++ [d])
      | None => (acc, s)
      end
  | EmptyString => (acc, s)
  end.

Definition read_int (s : string) : option (Z * string) :=
  let '(ds, rest) := read_digits s [] in
  match ds with
  | [] => None
  | d :: ds' =>
      if (d =? 0) && negb (bool_decide (ds' = [])) then None
      else match rest with
           | String c _ =>
               if Ascii.eqb c "." || Ascii.eqb c "e" || Ascii.eqb c "E"
               then None
               else Some (fold_left (fun n d => 10 * n + d) ds 0, rest)
           | EmptyString => Some (fold_left (fun n d => 10 * n + d) ds 0, rest)
           end
  end.

Fixpoint read_chars (s : string) : option (string * string) :=
  match s with
  | EmptyString => None
  | String c s' =>
      if Ascii.eqb c DQ then Some (EmptyString, s')
      else if Ascii.eqb c "\" || (code c <? 32)%N then None
      else match read_chars s' with
           | Some (w, rest) => Some (String c w, rest)
           | None => None
           end
  end.

Fixpoint dropChars (n : nat) (s : string) : string :=
  match n, s with
  | S n', String _ s' => dropChars n' s'
  | _, _ => s
  end.

Definition literal (lit : string) (v : Value) (s : string) : option (Value * string) :=
  if startsWith s lit then Some (v, dropChars (String.length lit) s) else None.

Fixpoint read_value (fuel : nat) (s : string) : option (Value * string) :=
  match fuel with
  | O => None
  | S fuel' =>
      match skip_ws s with
      | EmptyString => None
      | String c rest =>
          if Ascii.eqb c "{" then
            match skip_ws rest with
            | String c' rest' =>
                if Ascii.eqb c' "}" then Some (Obj [], rest')
                else read_members fuel' rest []
            | EmptyString => None
            end
          else if Ascii.eqb c "[" then
            match skip_ws rest with
            | String c' rest' =>
                if Ascii.eqb c' "]" then Some (Arr [], rest')
                else read_elements fuel' rest []
            | EmptyString => None
            end
          else if Ascii.eqb c DQ then
            match read_chars rest with
            | Some (w, rest') => Some (Str w, rest')
            | None => None
            end
          else if Ascii.eqb c "t" then literal "true" (Bool true) (String c rest)
          else if Ascii.eqb c "f" then literal "false" (Bool false) (String c rest)
          else if Ascii.eqb c "n" then literal "null" Null (String c rest)
          else if Ascii.eqb c "-" then
            match read_int rest with
            | Some (n, rest') => Some (Num (- n), rest')
            | None => None
            end
          else
            match read_int (String c rest) with
            | Some (n, rest') => Some (Num n, rest')
            | None => None
            end
      end
  end
with read_elements (fuel : nat) (s : string) (acc : list Value)
    : option (Value * string) :=
  match fuel with
  | O => None
  | S fuel' =>
      match read_value fuel' s with
      | Some (v, rest) =>
          match skip_ws rest with
          | String c rest' =>
              if Ascii.eqb c "," then read_elements fuel' rest' (acc ++ [v])
              else if Ascii.eqb c "]" then Some (Arr (acc ++ [v]), rest')
              else None
          | EmptyString => None
          end
      | None => None
      end
  end
with read_members (fuel : nat) (s : string) (acc : list (string * Value))
    : option (Value * string) :=
  match fuel with
  | O => None
  | S fuel' =>
      match skip_ws s with
      | String q rest =>
          if Ascii.eqb q DQ then
            match read_chars rest with
            | Some (key, rest) =>
                match skip_ws rest with
                | String c rest =>
                    if Ascii.eqb c ":" then
                      match read_value fuel' rest with
                      | Some (v, rest) =>
                          match skip_ws rest with
                          | String c' rest' =>
                              if Ascii.eqb c' ","
                              then read_members fuel' rest' (acc ++ [(key, v)])
                              else if Ascii.eqb c' "}"
                              then Some (Obj (acc ++ [(key, v)]), rest')
                              else None
                          | EmptyString => None
                          end
                      | None => None
                      end
                    else None
                | EmptyString => None
                end
            | None => None
            end
          else None
      | EmptyString => None
      end
  end.

Definition parse (text : string) : option Value :=
  match read_value (S (String.length text)) text with
  | Some (v, rest) => if isEmpty (skip_ws rest) then Some v else None
  | None => None
  end.

(** A string literal of a JSON text. *)
Definition quoted (s : string) : string := String DQ (s +:+ String DQ EmptyString).

End Json.

(** ** The Gemini service wrappers (services/gemini) *)

Module Gemini.

Inductive Role := user | model.

(** A chat turn [{ role, parts: [{ text }] }]. *)
Record Turn := { role : Role; text : string }.

(** The system instructions of the module, by name: the service
    persona of getSystemInstruction, the two constant instructions and
    the brainstorm persona built from the service title. *)
Inductive Instruction :=
| systemInstruction_ (lang : Lang)
| qualificationSystemInstruction
| consultationSystemInstruction
| brainstormSystemInstruction (lang : Lang) (serviceTitle : string).

(** The response schemas: the lead qualification and the proposal. *)
Inductive Schema := qualificationSchema | consultationSchema.

Record Request := {
  contents : list Turn;
  systemInstruction : Instruction;
  responseSchema : option Schema }.

(** [await ai.models.generateContent(request)] either rejects or
    resolves with a response, of which the code reads [text]. *)
Inductive Response := Rejected | Resolved (text : string).

Definition AiClient := Request -> Response.

Inductive Effect :=
| Generate (req : Request)
| ConsoleError (msg : string).

Section Service.

(** [JSON.parse]: [None] when it throws. *)
Variable JSON_parse : string -> option Json.Value.
(** [translations[lang][key]], the table of the constants module. *)
Variable translations : Lang -> string -> string.
(** The client: [None] when no API key is set. *)
Variable ai : option AiClient.

Definition getChatbotResponse (prompt : string) (chatHistory : list Turn)
    (lang : Lang) : string * list Effect :=
  match ai with
  | None => (translations lang "bot_error_key", [])
  | Some client =>
      let req := {| contents := chatHistory ++ [{| role := user; text := prompt |}];
                    systemInstruction := systemInstruction_ lang;
                    responseSchema := None |} in
      match client req with
      | Resolved text => (text, [Generate req])
      | Rejected =>
          (translations lang "bot_error_api",
           [Generate req; ConsoleError "Gemini API Error:"])
      end
  end.

Definition analyzeChatForLeadQualification (chatHistory : list Turn)
    : Json.Value * list Effect :=
  match ai with
  | None => (Json.Null, [])
  | Some client =>
      if (length chatHistory =? 0)%nat then (Json.Null, [])
      else
        let req :=
          {| contents := chatHistory ++
               [{| role := user;
                   text := "Analyze the previous conversation according to your instructions." |}];
             systemInstruction := qualificationSystemInstruction;
             responseSchema := Some qualificationSchema |} in
        match client req with
        | Resolved text =>
            let jsonText := trim text in
            match JSON_parse jsonText with
            | Some v => (v, [Generate req])
            | None =>
                (Json.Null,
                 [Generate req; ConsoleError "Gemini Qualification Error:"])
            end
        | Rejected =>
            (Json.Null,
             [Generate req; ConsoleError "Gemini Qualification Error:"])
        end
  end.

Definition getAiConsultation (problemDescription : string)
    : Json.Value * list Effect :=
  match ai with
  | None => (Json.Null, [])
  | Some client =>
      let req :=
        {| contents := [{| role := user; text := problemDescription |}];
           systemInstruction := consultationSystemInstruction;
           responseSchema := Some consultationSchema |} in
      match client req with
      | Resolved text =>
          let jsonText := trim text in
          match JSON_parse jsonText with
          | Some v => (v, [Generate req])
          | None =>
              (Json.Null,
               [Generate req; ConsoleError "Gemini Consultation Error:"])
          end
      | Rejected =>
          (Json.Null,
           [Generate req; ConsoleError "Gemini Consultation Error:"])
      end
  end.

Definition getBrainstormResponse (idea serviceTitle : string) (lang : Lang)
    : string * list Effect :=
  match ai with
  | None => (translations lang "bot_error_key", [])
  | Some client =>
      let req := {| contents := [{| role := user; text := idea |}];
                    systemInstruction := brainstormSystemInstruction lang serviceTitle;
                    responseSchema := None |} in
      match client req with
      | Resolved text => (text, [Generate req])
      | Rejected =>
          (translations lang "bot_error_api",
           [Generate req; ConsoleError "Gemini Brainstorm Error:"])
      end
  end.

End Service.

End Gemini.

(** ** The chat widget (Chatbot of App.tsx) *)

Module Chatbot.

Import Gemini.

Inductive View :=
| View_main | View_services | View_serviceDetail
| View_brainstormInput | View_brainstormResult
| View_requestService | View_requestSuccess
| View_consultationInput | View_consultationResult.

Global Instance View_eq_dec : EqDecision View.
Proof. solve_decision. Defined.

Record ServiceDetail := { sd_title : string; sd_content : string }.

Record RequestFormData := {
  rf_name : string; rf_email : string; rf_phone : string;
  rf_message : string; rf_contactMethod : list string }.

Definition emptyRequestForm : RequestFormData :=
  {| rf_name := EmptyString; rf_email := EmptyString; rf_phone := EmptyString;
     rf_message := EmptyString; rf_contactMethod := [] |}.

(** The body of the hot-lead POST, before JSON.stringify. *)
Record HotLeadData := {
  leadType : string;
  purchaseIntentScore : option Json.Value;
  businessSummary : option Json.Value;
  leadName : Json.Value;
  leadEmail : Json.Value;
  leadPhone : Json.Value;
  timestamp : string }.

Inductive Effect :=
| Qualify (chatHistory : list Turn)
| Service (e : Gemini.Effect)
| WebhookPost (body : HotLeadData)
| ScrollIntoView (element : string)
| ConsoleError (msg : string).

Record State := {
  isOpen : bool;
  view : View;
  serviceDetail : option ServiceDetail;
  brainstormIdea : string;
  brainstormResult : string;
  consultationResult : option Json.Value;
  consultationProblem : string;
  isLoading : bool;
  showInitialPopup : bool;
  chatHistory : list Turn;
  requestFormData : RequestFormData;
  isConvoSaved : bool;
  trace : list Effect }.

Definition initial : State := {|
  isOpen := false;
  view := View_main;
  serviceDetail := None;
  brainstormIdea := EmptyString;
  brainstormResult := EmptyString;
  consultationResult := None;
  consultationProblem := EmptyString;
  isLoading := false;
  showInitialPopup := false;
  chatHistory := [];
  requestFormData := emptyRequestForm;
  isConvoSaved := false;
  trace := [] |}.

Definition with_isOpen (v : bool) (s : State) : State :=
  {| isOpen := v;
     view := view s;
     serviceDetail := serviceDetail s;
     brainstormIdea := brainstormIdea s;
     brainstormResult := brainstormResult s;
     consultationResult := consultationResult s;
     consultationProblem := consultationProblem s;
     isLoading := isLoading s;
     showInitialPopup := showInitialPopup s;
     chatHistory := chatHistory s;
     requestFormData := requestFormData s;
     isConvoSaved := isConvoSaved s;
     trace := trace s |}.
Definition with_view (v : View) (s : State) : State :=
  {| isOpen := isOpen s;
     view := v;
     serviceDetail := serviceDetail s;
     brainstormIdea := brainstormIdea s;
     brainstormResult := brainstormResult s;
     consultationResult := consultationResult s;
     consultationProblem := consultationProblem s;
     isLoading := isLoading s;
     showInitialPopup := showInitialPopup s;
     chatHistory := chatHistory s;
     requestFormData := requestFormData s;
     isConvoSaved := isConvoSaved s;
     trace := trace s |}.
Definition with_serviceDetail (v : option ServiceDetail) (s : State) : State :=
  {| isOpen := isOpen s;
     view := view s;
     serviceDetail := v;
     brainstormIdea := brainstormIdea s;
     brainstormResult := brainstormResult s;
     consultationResult := consultationResult s;
     consultationProblem := consultationProblem s;
     isLoading := isLoading s;
     showInitialPopup := showInitialPopup s;
     chatHistory := chatHistory s;
     requestFormData := requestFormData s;
     isConvoSaved := isConvoSaved s;
     trace := trace s |}.
Definition with_brainstormIdea (v : string) (s : State) : State :=
  {| isOpen := isOpen s;
     view := view s;
     serviceDetail := serviceDetail s;
     brainstormIdea := v;
     brainstormResult := brainstormResult s;
     consultationResult := consultationResult s;
     consultationProblem := consultationProblem s;
     isLoading := isLoading s;
     showInitialPopup := showInitialPopup s;
     chatHistory := chatHistory s;
     requestFormData := requestFormData s;
     isConvoSaved := isConvoSaved s;
     trace := trace s |}.
Definition with_brainstormResult (v : string) (s : State) : State :=
  {| isOpen := isOpen s;
     view := view s;
     serviceDetail := serviceDetail s;
     brainstormIdea := brainstormIdea s;
     brainstormResult := v;
     consultationResult := consultationResult s;
     consultationProblem := consultationProblem s;
     isLoading := isLoading s;
     showInitialPopup := showInitialPopup s;
     chatHistory := chatHistory s;
     requestFormData := requestFormData s;
     isConvoSaved := isConvoSaved s;
     trace := trace s |}.
Definition with_consultationResult (v : option Json.Value) (s : State) : State :=
  {| isOpen := isOpen s;
     view := view s;
     serviceDetail := serviceDetail s;
     brainstormIdea := brainstormIdea s;
     brainstormResult := brainstormResult s;
     consultationResult := v;
     consultationProblem := consultationProblem s;
     isLoading := isLoading s;
     showInitialPopup := showInitialPopup s;
     chatHistory := chatHistory s;
     requestFormData := requestFormData s;
     isConvoSaved := isConvoSaved s;
     trace := trace s |}.
Definition with_consultationProblem (v : string) (s : State) : State :=
  {| isOpen := isOpen s;
     view := view s;
     serviceDetail := serviceDetail s;
     brainstormIdea := brainstormIdea s;
     brainstormResult := brainstormResult s;
     consultationResult := consultationResult s;
     consultationProblem := v;
     isLoading := isLoading s;
     showInitialPopup := showInitialPopup s;
     chatHistory := chatHistory s;
     requestFormData := requestFormData s;
     isConvoSaved := isConvoSaved s;
     trace := trace s |}.
Definition with_isLoading (v : bool) (s : State) : State :=
  {| isOpen := isOpen s;
     view := view s;
     serviceDetail := serviceDetail s;
     brainstormIdea := brainstormIdea s;
     brainstormResult := brainstormResult s;
     consultationResult := consultationResult s;
     consultationProblem := consultationProblem s;
     isLoading := v;
     showInitialPopup := showInitialPopup s;
     chatHistory := chatHistory s;
     requestFormData := requestFormData s;
     isConvoSaved := isConvoSaved s;
     trace := trace s |}.
Definition with_showInitialPopup (v : bool) (s : State) : State :=
  {| isOpen := isOpen s;
     view := view s;
     serviceDetail := serviceDetail s;
     brainstormIdea := brainstormIdea s;
     brainstormResult := brainstormResult s;
     consultationResult := consultationResult s;
     consultationProblem := consultationProblem s;
     isLoading := isLoading s;
     showInitialPopup := v;
     chatHistory := chatHistory s;
     requestFormData := requestFormData s;
     isConvoSaved := isConvoSaved s;
     trace := trace s |}.
Definition with_chatHistory (v : list Turn) (s : State) : State :=
  {| isOpen := isOpen s;
     view := view s;
     serviceDetail := serviceDetail s;
     brainstormIdea := brainstormIdea s;
     brainstormResult := brainstormResult s;
     consultationResult := consultationResult s;
     consultationProblem := consultationProblem s;
     isLoading := isLoading s;
     showInitialPopup := showInitialPopup s;
     chatHistory := v;
     requestFormData := requestFormData s;
     isConvoSaved := isConvoSaved s;
     trace := trace s |}.
Definition with_requestFormData (v : RequestFormData) (s : State) : State :=
  {| isOpen := isOpen s;
     view := view s;
     serviceDetail := serviceDetail s;
     brainstormIdea := brainstormIdea s;
     brainstormResult := brainstormResult s;
     consultationResult := consultationResult s;
     consultationProblem := consultationProblem s;
     isLoading := isLoading s;
     showInitialPopup := showInitialPopup s;
     chatHistory := chatHistory s;
     requestFormData := v;
     isConvoSaved := isConvoSaved s;
     trace := trace s |}.
Definition with_isConvoSaved (v : bool) (s : State) : State :=
  {| isOpen := isOpen s;
     view := view s;
     serviceDetail := serviceDetail s;
     brainstormIdea := brainstormIdea s;
     brainstormResult := brainstormResult s;
     consultationResult := consultationResult s;
     consultationProblem := consultationProblem s;
     isLoading := isLoading s;
     showInitialPopup := showInitialPopup s;
     chatHistory := chatHistory s;
     requestFormData := requestFormData s;
     isConvoSaved := v;
     trace := trace s |}.
Definition with_trace (v : list Effect) (s : State) : State :=
  {| isOpen := isOpen s;
     view := view s;
     serviceDetail := serviceDetail s;
     brainstormIdea := brainstormIdea s;
     brainstormResult := brainstormResult s;
     consultationResult := consultationResult s;
     consultationProblem := consultationProblem s;
     isLoading := isLoading s;
     showInitialPopup := showInitialPopup s;
     chatHistory := chatHistory s;
     requestFormData := requestFormData s;
     isConvoSaved := isConvoSaved s;
     trace := v |}.

Definition emit (e : Effect) (s : State) : State := with_trace (trace s ++ [e]) s.

(** [setView(v)], with the effect on [view] that clears the saved
    mark when the view changed. *)
Definition setView (v : View) : M State unit :=
  modify (fun s => if bool_decide (view s = v) then s
                   else with_isConvoSaved false (with_view v s)).

(** [setChatHistory(prev => [...prev, turn])] *)
Definition pushTurn (turn : Turn) : M State unit :=
  modify (fun s => with_chatHistory (chatHistory s ++ [turn]) s).

(** A call of a service wrapper: its result, its effects recorded. *)
Definition call {A} (r : A * list Gemini.Effect) : M State A :=
  modify (fun s => with_trace (trace s ++ (Service <$> r.2)) s) ;;
  mret r.1.

(** What one run of a handler meets outside the component: the
    client, whether the webhook POST resolves, and the clock. *)
Record Env := {
  ai : option AiClient;
  fetch_resolves : bool;
  now : string }.

(** [v || 'N/A'] *)
Definition or_NA (v : option Json.Value) : Json.Value :=
  match v with
  | Some x => if Json.truthy x then x else Json.Str "N/A"
  | None => Json.Str "N/A"
  end.

Section Component.

Variable JSON_parse : string -> option Json.Value.
Variable JSON_stringify : Json.Value -> string.
Variable translations : Lang -> string -> string.
Variable lang : Lang.

Definition resetChat : M State unit :=
  setView View_main ;;
  modify (with_serviceDetail None) ;;
  modify (with_brainstormIdea EmptyString) ;;
  modify (with_brainstormResult EmptyString) ;;
  modify (with_consultationResult None) ;;
  modify (with_consultationProblem EmptyString) ;;
  modify (with_chatHistory []) ;;
  modify (with_requestFormData emptyRequestForm) ;;
  modify (with_isConvoSaved false).

(** [await fetch(N8N_WEBHOOK_URL, { method: 'POST', ... })] *)
Definition postWebhook (E : Env) (body : HotLeadData) : M State unit :=
  modify (emit (WebhookPost body)) ;;
  if fetch_resolves E then mret tt else throw.

Definition handleCloseChat (E : Env) : M State unit :=
  s ← get;
  let chatHistory := chatHistory s in
  modify (with_isOpen false) ;;
  (if (0 <? length chatHistory)%nat then
     try_catch
       (modify (emit (Qualify chatHistory)) ;;
        analysis ← call (analyzeChatForLeadQualification JSON_parse (ai E) chatHistory);
        if Json.truthy_opt (Json.prop analysis "isHotLead") then
          let hotLeadData :=
            {| leadType := "Hot Lead - Auto Detected";
               purchaseIntentScore := Json.prop analysis "purchaseIntentScore";
               businessSummary := Json.prop analysis "businessSummary";
               leadName := or_NA (Json.prop analysis "leadName");
               leadEmail := or_NA (Json.prop analysis "leadEmail");
               leadPhone := or_NA (Json.prop analysis "leadPhone");
               timestamp := now E |} in
          postWebhook E hotLeadData
        else mret tt)
       (modify (emit (ConsoleError "Failed to process or send hot lead webhook:")))
   else mret tt) ;;
  resetChat.

Inductive Action :=
| action_main | action_services | action_projects
| action_contact | action_consultation.

Definition handleAction (E : Env) (action : Action) : M State unit :=
  match action with
  | action_main => setView View_main ;; modify (with_serviceDetail None)
  | action_services => setView View_services
  | action_consultation => setView View_consultationInput
  | action_projects =>
      modify (emit (ScrollIntoView "projects")) ;; handleCloseChat E
  | action_contact =>
      modify (emit (ScrollIntoView "contact")) ;; handleCloseChat E
  end.

(** [handleShowServiceDetail(service)], of which the handler reads
    [service.title[lang]] only. *)
Definition handleShowServiceDetail (E : Env) (serviceTitle : string)
    : M State unit :=
  setView View_serviceDetail ;;
  modify (with_isLoading true) ;;
  let userPrompt :=
    "Tell me about the " +:+ Json.quoted serviceTitle +:+ " service." in
  let aiPrompt :=
    "Provide a concise, engaging, and persuasive description for the following service: "
    +:+ Json.quoted serviceTitle
    +:+ ". Explain its value and benefits for a potential client. Frame it as an investment using the 'leaky bucket' analogy where appropriate." in
  pushTurn {| role := user; text := userPrompt |} ;;
  modify (with_serviceDetail
            (Some {| sd_title := serviceTitle; sd_content := EmptyString |})) ;;
  responseText ← call (getChatbotResponse translations (ai E) aiPrompt [] lang);
  pushTurn {| role := model; text := responseText |} ;;
  modify (with_serviceDetail
            (Some {| sd_title := serviceTitle; sd_content := responseText |})) ;;
  modify (with_isLoading false).

Definition handleBrainstormSubmit (E : Env) : M State unit :=
  s ← get;
  let brainstormIdea := brainstormIdea s in
  let title_text :=
    match serviceDetail s with
    | Some d => sd_title d
    | None => "undefined"
    end in
  let title_or_empty :=
    match serviceDetail s with
    | Some d => sd_title d
    | None => EmptyString
    end in
  modify (with_isLoading true) ;;
  setView View_brainstormResult ;;
  modify (with_brainstormResult EmptyString) ;;
  pushTurn {| role := user;
              text := "User idea for " +:+ title_text +:+ ": " +:+ brainstormIdea |} ;;
  response ← call (getBrainstormResponse translations (ai E)
                     brainstormIdea title_or_empty lang);
  pushTurn {| role := model; text := response |} ;;
  modify (with_brainstormResult response) ;;
  modify (with_isLoading false).

Definition handleConsultationSubmit (E : Env) : M State unit :=
  s ← get;
  let consultationProblem := consultationProblem s in
  modify (with_isLoading true) ;;
  setView View_consultationResult ;;
  modify (with_consultationResult None) ;;
  pushTurn {| role := user;
              text := "Business Problem: " +:+ consultationProblem |} ;;
  result ← call (getAiConsultation JSON_parse (ai E) consultationProblem);
  (if Json.truthy result then
     modify (with_consultationResult (Some result)) ;;
     pushTurn {| role := model;
                 text := "Generated Proposal: " +:+ JSON_stringify result |}
   else setView View_consultationInput) ;;
  modify (with_isLoading false).

(** What renderContent shows, by view: which block, and the texts
    and values it takes from the state. *)
Inductive Body := Loading | Content (text : option string).

Inductive Rendered :=
| MainMenu
| ServiceList
| ServiceDetailBlock (title : option string) (body : Body)
| BrainstormForm (idea : string)
| BrainstormBlock (body : Body)
| RequestForm (form : RequestFormData)
| RequestSuccess
| ConsultationForm (problem : string)
| Spinner
| ProposalError
| Proposal (problemAnalysis proposedSolution : option Json.Value)
           (suggestedServices : list Json.Value)
| RenderThrows.

Definition renderContent (s : State) : Rendered :=
  match view s with
  | View_main => MainMenu
  | View_services => ServiceList
  | View_serviceDetail =>
      ServiceDetailBlock (sd_title <$> serviceDetail s)
        (if isLoading s then Loading
         else Content (sd_content <$> serviceDetail s))
  | View_brainstormInput => BrainstormForm (brainstormIdea s)
  | View_brainstormResult =>
      BrainstormBlock
        (if isLoading s then Loading else Content (Some (brainstormResult s)))
  | View_requestService => RequestForm (requestFormData s)
  | View_requestSuccess => RequestSuccess
  | View_consultationInput => ConsultationForm (consultationProblem s)
  | View_consultationResult =>
      if isLoading s then Spinner
      else match consultationResult s with
           | None => ProposalError
           | Some r =>
               match Json.prop r "suggestedServices" with
               | Some (Json.Arr items) =>
                   Proposal (Json.prop r "problemAnalysis")
                            (Json.prop r "proposedSolution") items
               | _ => RenderThrows
               end
           end
  end.

End Component.

End Chatbot.

(** ** Closed forms and the formulas of the specification *)

Module Formula.

(** The sum of [g i x] over the elements [x] of [l], the first of
    which has index [i]. *)
Fixpoint sumFrom {A} (i : nat) (g : nat -> A -> Z) (l : list A) : Z :=
  match l with
  | [] => 0
  | x :: l' => g i x + sumFrom (S i) g l'
  end.

(** A pair of words counts when one contains the other. *)
Definition pairMatch (queryWord fieldWord : string) : bool :=
  includes fieldWord queryWord || includes queryWord fieldWord.

(** The number of field words that count with a query word. *)
Fixpoint countIn (queryWord : string) (fieldWords : list string) : Z :=
  match fieldWords with
  | [] => 0
  | fw :: fws => (if pairMatch queryWord fw then 1 else 0) + countIn queryWord fws
  end.

(** The number of (query word, field word) pairs that count. *)
Fixpoint countPairs (queryWords fieldWords : list string) : Z :=
  match queryWords with
  | [] => 0
  | qw :: qws => countIn qw fieldWords + countPairs qws fieldWords
  end.

(** What the code adds for the field [f] at index [i] of [n] fields:
    nothing for an empty field; else ten times the weight [n - i] when
    the field contains the query, and twice the weight for each pair
    of the pieces that a split at the space character gives. *)
Definition fieldScore (query : string) (n : nat) (i : nat) (f : string) : Z :=
  if isEmpty f then 0
  else
    let w := Z.of_nat n - Z.of_nat i in
    let queryLower := toLowerCase query in
    let fieldLower := toLowerCase f in
    (if includes fieldLower queryLower then w * 10 else 0)
    + w * 2 * countPairs (split SP queryLower) (split SP fieldLower).

(** A field without a match: it adds nothing to the score. *)
Definition noMatch (query f : string) : bool :=
  isEmpty f
  || (negb (includes (toLowerCase f) (toLowerCase query))
      && (countPairs (split SP (toLowerCase query)) (split SP (toLowerCase f)) =? 0)).

(** A query made of space characters only (the empty one included). *)
Fixpoint onlySpaces (s : string) : bool :=
  match s with
  | EmptyString => true
  | String c s' => Ascii.eqb c SP && onlySpaces s'
  end.

(** The words of a text as the specification has them: the maximal
    runs of characters that are no white space. *)
Fixpoint spec_words (s : string) : list string :=
  match s with
  | EmptyString => []
  | String c s' =>
      if isWhiteSpace c then spec_words s'
      else match s' with
           | EmptyString => [String c EmptyString]
           | String c' _ =>
               if isWhiteSpace c' then String c EmptyString :: spec_words s'
               else match spec_words s' with
                    | w :: ws => String c w :: ws
                    | [] => [String c EmptyString]
                    end
           end
  end.

(** A text of words with one space between them: no other white
    space, no space at either end, no two spaces in a row, and at
    least one word.  [afterSpace] tells that the previous character
    was a space, or that the text starts here. *)
Fixpoint singleSpaced_go (afterSpace : bool) (s : string) : bool :=
  match s with
  | EmptyString => negb afterSpace
  | String c s' =>
      if Ascii.eqb c SP then negb afterSpace && singleSpaced_go true s'
      else negb (isWhiteSpace c) && singleSpaced_go false s'
  end.
Definition singleSpaced (s : string) : bool := singleSpaced_go true s.

(** The score of the specification, steps 1 to 3 of its algorithm. *)
Definition spec_fieldScore (query : string) (n : nat) (i : nat) (f : string) : Z :=
  let w := Z.of_nat n - Z.of_nat i in
  let queryLower := toLowerCase query in
  let fieldLower := toLowerCase f in
  (if includes fieldLower queryLower then w * 10 else 0)
  + w * 2 * countPairs (spec_words queryLower) (spec_words fieldLower).

Definition spec_relevance (query : string) (fields : list string) : Z :=
  sumFrom 0 (spec_fieldScore query (length fields)) fields.

(** *** The search component *)

Import SearchSystem.

Definition isNone {A} (o : option A) : bool :=
  match o with None => true | Some _ => false end.

(** A read of a collection that the filter selects is rejected. *)
Definition readRejected (f : Filters) (d : Database) : bool :=
  (typeSelected f "project" && isNone (projects d))
  || (typeSelected f "service" && isNone (services d))
  || (typeSelected f "post" && isNone (communityPosts d)).

(** Every read of the store resolves. *)
Definition readsResolve (d : Database) : bool :=
  negb (isNone (projects d)) && negb (isNone (services d))
  && negb (isNone (communityPosts d)).

(** An event that sets no query of more than two characters once
    trimmed. *)
Definition keepsShort (ev : Event) : bool :=
  match ev with
  | SetSearchQuery text => (String.length (trim text) <=? 2)%nat
  | _ => true
  end.

(** The result list of the specification when reads fail: a
    collection whose read is rejected gives nothing, the others are
    scored, filtered and sorted as usual. *)
Definition spec_partialResults (localeCompare : string -> string -> Z)
    (lang : Lang) (E : Env) (c : Closure) : list SearchResult :=
  let results : list SearchResult := [] in
  let results :=
    if typeSelected (cl_filters c) "project"
    then searchProjects lang (cl_query c) (default [] (projects (db E))) results
    else results in
  let results :=
    if typeSelected (cl_filters c) "service"
    then searchServices lang (cl_query c) (default [] (services (db E))) results
    else results in
  let results :=
    if typeSelected (cl_filters c) "post"
    then searchPosts (cl_query c) (default [] (communityPosts (db E))) results
    else results in
  sortResults localeCompare (f_sortBy (cl_filters c)) results.

(** *** The chat widget *)

Import Gemini Chatbot.

(** The request of analyzeChatForLeadQualification for a transcript. *)
Definition qualificationRequest (chatHistory : list Turn) : Request :=
  {| contents := chatHistory ++
       [{| role := user;
           text := "Analyze the previous conversation according to your instructions." |}];
     systemInstruction := qualificationSystemInstruction;
     responseSchema := Some qualificationSchema |}.

(** The request of getAiConsultation for a problem. *)
Definition consultationRequest (problemDescription : string) : Request :=
  {| contents := [{| role := user; text := problemDescription |}];
     systemInstruction := consultationSystemInstruction;
     responseSchema := Some consultationSchema |}.

(** The invariant of the specification on a lead qualification:
    isHotLead is a boolean, purchaseIntentScore a number, and the
    first is true exactly when the second is at least 85. *)
Definition spec_hotLeadInvariant (v : Json.Value) : bool :=
  match Json.prop v "isHotLead", Json.prop v "purchaseIntentScore" with
  | Some (Json.Bool b), Some (Json.Num score) => Bool.eqb b (85 <=? score)
  | _, _ => false
  end.

(** A structured call fails: it is rejected, or its text does not
    parse. *)
Definition structuredCallFails (JSON_parse : string -> option Json.Value)
    (client : AiClient) (req : Request) : bool :=
  match client req with
  | Rejected => true
  | Resolved text => isNone (JSON_parse (trim text))
  end.

(** The consultation of a problem gives no proposal: there is no
    client, or the structured call fails. *)
Definition consultationFails (JSON_parse : string -> option Json.Value)
    (E : Env) (problem : string) : bool :=
  match ai E with
  | None => true
  | Some client => structuredCallFails JSON_parse client (consultationRequest problem)
  end.

(** The transcripts a trace shows analyzeChatForLeadQualification
    called with, and the requests it shows sent to the model. *)
Definition qualifications (t : list Chatbot.Effect) : list (list Turn) :=
  omap (fun e => match e with Qualify h => Some h | _ => None end) t.

Definition generated (effs : list Gemini.Effect) : list Request :=
  omap (fun e => match e with Generate req => Some req | _ => None end) effs.

Definition requestsSent (t : list Chatbot.Effect) : list Request :=
  omap (fun e => match e with Service (Generate req) => Some req | _ => None end) t.

End Formula.

Import Formula.

(** ** Inputs of the examples *)

Module Examples.

(** A store for the examples: the read of the projects is rejected,
    and one service matches the query automation. *)
Definition example_localeCompare (a b : string) : Z := 0.

Definition example_service : SearchSystem.Service :=
  {| SearchSystem.s_title :=
       Some {| SearchSystem.loc_en := Some "Process Automation";
               SearchSystem.loc_ar := None |};
     SearchSystem.s_desc :=
       Some {| SearchSystem.loc_en := Some "Workflows that run by themselves";
               SearchSystem.loc_ar := None |} |}.

(** An example of the paths that [database.ref] accepts: those that
    are not empty and hold none of the characters . # $ [ ] that the
    error of the library names. *)
Fixpoint example_noneOf (bad : list ascii) (path : string) : bool :=
  match path with
  | EmptyString => true
  | String c path' =>
      negb (existsb (Ascii.eqb c) bad) && example_noneOf bad path'
  end.

Definition example_validPath (path : string) : bool :=
  negb (isEmpty path)
  && example_noneOf ["."%char; "#"%char; "$"%char; "["%char; "]"%char] path.

Definition example_failing_store : SearchSystem.Env :=
  {| SearchSystem.db :=
       {| SearchSystem.projects := None;
          SearchSystem.services := Some [("s1", example_service)];
          SearchSystem.communityPosts := Some [] |};
     SearchSystem.today := "2025-01-01";
     SearchSystem.validPath := example_validPath |}.

Definition example_empty_store : SearchSystem.Env :=
  {| SearchSystem.db :=
       {| SearchSystem.projects := Some [];
          SearchSystem.services := Some [("s1", example_service)];
          SearchSystem.communityPosts := Some [] |};
     SearchSystem.today := "2025-01-01";
     SearchSystem.validPath := example_validPath |}.

Definition example_closure : SearchSystem.Closure :=
  {| SearchSystem.cl_query := "automation";
     SearchSystem.cl_filters := SearchSystem.filters SearchSystem.initial;
     SearchSystem.cl_history := [] |}.

Definition example_typed : SearchSystem.State :=
  SearchSystem.step example_localeCompare en SearchSystem.initial
    (SearchSystem.SetSearchQuery "automation").

(** The state after the search for automation: one result is shown. *)
Definition example_searched : SearchSystem.State :=
  SearchSystem.step example_localeCompare en example_typed
    (SearchSystem.TimerFired example_empty_store).

(** An example of the table of the constants module, which gives the
    two error texts of the assistant; every other key, and the Arabic
    side, answer the key itself. *)
Definition example_translations (lang : Lang) (key : string) : string :=
  match lang with
  | en =>
      if String.eqb key "bot_error_key"
      then "The assistant is not configured."
      else if String.eqb key "bot_error_api"
      then "Sorry, something went wrong. Please try again."
      else key
  | ar => key
  end.

(** A stand-in for JSON.stringify, which no example reaches. *)
Definition example_stringify (v : Json.Value) : string := "{}".

(** A model whose calls are all rejected. *)
Definition example_rejecting : Gemini.AiClient := fun _ => Gemini.Rejected.

(** A model that answers a score of 90 with isHotLead false. *)
Definition example_inconsistent_text : string :=
  "{" +:+ Json.quoted "purchaseIntentScore" +:+ ": 90, "
  +:+ Json.quoted "isHotLead" +:+ ": false, "
  +:+ Json.quoted "businessSummary" +:+ ": "
  +:+ Json.quoted "Wants a Telegram bot this week" +:+ "}".

Definition example_inconsistent : Gemini.AiClient :=
  fun _ => Gemini.Resolved example_inconsistent_text.

(** A model that answers with a text that is no JSON. *)
Definition example_garbled : Gemini.AiClient :=
  fun _ => Gemini.Resolved "Sorry, I cannot help with that.".

Definition example_transcript : list Gemini.Turn :=
  [{| Gemini.role := Gemini.user;
      Gemini.text := "I need a Telegram bot this week, what does it cost?" |};
   {| Gemini.role := Gemini.model;
      Gemini.text := "A custom bot pays for itself within weeks." |}].

Definition example_env (client : option Gemini.AiClient) : Chatbot.Env :=
  {| Chatbot.ai := client;
     Chatbot.fetch_resolves := true;
     Chatbot.now := "2025-01-01T00:00:00.000Z" |}.

(** The chat on the consultation form, a problem typed in. *)
Definition example_consulting : Chatbot.State :=
  Chatbot.with_consultationProblem "Our invoices are typed by hand"
    (Chatbot.with_view Chatbot.View_consultationInput
       (Chatbot.with_isOpen true Chatbot.initial)).

End Examples.

Import Examples.

(** ** The rest of the search component *)

Module SearchPanel.

Import SearchSystem.

(** The name of a result type, as the type filter spells it. *)
Definition kindName (t : ResultType) : string :=
  match t with
  | project_ => "project"
  | service_ => "service"
  | post_ => "post"
  end.

(** The collection a result type is read from. *)
Definition collectionOf (t : ResultType) : string :=
  match t with
  | project_ => "projects"
  | service_ => "services"
  | post_ => "communityPosts"
  end.

(** The block of recent and popular searches is rendered inside the
    panel, when [searchQuery.length <= 2]. *)
Definition suggestionsVisible (s : State) : bool :=
  showResults s && (String.length (searchQuery s) <=? 2)%nat.

(** The value that the last [localStorage.setItem('searchHistory', ...)]
    of a trace left, before JSON.stringify. *)
Definition storedHistory (t : list Effect) : option (list string) :=
  last (omap (fun e => match e with
                       | LocalStorageSet _ value => Some value
                       | _ => None
                       end) t).

(** The terms of the five largest counters, largest first: the
    [sort], [slice(0, 5)] and [map] of loadPopularSearches over the
    entries of the counters object. *)
Definition topSearches (popular : list (string * Z)) : list string :=
  (take 5 (sort (fun a b => b.2 - a.2) popular)).*1.

(** loadPopularSearches: the read is rejected ([None]), or gives null
    ([Some None]) or the counters; the result is the new list of
    popular searches and what was logged. *)
Definition loadPopularSearches (read : option (option (list (string * Z))))
    (popularSearches : list string) : list string * list Effect :=
  match read with
  | Some val =>
      let popular := default [] val in
      (topSearches popular, [Fetch "analytics/popularSearches"])
  | None =>
      (popularSearches,
       [Fetch "analytics/popularSearches";
        ConsoleError "Error loading popular searches:"])
  end.

(** The collections a search reads, in the order it reads them. *)
Definition selectedCollections (f : Filters) : list string :=
  (if typeSelected f "project" then ["projects"] else [])
  ++ (if typeSelected f "service" then ["services"] else [])
  ++ (if typeSelected f "post" then ["communityPosts"] else []).

(** Whether the read of a collection is rejected in a store. *)
Definition rejectedIn (d : Database) (collection : string) : bool :=
  if String.eqb collection "projects" then isNone (projects d)
  else if String.eqb collection "services" then isNone (services d)
  else if String.eqb collection "communityPosts" then isNone (communityPosts d)
  else false.

(** The result that a child of each collection gives, if it gives one:
    the body of the three [forEach] callbacks of performSearch. *)
Definition projectResult (lang : Lang) (query : string)
    (child : string * Project) : option SearchResult :=
  let relevance := calculateRelevance query
    [pick lang (p_title child.2);
     pick lang (p_description child.2);
     pick lang (p_category child.2)] in
  if 0 <? relevance
  then Some {| id := child.1;
               title := pick lang (p_title child.2);
               description := pick lang (p_description child.2);
               type := project_;
               category := Some (pick lang (p_category child.2));
               image := p_image child.2;
               relevanceScore := relevance |}
  else None.

Definition serviceResult (lang : Lang) (query : string)
    (child : string * Service) : option SearchResult :=
  let relevance := calculateRelevance query
    [pick lang (s_title child.2); pick lang (s_desc child.2)] in
  if 0 <? relevance
  then Some {| id := child.1;
               title := pick lang (s_title child.2);
               description := pick lang (s_desc child.2);
               type := service_;
               category := None;
               image := None;
               relevanceScore := relevance |}
  else None.

Definition postResult (query : string)
    (child : string * CommunityPost) : option SearchResult :=
  if c_isApproved child.2 then
    let relevance := calculateRelevance query
      [c_title child.2; c_description child.2] in
    if 0 <? relevance
    then Some {| id := child.1;
                 title := c_title child.2;
                 description := c_description child.2;
                 type := post_;
                 category := None;
                 image := None;
                 relevanceScore := relevance |}
    else None
  else None.

(** The results of a search before the sort: those of the projects,
    then of the services, then of the posts, each in the order of its
    collection, for the collections that the filter selects. *)
Definition matches (lang : Lang) (E : Env) (c : Closure) : list SearchResult :=
  (if typeSelected (cl_filters c) "project"
   then omap (projectResult lang (cl_query c)) (default [] (projects (db E)))
   else [])
  ++ (if typeSelected (cl_filters c) "service"
      then omap (serviceResult lang (cl_query c)) (default [] (services (db E)))
      else [])
  ++ (if typeSelected (cl_filters c) "post"
      then omap (postResult (cl_query c)) (default [] (communityPosts (db E)))
      else []).

(** What the two counter transactions of saveSearchToHistory leave in
    the trace of a search: a reference that the library rejects throws
    inside the [try] of performSearch, so that the error goes to the
    console and the transactions after it are not started. *)
Definition counterEffects (E : Env) (query : string) : list Effect :=
  if validPath E ("analytics/searches/" +:+ today E)
  then Transaction ("analytics/searches/" +:+ today E)
       :: (if validPath E ("analytics/popularSearches/" +:+ query)
           then [Transaction ("analytics/popularSearches/" +:+ query)]
           else [ConsoleError "Error performing search:"])
  else [ConsoleError "Error performing search:"].

(** The history that saveSearchToHistory computes. *)
Definition newHistory (query : string) (history : list string) : list string :=
  take 10 (query :: filter (fun h => h <> query) history).

(** What a render closes over. *)
Definition closureOf (s : State) : Closure :=
  {| cl_query := searchQuery s;
     cl_filters := filters s;
     cl_history := searchHistory s |}.

(** A query that starts a search: more than two characters once
    trimmed. *)
Definition long (query : string) : Prop :=
  (2 < String.length (trim query))%nat.

(** What every state of the component satisfies between two events,
    when each search runs to its end before the next event. *)
Definition settled (s : State) : Prop :=
  isSearching s = false
  /\ (forall c, pending s = Some c -> c = closureOf s /\ long (searchQuery s))
  /\ (~ long (searchQuery s) -> searchResults s = [])
  /\ ((String.length (searchQuery s) <= 2)%nat -> showResults s = false)
  /\ NoDup (searchHistory s)
  /\ Forall long (searchHistory s)
  /\ default [] (storedHistory (trace s)) = searchHistory s.

(** A text without a space character. *)
Fixpoint noSpace (s : string) : bool :=
  match s with
  | EmptyString => true
  | String c s' => negb (Ascii.eqb c SP) && noSpace s'
  end.

End SearchPanel.

Import SearchPanel.

(** ** The search component, with its searches interleaved

    performSearch is an async function: it runs up to its first
    [await] when the timer ends, and each read that settles resumes it
    up to the next [await] or to its end.  Other events of the
    component, the end of another timer included, can come in
    between; the search keeps the query, the filters and the history
    of the render that set its timer. *)

Module SearchAsync.

Import SearchSystem.

(** The three reads at which performSearch can be suspended. *)
Inductive Stage := AwaitProjects | AwaitServices | AwaitPosts.

Definition kindOf (k : Stage) : string :=
  match k with
  | AwaitProjects => "project"
  | AwaitServices => "service"
  | AwaitPosts => "post"
  end.

Definition refOf (k : Stage) : string :=
  match k with
  | AwaitProjects => "projects"
  | AwaitServices => "services"
  | AwaitPosts => "communityPosts"
  end.

(** The reads that come after a read in performSearch. *)
Definition after (k : Stage) : list Stage :=
  match k with
  | AwaitProjects => [AwaitServices; AwaitPosts]
  | AwaitServices => [AwaitPosts]
  | AwaitPosts => []
  end.

(** A search in flight: what it closes over, the read that it awaits,
    and its local [results] so far. *)
Record Flight := {
  fl_closure : Closure;
  fl_stage : Stage;
  fl_results : list SearchResult }.

(** The component and its searches in flight, the oldest first. *)
Record Page := { component : State; flights : list Flight }.

Definition initialPage : Page := {| component := initial; flights := [] |}.

Section Component.

Variable localeCompare : string -> string -> Z.
Variable lang : Lang.

(** The end of performSearch once the last read has resolved: the
    sort, setSearchResults and saveSearchToHistory inside the [try],
    then the [catch] and the [finally]. *)
Definition conclude (E : Env) (c : Closure) (results : list SearchResult)
    : M State unit :=
  try_catch_finally
    (let sortedResults :=
       sortResults localeCompare (f_sortBy (cl_filters c)) results in
     modify (with_searchResults sortedResults) ;;
     saveSearchToHistory E c (cl_query c))
    (modify (emit (ConsoleError "Error performing search:")))
    (modify (with_isSearching false)).

(** The end of performSearch when a read is rejected: the [catch] and
    the [finally]. *)
Definition abandon : M State unit :=
  try_catch_finally
    throw
    (modify (emit (ConsoleError "Error performing search:")))
    (modify (with_isSearching false)).

(** performSearch from the [if] of the reads [ahead] on: it goes to
    the first of them that the type filter selects, starts that read
    and is suspended there; with none selected it runs to its end. *)
Fixpoint advance (E : Env) (c : Closure) (results : list SearchResult)
    (ahead : list Stage) (s : State) : State * option Flight :=
  match ahead with
  | [] => (exec (conclude E c results) s, None)
  | k :: ahead' =>
      if typeSelected (cl_filters c) (kindOf k)
      then (emit (Fetch (refOf k)) s,
            Some {| fl_closure := c; fl_stage := k; fl_results := results |})
      else advance E c results ahead' s
  end.

(** The end of the 300 ms: the timer goes, and the performSearch of
    its render starts.  [E] gives the clock and the accepted paths for
    a search that ends without a read. *)
Definition start (E : Env) (p : Page) : Page :=
  match pending (component p) with
  | None => p
  | Some c =>
      let s := with_pending None (component p) in
      if isEmpty (trim (cl_query c))
      then {| component := s; flights := flights p |}
      else
        let s := with_showResults true (with_isSearching true s) in
        match advance E c [] [AwaitProjects; AwaitServices; AwaitPosts] s with
        | (s', Some fl) => {| component := s'; flights := flights p ++ [fl] |}
        | (s', None) => {| component := s'; flights := flights p |}
        end
  end.

(** What the awaited read of a flight gives in a store: the results
    with those of the snapshot, or [None] when the read is rejected. *)
Definition resumed (E : Env) (fl : Flight) : option (list SearchResult) :=
  let query := cl_query (fl_closure fl) in
  match fl_stage fl with
  | AwaitProjects =>
      (fun snapshot => searchProjects lang query snapshot (fl_results fl))
        <$> projects (db E)
  | AwaitServices =>
      (fun snapshot => searchServices lang query snapshot (fl_results fl))
        <$> services (db E)
  | AwaitPosts =>
      (fun snapshot => searchPosts query snapshot (fl_results fl))
        <$> communityPosts (db E)
  end.

(** The read that the flight at index [i] awaits settles as the store
    of [E] has it, and the search goes on to its next read or to its
    end. *)
Definition settle (i : nat) (E : Env) (p : Page) : Page :=
  match flights p !! i with
  | None => p
  | Some fl =>
      match resumed E fl with
      | None =>
          {| component := exec abandon (component p);
             flights := delete i (flights p) |}
      | Some results =>
          match advance E (fl_closure fl) results (after (fl_stage fl))
                  (component p) with
          | (s', Some fl') =>
              {| component := s'; flights := <[i := fl']> (flights p) |}
          | (s', None) =>
              {| component := s'; flights := delete i (flights p) |}
          end
      end
  end.

(** The events of the interleaved component: those of the user as in
    [SearchSystem.step], the end of the timer, and a read of a search
    in flight that settles. *)
Inductive Event :=
| Typed (text : string)
| Filtered (f : Filters)
| Focused
| Clicked
| TimerEnded (E : Env)
| ReadSettled (i : nat) (E : Env).

Definition onComponent (f : State -> State) (p : Page) : Page :=
  {| component := f (component p); flights := flights p |}.

Definition step (p : Page) (ev : Event) : Page :=
  match ev with
  | Typed text =>
      onComponent (fun s => debounceEffect (with_searchQuery text s)) p
  | Filtered f =>
      onComponent (fun s => debounceEffect (with_filters f s)) p
  | Focused =>
      onComponent
        (fun s => with_showResults (2 <? String.length (searchQuery s))%nat s) p
  | Clicked =>
      onComponent
        (fun s => debounceEffect
                    (with_searchQuery EmptyString (with_showResults false s))) p
  | TimerEnded E => start E p
  | ReadSettled i E => settle i E p
  end.

Definition run (p : Page) (evs : list Event) : Page := fold_left step evs p.

End Component.

(** What every page satisfies between two events, whatever the
    interleaving. *)
Definition wellKept (c : Closure) : Prop :=
  long (cl_query c) /\ NoDup (cl_history c) /\ Forall long (cl_history c).

Definition steady (p : Page) : Prop :=
  let s := component p in
  (forall c, pending s = Some c ->
             cl_query c = searchQuery s /\ cl_filters c = filters s
             /\ wellKept c)
  /\ (flights p = [] -> isSearching s = false)
  /\ ((String.length (searchQuery s) <= 2)%nat -> showResults s = false)
  /\ NoDup (searchHistory s)
  /\ Forall long (searchHistory s)
  /\ default [] (storedHistory (trace s)) = searchHistory s
  /\ Forall (fun fl => wellKept (fl_closure fl)) (flights p).

End SearchAsync.

(** ** The rest of the chat widget, and its neighbours *)

Module ChatForms.

Import Gemini Chatbot.

(** The two texts of handleShowServiceDetail for a service title. *)
Definition serviceQuestion (serviceTitle : string) : string :=
  "Tell me about the " +:+ Json.quoted serviceTitle +:+ " service.".

Definition servicePrompt (serviceTitle : string) : string :=
  "Provide a concise, engaging, and persuasive description for the following service: "
  +:+ Json.quoted serviceTitle
  +:+ ". Explain its value and benefits for a potential client. Frame it as an investment using the 'leaky bucket' analogy where appropriate.".

(** [serviceDetail?.title] inside a template literal, and
    [serviceDetail?.title || '']. *)
Definition titleText (s : State) : string :=
  match serviceDetail s with Some d => sd_title d | None => "undefined" end.

Definition titleOrEmpty (s : State) : string :=
  match serviceDetail s with Some d => sd_title d | None => EmptyString end.

(** The body of the hot-lead POST for an analysis. *)
Definition hotLeadBody (analysis : Json.Value) (now : string) : HotLeadData :=
  {| leadType := "Hot Lead - Auto Detected";
     purchaseIntentScore := Json.prop analysis "purchaseIntentScore";
     businessSummary := Json.prop analysis "businessSummary";
     leadName := or_NA (Json.prop analysis "leadName");
     leadEmail := or_NA (Json.prop analysis "leadEmail");
     leadPhone := or_NA (Json.prop analysis "leadPhone");
     timestamp := now |}.

(** The bodies a trace shows posted to the webhook. *)
Definition webhookPosts (t : list Chatbot.Effect) : list HotLeadData :=
  omap (fun e => match e with WebhookPost body => Some body | _ => None end) t.

(** The proposal has a list of services to render. *)
Definition hasServiceList (v : Json.Value) : bool :=
  match Json.prop v "suggestedServices" with
  | Some (Json.Arr _) => true
  | _ => false
  end.

(** handleBotCheckboxChange, for the value and the mark of the box. *)
Definition handleBotCheckboxChange (value : string) (checked : bool)
    (s : State) : State :=
  let prev := requestFormData s in
  let newMethods :=
    if checked then rf_contactMethod prev ++ [value]
    else filter (fun m => m <> value) (rf_contactMethod prev) in
  with_requestFormData
    {| rf_name := rf_name prev; rf_email := rf_email prev;
       rf_phone := rf_phone prev; rf_message := rf_message prev;
       rf_contactMethod := newMethods |} s.

(** The body of the service-request POST, before JSON.stringify. *)
Record ServiceRequestData := {
  sr_leadType : string;
  sr_serviceType : option string;
  sr_form : RequestFormData;
  sr_timestamp : string }.

(** A conversation as saveConversation pushes it. *)
Record ConversationRecord := {
  cv_type : string;
  cv_userInput : string;
  cv_aiResponse : Json.Value;
  cv_serviceTitle : option string;
  cv_userId : string;
  cv_createdAt : string }.

(** What the handlers of the forms do outside the component. *)
Inductive FormEffect :=
| RequestPost (body : ServiceRequestData)
| Push (path : string) (record : ConversationRecord)
| SessionStorageSet (key value : string)
| Scroll (element : string)
| FormConsoleError (msg : string).

(** The chat state with what the form handlers did outside. *)
Definition Page : Type := State * list FormEffect.

Definition liftC {A} (m : M State A) : M Page A :=
  fun p => let (c, s') := m p.1 in (c, (s', p.2)).

Definition did (e : FormEffect) : M Page unit :=
  modify (fun p : Page => (p.1, p.2 ++ [e])).

(** The signed-in user, if any, and whether the push of a save
    resolves. *)
Record Session := {
  currentUser : option string;
  save_resolves : bool }.

Definition handleServiceRequestSubmit (E : Env) : M Page unit :=
  p ← get;
  let s := p.1 in
  liftC (modify (with_isLoading true)) ;;
  let serviceRequestData :=
    {| sr_leadType := "Service Request from Bot";
       sr_serviceType := sd_title <$> serviceDetail s;
       sr_form := requestFormData s;
       sr_timestamp := now E |} in
  try_catch_finally
    (did (RequestPost serviceRequestData) ;;
     (if fetch_resolves E then mret tt else throw) ;;
     liftC (setView View_requestSuccess))
    (did (FormConsoleError "Service request submission error:"))
    (liftC (modify (with_isLoading false))).

(** saveConversation of the firebase service. *)
Definition saveConversation (U : Session) (now : string) (userId : string)
    (type userInput : string) (aiResponse : Json.Value)
    (serviceTitle : option string) : M Page unit :=
  did (Push ("users/" +:+ userId +:+ "/conversations")
         {| cv_type := type; cv_userInput := userInput;
            cv_aiResponse := aiResponse; cv_serviceTitle := serviceTitle;
            cv_userId := userId; cv_createdAt := now |}) ;;
  if save_resolves U then mret tt else throw.

Definition handleSaveBrainstorm (U : Session) (now : string) : M Page unit :=
  p ← get;
  let s := p.1 in
  match currentUser U with
  | None => mret tt
  | Some uid =>
      if isEmpty (brainstormResult s) then mret tt
      else
        try_catch
          (saveConversation U now uid "brainstorm" (brainstormIdea s)
             (Json.Str (brainstormResult s))
             (Some (match serviceDetail s with
                    | Some d => if isEmpty (sd_title d) then "General" else sd_title d
                    | None => "General"
                    end)) ;;
           liftC (modify (with_isConvoSaved true)))
          (did (FormConsoleError "Failed to save brainstorm:"))
  end.

Definition handleSaveConsultation (U : Session) (now : string) : M Page unit :=
  p ← get;
  let s := p.1 in
  match currentUser U, consultationResult s with
  | Some uid, Some result =>
      try_catch
        (saveConversation U now uid "consultation" (consultationProblem s)
           result None ;;
         liftC (modify (with_isConvoSaved true)))
        (did (FormConsoleError "Failed to save consultation:"))
  | _, _ => mret tt
  end.

(** The text that handleDiscussIdea hands to the contact form. *)
Definition ideaText (s : State) : string :=
  "Service: " +:+ titleText s
  +:+ String LF (String LF "User Idea:") +:+ String LF (brainstormIdea s)
  +:+ String LF (String LF "AI Feedback:") +:+ String LF (brainstormResult s).

Section Handoff.

Variable JSON_parse : string -> option Json.Value.

Definition handleDiscussIdea (E : Env) : M Page unit :=
  p ← get;
  did (SessionStorageSet "prefillContactForm" (ideaText p.1)) ;;
  did (Scroll "contact") ;;
  liftC (handleCloseChat JSON_parse E).

End Handoff.

(** The slot [prefillContactForm] of the session storage after the
    effects of a page: the last value set, if any. *)
Definition prefillSlot (effects : list FormEffect) : option string :=
  last (omap (fun e => match e with
                       | SessionStorageSet _ value => Some value
                       | _ => None
                       end) effects).

(** The effect of ContactSection on mount: a message in the slot that
    is not empty goes to the form and leaves the slot.  The pair is the
    slot and the message of the form. *)
Definition takePrefill (slot : option string) (message : string)
    : option string * string :=
  match slot with
  | Some prefillMessage =>
      if isEmpty prefillMessage then (slot, message)
      else (None, prefillMessage)
  | None => (slot, message)
  end.

End ChatForms.

Import ChatForms.

(** ** More examples *)

Module ExamplesMore.

(** A model that answers a consultation with a proposal. *)
Definition example_proposal_text : string :=
  "{" +:+ Json.quoted "problemAnalysis" +:+ ": "
  +:+ Json.quoted "Invoices are typed by hand" +:+ ", "
  +:+ Json.quoted "proposedSolution" +:+ ": "
  +:+ Json.quoted "An n8n workflow that reads the invoices" +:+ ", "
  +:+ Json.quoted "suggestedServices" +:+ ": ["
  +:+ Json.quoted "n8n Process Automation" +:+ "]}".

Definition example_proposal : Json.Value :=
  Json.Obj
    [("problemAnalysis", Json.Str "Invoices are typed by hand");
     ("proposedSolution", Json.Str "An n8n workflow that reads the invoices");
     ("suggestedServices", Json.Arr [Json.Str "n8n Process Automation"])].

Definition example_proposing : Gemini.AiClient :=
  fun _ => Gemini.Resolved example_proposal_text.

(** A model that answers a consultation with an empty object. *)
Definition example_hollow : Gemini.AiClient :=
  fun _ => Gemini.Resolved "{}".

(** The chat with the method phone checked on the request form. *)
Definition example_requesting : Chatbot.State :=
  Chatbot.with_requestFormData
    {| Chatbot.rf_name := "Sam"; Chatbot.rf_email := "sam@example.org";
       Chatbot.rf_phone := EmptyString; Chatbot.rf_message := EmptyString;
       Chatbot.rf_contactMethod := ["phone"] |}
    (Chatbot.with_view Chatbot.View_requestService
       (Chatbot.with_isOpen true Chatbot.initial)).

End ExamplesMore.

Import ExamplesMore.

(** * Properties *)

(** ** The relevance score *)

Section RelevanceFacts.

(** The inner loop adds the weight once for each field word that
    counts. *)
Lemma inner_loop (w : Z) (queryWord : string) (fieldWords : list string) (score : Z) :
  forEach fieldWords
    (fun score fieldWord =>
       if includes fieldWord queryWord || includes queryWord fieldWord
       then score + w else score)
    score
  = score + w * countIn queryWord fieldWords.
Proof.
  unfold forEach. revert score.
  induction fieldWords as [|fw fws IH]; intros score; simpl.
  - lia.
  - rewrite IH. unfold pairMatch.
    destruct (includes fw queryWord || includes queryWord fw); lia.
Qed.

Lemma outer_loop (w : Z) (queryWords fieldWords : list string) (score : Z) :
  forEach queryWords
    (fun score queryWord =>
       forEach fieldWords
         (fun score fieldWord =>
            if includes fieldWord queryWord || includes queryWord fieldWord
            then score + w else score)
         score)
    score
  = score + w * countPairs queryWords fieldWords.
Proof.
  revert score.
  induction queryWords as [|qw qws IH]; intros score.
  - simpl. lia.
  - change (forEach (qw :: qws) ?body score)
      with (forEach qws body (body score qw)).
    cbv beta. rewrite inner_loop, IH. simpl. lia.
Qed.

(** The loop over the fields, started at any index and score. *)
Lemma fields_loop (query : string) (n : nat) (fields : list string) :
  forall (i : nat) (score : Z),
    forEachIdx fields i
      (fun score field index =>
         if isEmpty field then score
         else
           let fieldLower := toLowerCase field in
           let score :=
             if includes fieldLower (toLowerCase query)
             then score + (Z.of_nat n - Z.of_nat index) * 10
             else score in
           forEach (split SP (toLowerCase query))
             (fun score queryWord =>
                forEach (split SP fieldLower)
                  (fun score fieldWord =>
                     if includes fieldWord queryWord || includes queryWord fieldWord
                     then score + (Z.of_nat n - Z.of_nat index) * 2
                     else score)
                  score)
             score)
      score
    = score + sumFrom i (fieldScore query n) fields.
Proof.
  induction fields as [|f fs IH]; intros i score; simpl.
  - lia.
  - rewrite IH. unfold fieldScore at 2.
    destruct (isEmpty f); [lia|].
    cbv zeta. rewrite outer_loop.
    destruct (includes (toLowerCase f) (toLowerCase query)); lia.
Qed.

Lemma calculateRelevance_sum (query : string) (fields : list string) :
  calculateRelevance query fields
  = sumFrom 0 (fieldScore query (length fields)) fields.
Proof.
  unfold calculateRelevance.
  etrans; [exact (fields_loop query (length fields) fields 0%nat 0)|].
  lia.
Qed.

Lemma includes_empty (s : string) : includes s EmptyString = true.
Proof. destruct s; reflexivity. Qed.

Lemma split_not_nil (sep : ascii) (s : string) : split sep s <> [].
Proof.
  induction s as [|c s IH]; simpl; [discriminate|].
  destruct (Ascii.eqb c sep); [discriminate|].
  destruct (split sep s); discriminate.
Qed.

Lemma countIn_nonneg qw fws : 0 <= countIn qw fws.
Proof.
  induction fws as [|fw fws IH]; simpl; [lia|].
  destruct (pairMatch qw fw); lia.
Qed.

Lemma countPairs_nonneg qws fws : 0 <= countPairs qws fws.
Proof.
  induction qws as [|qw qws IH]; simpl; [lia|].
  pose proof (countIn_nonneg qw fws). lia.
Qed.

Lemma fieldScore_nonneg query n i f :
  (i < n)%nat -> 0 <= fieldScore query n i f.
Proof.
  intros Hi. unfold fieldScore. destruct (isEmpty f); [lia|].
  cbv zeta. pose proof (countPairs_nonneg (split SP (toLowerCase query))
                          (split SP (toLowerCase f))).
  destruct (includes _ _); nia.
Qed.

Lemma sumFrom_nonneg query n fields :
  forall i, (i + length fields <= n)%nat ->
            0 <= sumFrom i (fieldScore query n) fields.
Proof.
  induction fields as [|f fs IH]; intros i Hi; simpl in *; [lia|].
  pose proof (fieldScore_nonneg query n i f ltac:(lia)).
  pose proof (IH (S i) ltac:(lia)). lia.
Qed.

Lemma toLowerCase_onlySpaces q : onlySpaces q = true -> toLowerCase q = q.
Proof.
  induction q as [|c q IH]; simpl; [reflexivity|].
  intros [Hc Hq]%andb_prop. apply Ascii.eqb_eq in Hc. subst c.
  rewrite IH by assumption. reflexivity.
Qed.

Lemma split_onlySpaces_head q :
  onlySpaces q = true -> exists ws, split SP q = EmptyString :: ws.
Proof.
  destruct q as [|c q]; simpl.
  - eauto.
  - intros [Hc _]%andb_prop. rewrite Hc. eauto.
Qed.

Lemma toLowerCase_isEmpty f : isEmpty (toLowerCase f) = isEmpty f.
Proof. destruct f; reflexivity. Qed.

(** A query word that is empty counts with every field word. *)
Lemma countIn_empty_word fws : fws <> [] -> 1 <= countIn EmptyString fws.
Proof.
  destruct fws as [|fw fws]; [congruence|]. intros _.
  cbn [countIn]. unfold pairMatch. rewrite includes_empty. cbn [orb].
  pose proof (countIn_nonneg EmptyString fws). lia.
Qed.

Lemma countPairs_empty_word qws fws :
  EmptyString ∈ qws -> fws <> [] -> 1 <= countPairs qws fws.
Proof.
  intros Hin Hne. induction qws as [|qw qws IH]; [inversion Hin|].
  cbn [countPairs]. pose proof (countIn_nonneg qw fws).
  pose proof (countPairs_nonneg qws fws).
  apply elem_of_cons in Hin as [<-|Hin].
  - pose proof (countIn_empty_word fws Hne). lia.
  - specialize (IH Hin). lia.
Qed.

Lemma fieldScore_empty_piece_pos q n i f :
  EmptyString ∈ split SP (toLowerCase q) -> (i < n)%nat -> isEmpty f = false ->
  0 < fieldScore q n i f.
Proof.
  intros Hq Hi Hf. unfold fieldScore. rewrite Hf. cbv zeta.
  pose proof (countPairs_empty_word _ (split SP (toLowerCase f)) Hq
                (split_not_nil SP _)).
  destruct (includes _ _); nia.
Qed.

Lemma sumFrom_empty_piece_pos q n fields :
  EmptyString ∈ split SP (toLowerCase q) ->
  forall i, (i + length fields <= n)%nat ->
            (exists f, f ∈ fields /\ isEmpty f = false) ->
            0 < sumFrom i (fieldScore q n) fields.
Proof.
  intros Hq. induction fields as [|f fs IH]; intros i Hi [g [Hg Hne]].
  - inversion Hg.
  - simpl in *.
    pose proof (sumFrom_nonneg q n fs (S i) ltac:(lia)).
    apply elem_of_cons in Hg as [->|Hg].
    + pose proof (fieldScore_empty_piece_pos q n i f Hq ltac:(lia) Hne). lia.
    + pose proof (fieldScore_nonneg q n i f ltac:(lia)).
      pose proof (IH (S i) ltac:(lia) (ex_intro _ g (conj Hg Hne))). lia.
Qed.

(** A query with an empty piece (a space at either end, or two spaces
    in a row, or no character at all) matches every record that has a
    field that is not empty. *)
Lemma relevance_empty_piece_positive (query : string) (fields : list string) :
  EmptyString ∈ split SP (toLowerCase query) ->
  (exists f, f ∈ fields /\ isEmpty f = false) ->
  0 < calculateRelevance query fields.
Proof.
  intros Hq Hf. rewrite calculateRelevance_sum.
  apply sumFrom_empty_piece_pos; [assumption|lia|assumption].
Qed.

Lemma onlySpaces_empty_piece q :
  onlySpaces q = true -> EmptyString ∈ split SP (toLowerCase q).
Proof.
  intros Hq. rewrite (toLowerCase_onlySpaces q Hq).
  destruct (split_onlySpaces_head q Hq) as [ws ->]. apply elem_of_cons. by left.
Qed.

(** *** Where the code and the formula of the specification agree *)

Lemma toLowerChar_SP c : Ascii.eqb (toLowerChar c) SP = Ascii.eqb c SP.
Proof. by destruct c as [[] [] [] [] [] [] [] []]. Qed.

Lemma toLowerChar_isWhiteSpace c : isWhiteSpace (toLowerChar c) = isWhiteSpace c.
Proof. by destruct c as [[] [] [] [] [] [] [] []]. Qed.

Lemma toLowerCase_singleSpaced_go b s :
  singleSpaced_go b (toLowerCase s) = singleSpaced_go b s.
Proof.
  revert b. induction s as [|c s IH]; intros b; [reflexivity|].
  cbn [toLowerCase singleSpaced_go].
  by rewrite toLowerChar_SP, toLowerChar_isWhiteSpace, !IH.
Qed.

Lemma isWhiteSpace_SP c : Ascii.eqb c SP = true -> isWhiteSpace c = true.
Proof. intros ->%Ascii.eqb_eq. reflexivity. Qed.

(** On a text of single-spaced words, the split at the space gives the
    words. *)
Lemma spec_words_singleSpaced_go s :
  (singleSpaced_go true s = true -> spec_words s = split SP s)
  /\ (singleSpaced_go false s = true ->
      match s with
      | EmptyString => True
      | String c s' =>
          if Ascii.eqb c SP then spec_words s' = split SP s'
          else spec_words s = split SP s
      end).
Proof.
  induction s as [|c s [IHt IHf]].
  - split; [discriminate|done].
  - assert (Hword : Ascii.eqb c SP = false ->
                    isWhiteSpace c = false ->
                    singleSpaced_go false s = true ->
                    spec_words (String c s) = split SP (String c s)).
    { intros Hc Hw Hs. specialize (IHf Hs).
      cbn [spec_words split]. rewrite Hc, Hw.
      destruct s as [|c' s']; [reflexivity|].
      cbn [singleSpaced_go] in Hs.
      destruct (Ascii.eqb c' SP) eqn:Hc'.
      - rewrite (isWhiteSpace_SP c' Hc').
        cbn [split]. rewrite Hc'. cbn [spec_words].
        rewrite (isWhiteSpace_SP c' Hc'). by rewrite IHf.
      - apply andb_prop in Hs as [Hw' _]. apply negb_true_iff in Hw'.
        rewrite Hw'. by rewrite IHf. }
    split; cbn [singleSpaced_go]; destruct (Ascii.eqb c SP) eqn:Hc.
    + discriminate.
    + intros [Hw Hs]%andb_prop. apply negb_true_iff in Hw. by apply Hword.
    + cbn [negb andb]. exact IHt.
    + intros [Hw Hs]%andb_prop. apply negb_true_iff in Hw. by apply Hword.
Qed.

Lemma spec_words_singleSpaced s :
  singleSpaced s = true -> spec_words s = split SP s.
Proof. apply spec_words_singleSpaced_go. Qed.

Lemma singleSpaced_not_empty s : singleSpaced s = true -> isEmpty s = false.
Proof. by destruct s. Qed.

Lemma fieldScore_singleSpaced q n i f :
  singleSpaced q = true -> singleSpaced f = true ->
  fieldScore q n i f = spec_fieldScore q n i f.
Proof.
  intros Hq Hf. unfold fieldScore, spec_fieldScore.
  rewrite (singleSpaced_not_empty f Hf).
  rewrite !spec_words_singleSpaced; [reflexivity| |];
    unfold singleSpaced; by rewrite toLowerCase_singleSpaced_go.
Qed.

(** For a query and fields that are words with one space between them,
    the code computes the score of the specification. *)
Lemma calculateRelevance_singleSpaced (query : string) (fields : list string) :
  singleSpaced query = true ->
  Forall (fun f => singleSpaced f = true) fields ->
  calculateRelevance query fields = spec_relevance query fields.
Proof.
  intros Hq Hfs. rewrite calculateRelevance_sum. unfold spec_relevance.
  generalize (length fields) as n. generalize 0%nat as i.
  induction Hfs as [|f fs Hf _ IH]; intros i n; [reflexivity|].
  cbn [sumFrom]. by rewrite IH, fieldScore_singleSpaced.
Qed.

Lemma trimStart_onlySpaces q : onlySpaces q = true -> trimStart q = EmptyString.
Proof.
  induction q as [|c q IH]; simpl; [reflexivity|].
  intros [Hc Hq]%andb_prop. apply Ascii.eqb_eq in Hc. subst c.
  simpl. auto.
Qed.

Lemma trim_onlySpaces q : onlySpaces q = true -> trim q = EmptyString.
Proof. intros Hq. unfold trim. rewrite trimStart_onlySpaces by assumption. reflexivity. Qed.

Lemma noMatch_fieldScore query n i f :
  noMatch query f = true -> fieldScore query n i f = 0.
Proof.
  unfold noMatch, fieldScore. destruct (isEmpty f); [reflexivity|].
  rewrite orb_false_l. intros [Hi Hp]%andb_prop.
  apply negb_true_iff in Hi. apply Z.eqb_eq in Hp.
  cbv zeta. rewrite Hi, Hp. lia.
Qed.

End RelevanceFacts.

(** C2, as the code has it.  calculateRelevance is the sum, over the
    fields [f_i] at index [i] of a list of [n] fields, of [fieldScore]:
    an empty field adds nothing; any other field adds [(n - i) * 10]
    when its lower-cased text contains the lower-cased query, and
    [(n - i) * 2] for every pair of a piece of the lower-cased query
    and a piece of the lower-cased field, both split at the space
    character (empty pieces included), where one contains the other. *)
Theorem calculateRelevance_closed_form (query : string) (fields : list string) :
  calculateRelevance query fields
  = sumFrom 0 (fieldScore query (length fields)) fields.
Proof. apply calculateRelevance_sum. Qed.

(** C2, as the specification states it, fails: a line feed separates
    two words of the specification, and is no separator for the code.
    The query bot against the fields Helper and bot LF bots scores
    12 by the code and 14 by the formula on white-space separated
    words. *)
Lemma calculateRelevance_not_whitespace_words :
  calculateRelevance "bot" ["Helper"; "bot" +:+ String LF "bots"] = 12
  /\ spec_relevance "bot" ["Helper"; "bot" +:+ String LF "bots"] = 14
  /\ ~ (forall query fields,
          calculateRelevance query fields = spec_relevance query fields).
Proof.
  split; [reflexivity|]. split; [reflexivity|].
  intros H. specialize (H "bot" ["Helper"; "bot" +:+ String LF "bots"]).
  vm_compute in H. discriminate.
Qed.

(** A trailing space of the query, which the caller does not trim,
    gives an empty piece that counts with every word of a field. *)
Example relevance_trailing_space :
  calculateRelevance "auto " ["Automation Suite"; ""; ""] = 18
  /\ spec_relevance "auto " ["Automation Suite"; ""; ""] = 6.
Proof. split; reflexivity. Qed.

Example relevance_auto_bot :
  calculateRelevance "auto bot" ["Automation Bot"; ""; ""] = 12.
Proof. reflexivity. Qed.

(** C4, as the code has it.  The query auto against a project whose
    title is Automation Suite, with a description and a category that
    do not match, scores 36: [(3 - 0) * 10] for the title that contains
    the query, and [(3 - 0) * 2] for the word automation that contains
    the word auto. *)
Theorem relevance_auto_automation_suite (description category : string) :
  noMatch "auto" description = true ->
  noMatch "auto" category = true ->
  calculateRelevance "auto" ["Automation Suite"; description; category] = 36.
Proof.
  intros Hd Hc. rewrite calculateRelevance_sum.
  cbn [length sumFrom].
  rewrite (noMatch_fieldScore _ 3 1 _ Hd), (noMatch_fieldScore _ 3 2 _ Hc).
  vm_compute. reflexivity.
Qed.

Lemma relevance_auto_automation_suite_witness :
  noMatch "auto" "Workflow tools" = true
  /\ noMatch "auto" "" = true
  /\ calculateRelevance "auto" ["Automation Suite"; "Workflow tools"; ""] = 36.
Proof.
  split; [reflexivity|]. split; [reflexivity|].
  apply relevance_auto_automation_suite; reflexivity.
Defined.

(** C4, as the specification states it, fails: the score is not 30. *)
Lemma relevance_auto_automation_suite_not_30 :
  noMatch "auto" "" = true
  /\ calculateRelevance "auto" ["Automation Suite"; ""; ""] <> 30.
Proof. split; [reflexivity|]. vm_compute. discriminate. Qed.

(** ** The search component *)

Section SearchFacts.

Import SearchSystem.

Variable localeCompare : string -> string -> Z.
Variable lang : Lang.

Local Abbreviation performSearch := (SearchSystem.performSearch localeCompare lang).
Local Abbreviation step := (SearchSystem.step localeCompare lang).
Local Abbreviation run := (SearchSystem.run localeCompare lang).

(** A search whose reads all resolve publishes the sorted results and
    saves the query in the history. *)
Lemma performSearch_resolved E c s :
  isEmpty (trim (cl_query c)) = false ->
  readRejected (cl_filters c) (db E) = false ->
  let s' := exec (performSearch E c) s in
  searchResults s' = spec_partialResults localeCompare lang E c
  /\ searchHistory s'
     = take 10 (cl_query c :: filter (fun h => h <> cl_query c) (cl_history c))
  /\ searchQuery s' = searchQuery s
  /\ filters s' = filters s
  /\ pending s' = pending s
  /\ isSearching s' = false
  /\ showResults s' = true.
Proof.
  intros Hq Hr. unfold exec, SearchSystem.performSearch. rewrite Hq.
  unfold readRejected in Hr. unfold spec_partialResults.
  unfold try_catch_finally, searchBody, saveSearchToHistory, transaction, once.
  destruct E as [[ps ss cs] d ok].
  cbn [db projects services communityPosts today validPath] in *.
  destruct (typeSelected (cl_filters c) "project");
    destruct (typeSelected (cl_filters c) "service");
    destruct (typeSelected (cl_filters c) "post");
    destruct ps as [ps|]; destruct ss as [ss|]; destruct cs as [cs|];
    try discriminate Hr;
    destruct (ok ("analytics/searches/" +:+ d));
    destruct (ok ("analytics/popularSearches/" +:+ cl_query c));
    cbn; repeat split; reflexivity.
Qed.

(** Closes a goal on the reads of a trace by naming them. *)
Ltac reads_are l :=
  exists l; cbn; rewrite <- ?(assoc_L (++)); reflexivity.

(** A search with a blank query does nothing. *)
Lemma performSearch_blank E c s :
  isEmpty (trim (cl_query c)) = true -> exec (performSearch E c) s = s.
Proof. intros Hq. unfold exec, SearchSystem.performSearch. rewrite Hq. reflexivity. Qed.

(** Closes a goal on the reads of an abandoned search by naming the
    collections read before the rejected one, that one, and those
    after it. *)
Ltac aborted_at earlier failed later :=
  exists earlier, failed, later;
  split; [reflexivity|];
  split; [repeat constructor|];
  split; [reflexivity|];
  cbn; rewrite <- ?(assoc_L (++)); reflexivity.

(** A search with a rejected read is abandoned as a whole: it reads
    the selected collections up to the first whose read is rejected,
    and no other. *)
Lemma performSearch_rejected E c s :
  isEmpty (trim (cl_query c)) = false ->
  readRejected (cl_filters c) (db E) = true ->
  let s' := exec (performSearch E c) s in
  searchResults s' = searchResults s
  /\ searchHistory s' = searchHistory s
  /\ searchQuery s' = searchQuery s
  /\ filters s' = filters s
  /\ pending s' = pending s
  /\ isSearching s' = false
  /\ showResults s' = true
  /\ exists earlier failed later,
       selectedCollections (cl_filters c) = earlier ++ failed :: later
       /\ Forall (fun collection => rejectedIn (db E) collection = false) earlier
       /\ rejectedIn (db E) failed = true
       /\ trace s'
          = trace s ++ (Fetch <$> earlier ++ [failed])
            ++ [ConsoleError "Error performing search:"].
Proof.
  intros Hq Hr. unfold exec, SearchSystem.performSearch. rewrite Hq.
  unfold readRejected in Hr. unfold selectedCollections.
  unfold try_catch_finally, searchBody, saveSearchToHistory, once.
  destruct E as [[ps ss cs] d ok]. cbn [db projects services communityPosts] in *.
  destruct (typeSelected (cl_filters c) "project");
    destruct (typeSelected (cl_filters c) "service");
    destruct (typeSelected (cl_filters c) "post");
    destruct ps as [ps|]; destruct ss as [ss|]; destruct cs as [cs|];
    try discriminate Hr;
    unfold mbind, mret, M_bind, M_ret, modify, throw; cbn;
    repeat (split; [reflexivity|]);
    first [ aborted_at (@nil string) "projects" ["services"; "communityPosts"]
          | aborted_at ["projects"] "services" ["communityPosts"]
          | aborted_at ["projects"; "services"] "communityPosts" (@nil string)
          | aborted_at (@nil string) "projects" ["services"]
          | aborted_at ["projects"] "services" (@nil string)
          | aborted_at (@nil string) "projects" ["communityPosts"]
          | aborted_at ["projects"] "communityPosts" (@nil string)
          | aborted_at (@nil string) "services" ["communityPosts"]
          | aborted_at ["services"] "communityPosts" (@nil string)
          | aborted_at (@nil string) "projects" (@nil string)
          | aborted_at (@nil string) "services" (@nil string)
          | aborted_at (@nil string) "communityPosts" (@nil string) ].
Qed.

Lemma performSearch_history E c s :
  searchHistory (exec (performSearch E c) s) = searchHistory s
  \/ searchHistory (exec (performSearch E c) s)
     = take 10 (cl_query c :: filter (fun h => h <> cl_query c) (cl_history c)).
Proof.
  destruct (isEmpty (trim (cl_query c))) eqn:Hq.
  - left. by rewrite performSearch_blank.
  - destruct (readRejected (cl_filters c) (db E)) eqn:Hr.
    + left. by destruct (performSearch_rejected E c s Hq Hr) as (_ & ? & _).
    + right. by destruct (performSearch_resolved E c s Hq Hr) as (_ & ? & _).
Qed.

Lemma debounceEffect_history s :
  searchHistory (debounceEffect s) = searchHistory s.
Proof. unfold debounceEffect. cbv zeta. by destruct (_ <? _)%nat. Qed.

Lemma step_history_cap s ev :
  (length (searchHistory s) <= 10)%nat ->
  (length (searchHistory (step s ev)) <= 10)%nat.
Proof.
  intros Hs. destruct ev as [text|f| | |E]; cbn [SearchSystem.step].
  - by rewrite debounceEffect_history.
  - by rewrite debounceEffect_history.
  - exact Hs.
  - by rewrite debounceEffect_history.
  - destruct (pending s) as [c|]; [|exact Hs].
    destruct (performSearch_history E c (with_pending None s)) as [-> | ->].
    + exact Hs.
    + rewrite length_take. lia.
Qed.

Lemma run_history_cap evs :
  forall s, (length (searchHistory s) <= 10)%nat ->
            (length (searchHistory (run s evs)) <= 10)%nat.
Proof.
  induction evs as [|ev evs IH]; intros s Hs; [exact Hs|].
  cbn [SearchSystem.run fold_left]. apply IH, step_history_cap, Hs.
Qed.

(** The effect for a short query: no timer, no results, the panel
    hidden, no effect on the outside. *)
Lemma debounceEffect_short s :
  (String.length (trim (searchQuery s)) <= 2)%nat ->
  searchResults (debounceEffect s) = []
  /\ showResults (debounceEffect s) = false
  /\ pending (debounceEffect s) = None
  /\ searchQuery (debounceEffect s) = searchQuery s
  /\ trace (debounceEffect s) = trace s.
Proof.
  intros Hs. unfold debounceEffect. cbv zeta.
  change (searchQuery (with_pending None s)) with (searchQuery s).
  destruct (Nat.ltb_spec 2 (String.length (trim (searchQuery s)))); [lia|].
  by repeat split.
Qed.

(** While no query of more than two characters is set, nothing
    reaches the store or the console. *)
Lemma short_queries_leave_no_trace evs :
  Forall (fun ev => keepsShort ev = true) evs ->
  forall s, pending s = None ->
            (String.length (trim (searchQuery s)) <= 2)%nat ->
            trace (run s evs) = trace s.
Proof.
  induction 1 as [|ev evs Hev _ IH]; intros s Hp Hq; [reflexivity|].
  cbn [SearchSystem.run fold_left].
  destruct ev as [text|f| | |E]; cbn [SearchSystem.step keepsShort] in *.
  - apply Nat.leb_le in Hev.
    destruct (debounceEffect_short (with_searchQuery text s) Hev)
      as (_ & _ & Hp' & Hq' & Ht').
    etrans; [apply IH|]; [exact Hp'|by rewrite Hq'|exact Ht'].
  - destruct (debounceEffect_short (with_filters f s) Hq)
      as (_ & _ & Hp' & Hq' & Ht').
    etrans; [apply IH|]; [exact Hp'|by rewrite Hq'|exact Ht'].
  - etrans; [apply IH|]; [exact Hp|exact Hq|reflexivity].
  - assert (Hempty : (String.length (trim EmptyString) <= 2)%nat) by (cbn; lia).
    destruct (debounceEffect_short
                (with_searchQuery EmptyString (with_showResults false s)) Hempty)
      as (_ & _ & Hp' & Hq' & Ht').
    etrans; [apply IH|]; [exact Hp'|by rewrite Hq'|exact Ht'].
  - rewrite Hp. apply IH; assumption.
Qed.

Lemma readsResolve_not_rejected f d :
  readsResolve d = true -> readRejected f d = false.
Proof.
  unfold readsResolve, readRejected.
  destruct (projects d), (services d), (communityPosts d); cbn; try done.
  intros _. by rewrite !andb_false_r.
Qed.

(** One round of the search box: a query of more than two characters
    once trimmed is typed, and its timer ends with a store whose reads
    resolve. *)
Lemma search_round s text E :
  (2 <? String.length (trim text))%nat = true ->
  readsResolve (db E) = true ->
  let s' := step (step s (SetSearchQuery text)) (TimerFired E) in
  searchHistory s'
  = take 10 (text :: filter (fun h => h <> text) (searchHistory s))
  /\ filters s' = filters s.
Proof.
  intros Hlong Hres. cbn [SearchSystem.step].
  assert (Hd : debounceEffect (with_searchQuery text s)
               = with_pending
                   (Some {| cl_query := text; cl_filters := filters s;
                            cl_history := searchHistory s |})
                   (with_pending None (with_searchQuery text s))).
  { unfold debounceEffect. cbv zeta.
    change (searchQuery (with_pending None (with_searchQuery text s))) with text.
    by rewrite Hlong. }
  rewrite Hd. cbn [pending with_pending].
  assert (Hq : isEmpty (trim text) = false).
  { apply Nat.ltb_lt in Hlong. destruct (trim text); cbn in *; [lia|done]. }
  match goal with
  | |- context [exec (performSearch E ?c) ?s0] =>
      destruct (performSearch_resolved E c s0 Hq
                  (readsResolve_not_rejected _ _ Hres))
        as (_ & Hh & _ & Hf & _)
  end.
  cbv zeta in Hh, Hf. split; [exact Hh|exact Hf].
Qed.

Lemma selectedCollections_NoDup f : NoDup (selectedCollections f).
Proof.
  unfold selectedCollections.
  destruct (typeSelected f "project"), (typeSelected f "service"),
    (typeSelected f "post"); apply (bool_decide_unpack _); vm_compute; exact I.
Qed.

(** C3, as the code has it.  When the read of a collection that the
    filter selects is rejected during a search, the search is abandoned
    as a whole: the result list and the history stay as they were, the
    panel is shown, the searching mark is cleared and no timer is
    left.  The search has read, once each and in their order, the
    selected collections up to the first whose read is rejected; those
    after it are not read.  After these reads the trace holds the
    error on the console and nothing else: nothing is written to the
    local storage or to the counters, and no read is made again. *)
Theorem search_abandoned_on_rejected_read (s : State) (c : Closure) (E : Env) :
  pending s = Some c ->
  isEmpty (trim (cl_query c)) = false ->
  readRejected (cl_filters c) (db E) = true ->
  let s' := step s (TimerFired E) in
  searchResults s' = searchResults s
  /\ searchHistory s' = searchHistory s
  /\ isSearching s' = false
  /\ showResults s' = true
  /\ pending s' = None
  /\ NoDup (selectedCollections (cl_filters c))
  /\ exists earlier failed later,
       selectedCollections (cl_filters c) = earlier ++ failed :: later
       /\ Forall (fun collection => rejectedIn (db E) collection = false) earlier
       /\ rejectedIn (db E) failed = true
       /\ trace s'
          = trace s ++ (Fetch <$> earlier ++ [failed])
            ++ [ConsoleError "Error performing search:"].
Proof.
  intros Hp Hq Hr. cbn [SearchSystem.step]. rewrite Hp.
  destruct (performSearch_rejected E c (with_pending None s) Hq Hr)
    as (H1 & H2 & _ & _ & H5 & H3 & H6 & H4).
  split_and!; try assumption. apply selectedCollections_NoDup.
Qed.

(** C8.  Setting a query of at most two characters once trimmed clears
    the result list at once, hides the panel and leaves no timer, so
    that no search runs; it reads nothing from the store, and neither
    does any sequence of later events that set no longer query. *)
Theorem short_query_clears_and_never_fetches (s : State) (text : string) :
  (String.length (trim text) <= 2)%nat ->
  let s' := step s (SetSearchQuery text) in
  searchResults s' = []
  /\ showResults s' = false
  /\ pending s' = None
  /\ fetches (trace s') = fetches (trace s)
  /\ (forall E, step s' (TimerFired E) = s')
  /\ (forall evs, Forall (fun ev => keepsShort ev = true) evs ->
                  fetches (trace (run s' evs)) = fetches (trace s)).
Proof.
  intros Hq. cbn [SearchSystem.step].
  destruct (debounceEffect_short (with_searchQuery text s) Hq)
    as (Hr & Hs & Hp & Hq' & Ht).
  change (trace (with_searchQuery text s)) with (trace s) in Ht.
  change (searchQuery (with_searchQuery text s)) with text in Hq'.
  repeat split; try assumption.
  - by rewrite Ht.
  - intros E. cbn [SearchSystem.step]. by rewrite Hp.
  - intros evs Hevs.
    rewrite (short_queries_leave_no_trace evs Hevs _ Hp); [by rewrite Ht|].
    by rewrite Hq'.
Qed.

(** C9.  From the empty history, the searches a (skipped: one
    character), automation, bot and automation again, each followed
    by the end of its timer with a store whose reads resolve, leave the
    history automation, bot; and whatever the events, the history
    never holds more than ten entries. *)
Theorem history_after_four_searches (E1 E2 E3 E4 : Env) :
  readsResolve (db E2) = true ->
  readsResolve (db E3) = true ->
  readsResolve (db E4) = true ->
  searchHistory
    (run initial
       [SetSearchQuery "a"; TimerFired E1;
        SetSearchQuery "automation"; TimerFired E2;
        SetSearchQuery "bot"; TimerFired E3;
        SetSearchQuery "automation"; TimerFired E4])
  = ["automation"; "bot"]
  /\ (forall evs, (length (searchHistory (run initial evs)) <= 10)%nat).
Proof.
  intros H2 H3 H4. split.
  - cbn [SearchSystem.run fold_left].
    change (step (step initial (SetSearchQuery "a")) (TimerFired E1))
      with (step initial (SetSearchQuery "a")).
    set (s1 := step initial (SetSearchQuery "a")).
    destruct (search_round s1 "automation" E2 eq_refl H2) as [Hh2 Hf2].
    set (s2 := step (step s1 _) (TimerFired E2)) in *.
    destruct (search_round s2 "bot" E3 eq_refl H3) as [Hh3 Hf3].
    set (s3 := step (step s2 _) (TimerFired E3)) in *.
    destruct (search_round s3 "automation" E4 eq_refl H4) as [Hh4 Hf4].
    rewrite Hh4, Hh3, Hh2. vm_compute. reflexivity.
  - intros evs. apply run_history_cap. cbn. lia.
Qed.

End SearchFacts.

Lemma search_abandoned_on_rejected_read_witness :
  let s' := SearchSystem.step example_localeCompare en example_typed
              (SearchSystem.TimerFired example_failing_store) in
  SearchSystem.searchResults s' = SearchSystem.searchResults example_typed
  /\ SearchSystem.searchHistory s' = SearchSystem.searchHistory example_typed
  /\ SearchSystem.isSearching s' = false
  /\ SearchSystem.showResults s' = true
  /\ SearchSystem.pending s' = None
  /\ NoDup (selectedCollections (SearchSystem.cl_filters example_closure))
  /\ exists earlier failed later,
       selectedCollections (SearchSystem.cl_filters example_closure)
       = earlier ++ failed :: later
       /\ Forall (fun collection =>
                    rejectedIn (SearchSystem.db example_failing_store) collection
                    = false) earlier
       /\ rejectedIn (SearchSystem.db example_failing_store) failed = true
       /\ SearchSystem.trace s'
          = SearchSystem.trace example_typed
            ++ (SearchSystem.Fetch <$> earlier ++ [failed])
            ++ [SearchSystem.ConsoleError "Error performing search:"].
Proof.
  apply (search_abandoned_on_rejected_read example_localeCompare en
           example_typed example_closure example_failing_store);
    reflexivity.
Defined.

(** C3, as the specification states it, fails: with the read of the
    projects rejected, the service that matches is neither read nor
    published; the result list stays empty, where the partial results
    of the specification hold the service. *)
Lemma search_partial_results_not_published :
  let s' := SearchSystem.step example_localeCompare en example_typed
              (SearchSystem.TimerFired example_failing_store) in
  SearchSystem.searchResults s' = []
  /\ SearchSystem.fetches (SearchSystem.trace s') = ["projects"]
  /\ SearchSystem.relevanceScore
       <$> spec_partialResults example_localeCompare en
             example_failing_store example_closure = [24]
  /\ SearchSystem.searchResults s'
     <> spec_partialResults example_localeCompare en
          example_failing_store example_closure.
Proof.
  split; [reflexivity|]. split; [reflexivity|]. split; [reflexivity|].
  vm_compute. discriminate.
Qed.

Example example_searched_has_results :
  SearchSystem.relevanceScore <$> SearchSystem.searchResults example_searched = [24]
  /\ SearchSystem.showResults example_searched = true.
Proof. split; vm_compute; reflexivity. Qed.

Lemma short_query_clears_and_never_fetches_witness :
  (String.length (trim " a ") <= 2)%nat
  /\ let s' := SearchSystem.step example_localeCompare en example_searched
                 (SearchSystem.SetSearchQuery " a ") in
     SearchSystem.searchResults s' = []
     /\ SearchSystem.showResults s' = false
     /\ SearchSystem.pending s' = None
     /\ SearchSystem.fetches (SearchSystem.trace s')
        = SearchSystem.fetches (SearchSystem.trace example_searched).
Proof.
  assert (Hshort : (String.length (trim " a ") <= 2)%nat).
  { vm_compute. repeat constructor. }
  split; [exact Hshort|].
  destruct (short_query_clears_and_never_fetches example_localeCompare en
              example_searched " a " Hshort) as (H1 & H2 & H3 & H4 & _).
  exact (conj H1 (conj H2 (conj H3 H4))).
Defined.

Lemma history_after_four_searches_witness :
  SearchSystem.searchHistory
    (SearchSystem.run example_localeCompare en SearchSystem.initial
       [SearchSystem.SetSearchQuery "a";
        SearchSystem.TimerFired example_empty_store;
        SearchSystem.SetSearchQuery "automation";
        SearchSystem.TimerFired example_empty_store;
        SearchSystem.SetSearchQuery "bot";
        SearchSystem.TimerFired example_empty_store;
        SearchSystem.SetSearchQuery "automation";
        SearchSystem.TimerFired example_empty_store])
  = ["automation"; "bot"].
Proof.
  apply (history_after_four_searches example_localeCompare en
           example_empty_store example_empty_store
           example_empty_store example_empty_store);
    reflexivity.
Defined.

(** C10, as the code has it.  For the empty query and for every query
    made of space characters only, calculateRelevance is strictly
    positive on every list of fields that has a field that is not
    empty.  Such a query is empty once trimmed, and two guards keep it
    from matching every record: the effect on the query starts no
    timer for it, since its trimmed length is not above two, and
    performSearch itself returns at once, before any read and any
    score, on a query that is empty once trimmed. *)
Theorem relevance_blank_query_positive (query : string) (fields : list string) :
  onlySpaces query = true ->
  (exists f, f ∈ fields /\ isEmpty f = false) ->
  0 < calculateRelevance query fields
  /\ trim query = EmptyString
  /\ (forall localeCompare lang s,
        SearchSystem.pending
          (SearchSystem.step localeCompare lang s (SearchSystem.SetSearchQuery query))
        = None)
  /\ (forall localeCompare lang E c s,
        SearchSystem.cl_query c = query ->
        exec (SearchSystem.performSearch localeCompare lang E c) s = s).
Proof.
  intros Hq Hf. split_and!.
  - by apply relevance_empty_piece_positive; [apply onlySpaces_empty_piece|].
  - by apply trim_onlySpaces.
  - intros localeCompare lang s. cbn [SearchSystem.step].
    apply debounceEffect_short.
    change (String.length (trim query) <= 2)%nat.
    rewrite trim_onlySpaces by assumption. cbn. lia.
  - intros localeCompare lang E c s Hc. apply performSearch_blank.
    by rewrite Hc, trim_onlySpaces.
Qed.

Lemma relevance_blank_query_positive_witness :
  0 < calculateRelevance "  " [""; "Automation Suite"]
  /\ trim "  " = EmptyString
  /\ (forall localeCompare lang s,
        SearchSystem.pending
          (SearchSystem.step localeCompare lang s (SearchSystem.SetSearchQuery "  "))
        = None)
  /\ (forall localeCompare lang E c s,
        SearchSystem.cl_query c = "  " ->
        exec (SearchSystem.performSearch localeCompare lang E c) s = s).
Proof.
  apply relevance_blank_query_positive; [reflexivity|].
  exists "Automation Suite". split; [|reflexivity].
  apply elem_of_cons. right. apply elem_of_cons. left. reflexivity.
Defined.

(** C10, as stated for every query of white space, fails: a query
    that is one tab is empty once trimmed, and scores 0 against a
    field that is not empty. *)
Lemma relevance_tab_query_zero :
  trim (String TAB EmptyString) = EmptyString
  /\ isEmpty "abc" = false
  /\ ~ (0 < calculateRelevance (String TAB EmptyString) ["abc"]).
Proof.
  split; [reflexivity|]. split; [reflexivity|].
  vm_compute. intros H. discriminate H.
Qed.

(** ** The Gemini service wrappers *)

Section ServiceFacts.

Import Gemini.

Variable JSON_parse : string -> option Json.Value.
Variable translations : Lang -> string -> string.

Local Abbreviation getChatbotResponse := (Gemini.getChatbotResponse translations).
Local Abbreviation getBrainstormResponse := (Gemini.getBrainstormResponse translations).
Local Abbreviation getAiConsultation := (Gemini.getAiConsultation JSON_parse).
Local Abbreviation analyzeChatForLeadQualification :=
  (Gemini.analyzeChatForLeadQualification JSON_parse).

(** A value other than null comes from a response that parsed. *)
Lemma analyze_value_is_parsed_response ai chatHistory v :
  (analyzeChatForLeadQualification ai chatHistory).1 = v ->
  v <> Json.Null ->
  exists client text,
    ai = Some client
    /\ chatHistory <> []
    /\ client (qualificationRequest chatHistory) = Resolved text
    /\ JSON_parse (trim text) = Some v.
Proof.
  unfold Gemini.analyzeChatForLeadQualification.
  destruct ai as [client|]; [|by intros <-].
  destruct chatHistory as [|t h]; [by intros <-|]. cbn [length Nat.eqb].
  fold (qualificationRequest (t :: h)).
  destruct (client (qualificationRequest (t :: h))) as [|text] eqn:Hc;
    [by intros <-|].
  cbv zeta. destruct (JSON_parse (trim text)) as [w|] eqn:Hp; [|by intros <-].
  cbn. intros <- _. exists client, text.
  repeat split; try assumption. discriminate.
Qed.

Lemma analyze_without_client chatHistory :
  analyzeChatForLeadQualification None chatHistory = (Json.Null, []).
Proof. reflexivity. Qed.

Lemma analyze_empty ai :
  analyzeChatForLeadQualification ai [] = (Json.Null, []).
Proof. by destruct ai. Qed.

Lemma analyze_failed client chatHistory :
  chatHistory <> [] ->
  structuredCallFails JSON_parse client (qualificationRequest chatHistory) = true ->
  analyzeChatForLeadQualification (Some client) chatHistory
  = (Json.Null,
     [Generate (qualificationRequest chatHistory);
      ConsoleError "Gemini Qualification Error:"]).
Proof.
  intros Hne Hf. unfold Gemini.analyzeChatForLeadQualification, structuredCallFails in *.
  destruct chatHistory as [|t h]; [done|]. cbn [length Nat.eqb].
  fold (qualificationRequest (t :: h)).
  destruct (client (qualificationRequest (t :: h))) as [|text]; [reflexivity|].
  cbv zeta. by destruct (JSON_parse (trim text)).
Qed.

Lemma analyze_requests ai h :
  generated (analyzeChatForLeadQualification ai h).2
  = match ai with
    | Some _ => if bool_decide (h = []) then [] else [qualificationRequest h]
    | None => []
    end.
Proof.
  unfold Gemini.analyzeChatForLeadQualification.
  destruct ai as [client|]; [|reflexivity].
  destruct h as [|t h]; [reflexivity|].
  rewrite bool_decide_eq_false_2 by done. cbn [length Nat.eqb].
  fold (qualificationRequest (t :: h)).
  destruct (client _) as [|text]; [reflexivity|].
  cbv zeta. by destruct (JSON_parse _).
Qed.

Lemma consultation_without_client problem :
  getAiConsultation None problem = (Json.Null, []).
Proof. reflexivity. Qed.

Lemma consultation_failed client problem :
  structuredCallFails JSON_parse client (consultationRequest problem) = true ->
  getAiConsultation (Some client) problem
  = (Json.Null,
     [Generate (consultationRequest problem);
      ConsoleError "Gemini Consultation Error:"]).
Proof.
  intros Hf. unfold Gemini.getAiConsultation, structuredCallFails in *.
  fold (consultationRequest problem).
  destruct (client (consultationRequest problem)) as [|text]; [reflexivity|].
  cbv zeta. by destruct (JSON_parse (trim text)).
Qed.

Lemma consultation_fails_null E problem :
  consultationFails JSON_parse E problem = true ->
  (getAiConsultation (Chatbot.ai E) problem).1 = Json.Null.
Proof.
  unfold consultationFails. destruct (Chatbot.ai E) as [client|]; [|reflexivity].
  intros Hf. by rewrite consultation_failed.
Qed.

(** C1, as the code has it.  Every value other than null that
    analyzeChatForLeadQualification produces is the value that
    JSON.parse reads from the trimmed text of the response of the
    model: its isHotLead and its purchaseIntentScore are those of the
    response, neither checked nor derived from one another. *)
Theorem lead_qualification_is_the_response ai chatHistory v :
  (analyzeChatForLeadQualification ai chatHistory).1 = v ->
  v <> Json.Null ->
  exists client text,
    ai = Some client
    /\ chatHistory <> []
    /\ client (qualificationRequest chatHistory) = Resolved text
    /\ JSON_parse (trim text) = Some v.
Proof. apply analyze_value_is_parsed_response. Qed.

End ServiceFacts.

(** ** The chat widget *)

Section ChatFacts.

Import Gemini Chatbot.

Variable JSON_parse : string -> option Json.Value.
Variable JSON_stringify : Json.Value -> string.
Variable translations : Lang -> string -> string.
Variable lang : Lang.

Local Abbreviation handleCloseChat := (Chatbot.handleCloseChat JSON_parse).
Local Abbreviation handleConsultationSubmit :=
  (Chatbot.handleConsultationSubmit JSON_parse JSON_stringify).
Local Abbreviation handleShowServiceDetail :=
  (Chatbot.handleShowServiceDetail translations lang).
Local Abbreviation handleBrainstormSubmit :=
  (Chatbot.handleBrainstormSubmit translations lang).

(** Runs the statements of a handler on a symbolic state. *)
Ltac steps :=
  unfold call, setView, pushTurn, postWebhook, resetChat, try_catch;
  unfold mbind, mret, M_bind, M_ret, modify, throw, get; cbn.

(** Splits on whether the state is in the view [v] already. *)
Ltac on_view s v :=
  let Hv := fresh "Hv" in
  destruct (decide (view s = v)) as [Hv|Hv];
  [rewrite (bool_decide_eq_true_2 _ Hv); unfold renderContent; cbn;
   rewrite ?Hv; cbn
  |rewrite (bool_decide_eq_false_2 _ Hv); cbn].

Lemma requestsSent_service effs : requestsSent (Service <$> effs) = generated effs.
Proof.
  induction effs as [|[r|m] effs IH]; [done| |]; cbn in *; [f_equal|]; exact IH.
Qed.

Lemma qualifications_service effs : qualifications (Service <$> effs) = [].
Proof. induction effs as [|e effs IH]; [done|]. exact IH. Qed.

(** A consultation that gives no proposal: the input form again. *)
Lemma consultation_failure_returns_to_input E s :
  consultationFails JSON_parse E (consultationProblem s) = true ->
  let s' := exec (handleConsultationSubmit E) s in
  view s' = View_consultationInput
  /\ consultationResult s' = None
  /\ isLoading s' = false
  /\ renderContent s' = ConsultationForm (consultationProblem s).
Proof.
  intros Hf.
  pose proof (consultation_fails_null JSON_parse E _ Hf) as Hnull.
  unfold exec, Chatbot.handleConsultationSubmit. steps.
  destruct (getAiConsultation JSON_parse (ai E) (consultationProblem s)) as [r effs].
  cbn in Hnull. subst r. cbn.
  on_view s View_consultationResult; cbn; repeat split.
Qed.

(** The service detail shows the text the wrapper returned. *)
Lemma service_detail_shows_response E serviceTitle s :
  renderContent (exec (handleShowServiceDetail E serviceTitle) s)
  = ServiceDetailBlock (Some serviceTitle)
      (Content (Some (getChatbotResponse translations (ai E)
         ("Provide a concise, engaging, and persuasive description for the following service: "
          +:+ Json.quoted serviceTitle
          +:+ ". Explain its value and benefits for a potential client. Frame it as an investment using the 'leaky bucket' analogy where appropriate.")
         [] lang).1)).
Proof.
  unfold exec, Chatbot.handleShowServiceDetail. steps.
  on_view s View_serviceDetail; reflexivity.
Qed.

(** The brainstorm result shows the text the wrapper returned. *)
Lemma brainstorm_shows_response E s :
  renderContent (exec (handleBrainstormSubmit E) s)
  = BrainstormBlock
      (Content (Some (getBrainstormResponse translations (ai E)
         (brainstormIdea s)
         (match serviceDetail s with Some d => sd_title d | None => EmptyString end)
         lang).1)).
Proof.
  unfold exec, Chatbot.handleBrainstormSubmit. steps.
  on_view s View_brainstormResult; reflexivity.
Qed.

(** C5, as the code has it.  With no client, getChatbotResponse and
    getBrainstormResponse return the text of bot_error_key, and with a
    client whose calls are rejected the text of bot_error_api; the
    service detail and the brainstorm result show that text.
    getAiConsultation and analyzeChatForLeadQualification return null
    in both cases, and after a consultation the chat shows the input
    form again in both. *)
Theorem ai_failures_by_call_site (client : AiClient) (E0 E1 : Env) (s : State)
    (prompt idea serviceTitle problem : string) (chatHistory : list Turn) :
  (forall req, client req = Rejected) ->
  ai E0 = None ->
  ai E1 = Some client ->
  ((getChatbotResponse translations None prompt chatHistory lang).1
     = translations lang "bot_error_key"
   /\ (getChatbotResponse translations (Some client) prompt chatHistory lang).1
     = translations lang "bot_error_api"
   /\ renderContent (exec (handleShowServiceDetail E0 serviceTitle) s)
     = ServiceDetailBlock (Some serviceTitle)
         (Content (Some (translations lang "bot_error_key")))
   /\ renderContent (exec (handleShowServiceDetail E1 serviceTitle) s)
     = ServiceDetailBlock (Some serviceTitle)
         (Content (Some (translations lang "bot_error_api"))))
  /\ ((getBrainstormResponse translations None idea serviceTitle lang).1
      = translations lang "bot_error_key"
     /\ (getBrainstormResponse translations (Some client) idea serviceTitle lang).1
      = translations lang "bot_error_api"
     /\ renderContent (exec (handleBrainstormSubmit E0) s)
      = BrainstormBlock (Content (Some (translations lang "bot_error_key")))
     /\ renderContent (exec (handleBrainstormSubmit E1) s)
      = BrainstormBlock (Content (Some (translations lang "bot_error_api"))))
  /\ ((getAiConsultation JSON_parse None problem).1 = Json.Null
     /\ (getAiConsultation JSON_parse (Some client) problem).1 = Json.Null
     /\ renderContent (exec (handleConsultationSubmit E0) s)
      = ConsultationForm (consultationProblem s)
     /\ renderContent (exec (handleConsultationSubmit E1) s)
      = ConsultationForm (consultationProblem s))
  /\ ((analyzeChatForLeadQualification JSON_parse None chatHistory).1 = Json.Null
     /\ (analyzeChatForLeadQualification JSON_parse (Some client) chatHistory).1
      = Json.Null).
Proof.
  intros Hrej H0 H1.
  assert (Hc0 : consultationFails JSON_parse E0 (consultationProblem s) = true).
  { unfold consultationFails. by rewrite H0. }
  assert (Hc1 : consultationFails JSON_parse E1 (consultationProblem s) = true).
  { unfold consultationFails, structuredCallFails. by rewrite H1, Hrej. }
  split; [|split; [|split]].
  - rewrite !service_detail_shows_response, H0, H1.
    unfold getChatbotResponse. by rewrite !Hrej.
  - rewrite !brainstorm_shows_response, H0, H1.
    unfold getBrainstormResponse. by rewrite !Hrej.
  - destruct (consultation_failure_returns_to_input E0 s Hc0) as (_ & _ & _ & R0).
    destruct (consultation_failure_returns_to_input E1 s Hc1) as (_ & _ & _ & R1).
    unfold getAiConsultation. by rewrite Hrej.
  - unfold analyzeChatForLeadQualification. rewrite Hrej.
    by destruct (length chatHistory =? 0)%nat.
Qed.

(** C6.  When the structured call of a consultation fails (no client,
    a rejected call, or a text that JSON.parse rejects), the chat ends
    in the view consultationInput, holds no proposal, is no longer
    loading, and shows the input form. *)
Theorem failed_consultation_ends_in_input (E : Env) (s : State) :
  consultationFails JSON_parse E (consultationProblem s) = true ->
  let s' := exec (handleConsultationSubmit E) s in
  view s' = View_consultationInput
  /\ view s' <> View_consultationResult
  /\ consultationResult s' = None
  /\ isLoading s' = false
  /\ renderContent s' = ConsultationForm (consultationProblem s).
Proof.
  intros Hf.
  destruct (consultation_failure_returns_to_input E s Hf) as (Hv & Hr & Hl & Hc).
  cbv zeta. rewrite Hv. repeat split; try assumption. discriminate.
Qed.

(** C7.  Closing the chat calls analyzeChatForLeadQualification once,
    with the whole transcript, when the transcript is not empty, and
    not at all when it is empty; it sends at most that one request to
    the model (none without a client); and whatever the answer of the
    model and the fate of the webhook, the widget is closed and every
    field of the session is back to its initial value. *)
Theorem close_chat_qualifies_once_and_resets (E : Env) (s : State) :
  let s' := exec (handleCloseChat E) s in
  qualifications (trace s')
  = qualifications (trace s)
    ++ (if bool_decide (chatHistory s = []) then [] else [chatHistory s])
  /\ requestsSent (trace s')
     = requestsSent (trace s)
       ++ match ai E with
          | Some _ => if bool_decide (chatHistory s = []) then []
                      else [qualificationRequest (chatHistory s)]
          | None => []
          end
  /\ isOpen s' = isOpen initial
  /\ view s' = view initial
  /\ serviceDetail s' = serviceDetail initial
  /\ brainstormIdea s' = brainstormIdea initial
  /\ brainstormResult s' = brainstormResult initial
  /\ consultationResult s' = consultationResult initial
  /\ consultationProblem s' = consultationProblem initial
  /\ chatHistory s' = chatHistory initial
  /\ requestFormData s' = requestFormData initial
  /\ isConvoSaved s' = isConvoSaved initial.
Proof.
  unfold exec, Chatbot.handleCloseChat. steps.
  pose proof (analyze_requests JSON_parse (ai E) (chatHistory s)) as Hreq.
  destruct (chatHistory s) as [|t h] eqn:Hh.
  - cbn. on_view s View_main;
      destruct (ai E); repeat split; by rewrite app_nil_r.
  - cbn. rewrite bool_decide_eq_false_2 in Hreq by done.
    destruct (analyzeChatForLeadQualification JSON_parse (ai E) (t :: h))
      as [analysis effs]. cbn [snd] in Hreq. cbn.
    destruct (Json.truthy_opt (Json.prop analysis "isHotLead"));
      [destruct (fetch_resolves E)|]; cbn;
      on_view s View_main;
      (split; [|split]; [| |repeat split]).
    all: unfold qualifications, requestsSent; rewrite !omap_app.
    all: fold (qualifications (Service <$> effs));
         fold (requestsSent (Service <$> effs)).
    all: rewrite ?qualifications_service, ?requestsSent_service, ?Hreq.
    all: cbn; rewrite ?app_nil_r; reflexivity.
Qed.

End ChatFacts.

(** C1, as the specification states it, fails: the model may answer a
    score of 90 with isHotLead false, and the code returns that answer
    as it is. *)
Lemma lead_qualification_hot_flag_not_derived :
  let v := (Gemini.analyzeChatForLeadQualification Json.parse
              (Some example_inconsistent) example_transcript).1 in
  v = Json.Obj [("purchaseIntentScore", Json.Num 90);
                ("isHotLead", Json.Bool false);
                ("businessSummary", Json.Str "Wants a Telegram bot this week")]
  /\ spec_hotLeadInvariant v = false
  /\ ~ (forall ai chatHistory,
          let v := (Gemini.analyzeChatForLeadQualification Json.parse ai chatHistory).1 in
          v <> Json.Null -> spec_hotLeadInvariant v = true).
Proof.
  split; [vm_compute; reflexivity|]. split; [vm_compute; reflexivity|].
  intros H. specialize (H (Some example_inconsistent) example_transcript).
  vm_compute in H. specialize (H ltac:(discriminate)). discriminate H.
Qed.

Lemma lead_qualification_is_the_response_witness :
  exists client text,
    Some example_inconsistent = Some client
    /\ example_transcript <> []
    /\ client (qualificationRequest example_transcript) = Gemini.Resolved text
    /\ Json.parse (trim text)
       = Some (Json.Obj [("purchaseIntentScore", Json.Num 90);
                         ("isHotLead", Json.Bool false);
                         ("businessSummary", Json.Str "Wants a Telegram bot this week")]).
Proof.
  apply (lead_qualification_is_the_response Json.parse
           (Some example_inconsistent) example_transcript);
    [vm_compute; reflexivity|discriminate].
Defined.

(** C5, as the specification states it, fails: for the consultation
    and for the lead qualification, a missing client and a rejected
    call give the same result, null, and the chat shows the same input
    form after both. *)
Lemma consultation_errors_indistinguishable :
  (Gemini.getAiConsultation Json.parse None "Our invoices are typed by hand").1
  = (Gemini.getAiConsultation Json.parse (Some example_rejecting)
       "Our invoices are typed by hand").1
  /\ Chatbot.renderContent
       (exec (Chatbot.handleConsultationSubmit Json.parse example_stringify
                (example_env None)) example_consulting)
     = Chatbot.renderContent
         (exec (Chatbot.handleConsultationSubmit Json.parse example_stringify
                  (example_env (Some example_rejecting))) example_consulting)
  /\ (Gemini.analyzeChatForLeadQualification Json.parse None example_transcript).1
     = (Gemini.analyzeChatForLeadQualification Json.parse (Some example_rejecting)
          example_transcript).1.
Proof. repeat split; vm_compute; reflexivity. Qed.

Lemma ai_failures_by_call_site_witness :
  (forall req, example_rejecting req = Gemini.Rejected)
  /\ (Gemini.getChatbotResponse example_translations None
        "Describe the service" [] en).1
     = "The assistant is not configured."
  /\ (Gemini.getChatbotResponse example_translations (Some example_rejecting)
        "Describe the service" [] en).1
     = "Sorry, something went wrong. Please try again."
  /\ (Gemini.getAiConsultation Json.parse None "Our invoices are typed by hand").1
     = Json.Null
  /\ (Gemini.getAiConsultation Json.parse (Some example_rejecting)
        "Our invoices are typed by hand").1
     = Json.Null.
Proof.
  assert (Hrej : forall req, example_rejecting req = Gemini.Rejected)
    by (intros req; reflexivity).
  split; [exact Hrej|].
  destruct (ai_failures_by_call_site Json.parse example_stringify
              example_translations en example_rejecting
              (example_env None) (example_env (Some example_rejecting))
              example_consulting "Describe the service" "An idea"
              "Custom Telegram Bots" "Our invoices are typed by hand"
              [] Hrej eq_refl eq_refl)
    as ((K & A & _) & _ & (N0 & N1 & _) & _).
  exact (conj K (conj A (conj N0 N1))).
Defined.

Lemma failed_consultation_ends_in_input_witness :
  consultationFails Json.parse (example_env (Some example_garbled))
    (Chatbot.consultationProblem example_consulting) = true
  /\ let s' := exec (Chatbot.handleConsultationSubmit Json.parse example_stringify
                       (example_env (Some example_garbled))) example_consulting in
     Chatbot.view s' = Chatbot.View_consultationInput
     /\ Chatbot.view s' <> Chatbot.View_consultationResult
     /\ Chatbot.consultationResult s' = None
     /\ Chatbot.isLoading s' = false
     /\ Chatbot.renderContent s'
        = Chatbot.ConsultationForm (Chatbot.consultationProblem example_consulting).
Proof.
  split; [vm_compute; reflexivity|].
  apply (failed_consultation_ends_in_input Json.parse example_stringify).
  vm_compute. reflexivity.
Defined.

(** A model that answers a hot lead: closing the chat posts it to the
    webhook, and the session is reset all the same. *)
Example close_chat_hot_lead :
  let client : Gemini.AiClient := fun _ =>
    Gemini.Resolved ("{" +:+ Json.quoted "purchaseIntentScore" +:+ ": 95, "
                     +:+ Json.quoted "isHotLead" +:+ ": true, "
                     +:+ Json.quoted "businessSummary" +:+ ": "
                     +:+ Json.quoted "Ready to buy" +:+ "}") in
  let s := Chatbot.with_chatHistory example_transcript
             (Chatbot.with_isOpen true Chatbot.initial) in
  let s' := exec (Chatbot.handleCloseChat Json.parse (example_env (Some client))) s in
  Chatbot.trace s'
  = [Chatbot.Qualify example_transcript;
     Chatbot.Service (Gemini.Generate (qualificationRequest example_transcript));
     Chatbot.WebhookPost
       {| Chatbot.leadType := "Hot Lead - Auto Detected";
          Chatbot.purchaseIntentScore := Some (Json.Num 95);
          Chatbot.businessSummary := Some (Json.Str "Ready to buy");
          Chatbot.leadName := Json.Str "N/A";
          Chatbot.leadEmail := Json.Str "N/A";
          Chatbot.leadPhone := Json.Str "N/A";
          Chatbot.timestamp := "2025-01-01T00:00:00.000Z" |}]
  /\ Chatbot.chatHistory s' = []
  /\ Chatbot.isOpen s' = false.
Proof. repeat split; vm_compute; reflexivity. Qed.

(** * Further properties *)

(** * Further properties *)

(** ** The relevance score *)

Section RelevanceMore.

Lemma fieldScore_pos_of_match q n i f :
  (i < n)%nat -> noMatch q f = false -> 0 < fieldScore q n i f.
Proof.
  intros Hi Hm. unfold noMatch in Hm. unfold fieldScore.
  destruct (isEmpty f); [discriminate|]. rewrite orb_false_l in Hm.
  cbv zeta.
  pose proof (countPairs_nonneg (split SP (toLowerCase q)) (split SP (toLowerCase f))) as Hc.
  destruct (includes (toLowerCase f) (toLowerCase q)); cbn in Hm.
  - nia.
  - apply Z.eqb_neq in Hm. nia.
Qed.

Lemma sumFrom_pos_iff q n fields :
  forall i, (i + length fields <= n)%nat ->
    (0 < sumFrom i (fieldScore q n) fields
     <-> exists f, f ∈ fields /\ noMatch q f = false).
Proof.
  induction fields as [|f fs IH]; intros i Hi; cbn [sumFrom length] in *.
  - split; [lia|]. intros (f & Hf & _). inversion Hf.
  - pose proof (sumFrom_nonneg q n fs (S i) ltac:(lia)) as Hrest.
    pose proof (fieldScore_nonneg q n i f ltac:(lia)) as Hhere.
    specialize (IH (S i) ltac:(lia)).
    destruct (noMatch q f) eqn:Hm.
    + rewrite (noMatch_fieldScore q n i f Hm). rewrite Z.add_0_l, IH.
      split; intros (g & Hg & Hgm).
      * exists g. split; [by apply elem_of_cons; right|done].
      * apply elem_of_cons in Hg as [->|Hg]; [congruence|]. by exists g.
    + pose proof (fieldScore_pos_of_match q n i f ltac:(lia) Hm).
      split; [|lia]. intros _. exists f. split; [by apply elem_of_cons; left|done].
Qed.

Lemma toLowerChar_idem c : toLowerChar (toLowerChar c) = toLowerChar c.
Proof. by destruct c as [[] [] [] [] [] [] [] []]. Qed.

Lemma toLowerCase_idem s : toLowerCase (toLowerCase s) = toLowerCase s.
Proof. induction s as [|c s IH]; [done|]. cbn. by rewrite toLowerChar_idem, IH. Qed.

Lemma fieldScore_lower q n i f :
  fieldScore (toLowerCase q) n i (toLowerCase f) = fieldScore q n i f.
Proof.
  unfold fieldScore. by rewrite toLowerCase_isEmpty, !toLowerCase_idem.
Qed.

Lemma sumFrom_lower q n fields :
  forall i, sumFrom i (fieldScore (toLowerCase q) n) (toLowerCase <$> fields)
            = sumFrom i (fieldScore q n) fields.
Proof.
  induction fields as [|f fs IH]; intros i; [done|].
  rewrite fmap_cons. cbn [sumFrom]. by rewrite fieldScore_lower, IH.
Qed.

(** A prefix without a space lies in the first piece. *)
Lemma startsWith_first_piece q :
  noSpace q = true ->
  forall s, startsWith s q = true ->
            exists w ws, split SP s = w :: ws /\ startsWith w q = true.
Proof.
  induction q as [|a q IH]; intros Hq s Hs.
  - destruct (split SP s) as [|w ws] eqn:Hsp; [by apply split_not_nil in Hsp|].
    exists w, ws. split; [done|]. by destruct w.
  - cbn [noSpace] in Hq. apply andb_prop in Hq as [Ha Hq].
    apply negb_true_iff in Ha.
    destruct s as [|c s]; [discriminate|]. cbn [startsWith] in Hs.
    destruct (Ascii.eqb a c) eqn:Hac; [|discriminate].
    apply Ascii.eqb_eq in Hac. subst c.
    destruct (IH Hq s Hs) as (w & ws & Hsp & Hw).
    cbn [split]. rewrite Ha, Hsp. exists (String a w), ws. split; [done|].
    cbn [startsWith]. by rewrite Ascii.eqb_refl.
Qed.

Lemma includes_of_startsWith s q : startsWith s q = true -> includes s q = true.
Proof. intros H. destruct s; cbn [includes]; by rewrite H. Qed.

Lemma includes_cons c s q : includes s q = true -> includes (String c s) q = true.
Proof. intros H. cbn [includes]. rewrite H. apply orb_true_r. Qed.

(** A part without a space lies in one piece. *)
Lemma includes_some_piece q s :
  noSpace q = true -> includes s q = true ->
  exists w, w ∈ split SP s /\ includes w q = true.
Proof.
  intros Hq. induction s as [|c s IH]; intros Hs.
  - exists EmptyString. split; [by apply elem_of_cons; left|done].
  - cbn [includes] in Hs. apply orb_prop in Hs as [Hs|Hs].
    + destruct (startsWith_first_piece q Hq _ Hs) as (w & ws & Hsp & Hw).
      exists w. rewrite Hsp. split; [by apply elem_of_cons; left|].
      by apply includes_of_startsWith.
    + destruct (IH Hs) as (w & Hw & Hi). cbn [split].
      destruct (Ascii.eqb c SP).
      * exists w. split; [by apply elem_of_cons; right|done].
      * destruct (split SP s) as [|w0 ws]; [inversion Hw|].
        apply elem_of_cons in Hw as [->|Hw].
        -- exists (String c w0). split; [by apply elem_of_cons; left|].
           by apply includes_cons.
        -- exists w. split; [by apply elem_of_cons; right|done].
Qed.

Lemma split_noSpace q : noSpace q = true -> split SP q = [q].
Proof.
  induction q as [|c q IH]; [done|]. cbn [noSpace split].
  intros [Hc Hq]%andb_prop. apply negb_true_iff in Hc. by rewrite Hc, IH.
Qed.

Lemma toLowerCase_noSpace q : noSpace (toLowerCase q) = noSpace q.
Proof.
  induction q as [|c q IH]; [done|]. cbn [toLowerCase noSpace].
  by rewrite toLowerChar_SP, IH.
Qed.

Lemma countIn_of_piece qw fws :
  (exists w, w ∈ fws /\ includes w qw = true) -> 1 <= countIn qw fws.
Proof.
  intros (w & Hw & Hi). induction fws as [|fw fws IH]; [inversion Hw|].
  cbn [countIn]. pose proof (countIn_nonneg qw fws).
  apply elem_of_cons in Hw as [<-|Hw].
  - unfold pairMatch. rewrite Hi. cbn. lia.
  - specialize (IH Hw). destruct (pairMatch qw fw); lia.
Qed.

Lemma fieldScore_substring q n i f :
  (i < n)%nat -> isEmpty f = false -> noSpace q = true ->
  includes (toLowerCase f) (toLowerCase q) = true ->
  (Z.of_nat n - Z.of_nat i) * 12 <= fieldScore q n i f.
Proof.
  intros Hi Hf Hq Hin. unfold fieldScore. rewrite Hf. cbv zeta. rewrite Hin.
  assert (Hq' : noSpace (toLowerCase q) = true) by by rewrite toLowerCase_noSpace.
  rewrite (split_noSpace _ Hq'). cbn [countPairs].
  pose proof (countIn_of_piece (toLowerCase q) (split SP (toLowerCase f))
                (includes_some_piece _ _ Hq' Hin)).
  nia.
Qed.

Lemma sumFrom_at q n fields :
  forall i k f, (i + length fields <= n)%nat ->
    fields !! k = Some f ->
    fieldScore q n (i + k) f <= sumFrom i (fieldScore q n) fields.
Proof.
  induction fields as [|g gs IH]; intros i k f Hi Hk; [done|].
  cbn [sumFrom length] in *.
  pose proof (sumFrom_nonneg q n gs (S i) ltac:(lia)).
  pose proof (fieldScore_nonneg q n i g ltac:(lia)).
  destruct k as [|k]; cbn in Hk.
  - injection Hk as ->. rewrite Nat.add_0_r. lia.
  - specialize (IH (S i) k f ltac:(lia) Hk).
    replace (i + S k)%nat with (S i + k)%nat by lia. lia.
Qed.

End RelevanceMore.

(** X1.  The score is never negative, and it is positive exactly when
    some field matches: a field that is not empty and that contains the
    query, or has a piece that contains or lies in a piece of the
    query, both in lower case. *)
Theorem relevance_positive_iff_some_field_matches (query : string) (fields : list string) :
  0 <= calculateRelevance query fields
  /\ (0 < calculateRelevance query fields
      <-> exists f, f ∈ fields /\ noMatch query f = false).
Proof.
  rewrite calculateRelevance_sum. split.
  - apply sumFrom_nonneg. lia.
  - apply sumFrom_pos_iff. lia.
Qed.

(** X2.  The score does not depend on the case of the query or of the
    fields. *)
Theorem relevance_ignores_case (query : string) (fields : list string) :
  calculateRelevance (toLowerCase query) (toLowerCase <$> fields)
  = calculateRelevance query fields.
Proof.
  rewrite !calculateRelevance_sum, length_fmap. apply sumFrom_lower.
Qed.

(** X3.  For a query without a space, a field that contains the query
    always counts twice: once for the substring, and once for the piece
    of the field that holds it.  The field at index [i] of [n] then
    brings at least [(n - i) * 12]. *)
Theorem relevance_substring_counts_twice (query : string) (fields : list string)
    (i : nat) (f : string) :
  fields !! i = Some f ->
  isEmpty f = false ->
  noSpace query = true ->
  includes (toLowerCase f) (toLowerCase query) = true ->
  (Z.of_nat (length fields) - Z.of_nat i) * 12 <= calculateRelevance query fields.
Proof.
  intros Hk Hf Hq Hin. rewrite calculateRelevance_sum.
  pose proof (lookup_lt_Some _ _ _ Hk) as Hlt.
  pose proof (sumFrom_at query (length fields) fields 0 i f ltac:(lia) Hk) as Hat.
  pose proof (fieldScore_substring query (length fields) i f Hlt Hf Hq Hin).
  cbn in Hat. lia.
Qed.

Lemma relevance_substring_counts_twice_witness :
  (Z.of_nat (length ["Automation Suite"; "Workflow tools"; EmptyString]) - Z.of_nat 0) * 12
  <= calculateRelevance "auto" ["Automation Suite"; "Workflow tools"; EmptyString].
Proof.
  apply (relevance_substring_counts_twice "auto" _ 0 "Automation Suite");
    reflexivity.
Defined.

(** ** The search component *)

Section SearchMore.

Import SearchSystem.

Variable localeCompare : string -> string -> Z.
Variable lang : Lang.

Local Abbreviation performSearch := (SearchSystem.performSearch localeCompare lang).
Local Abbreviation step := (SearchSystem.step localeCompare lang).
Local Abbreviation run := (SearchSystem.run localeCompare lang).

Lemma searchProjects_omap query snapshot :
  forall results,
    searchProjects lang query snapshot results
    = results ++ omap (projectResult lang query) snapshot.
Proof.
  unfold searchProjects, forEach.
  induction snapshot as [|child snap IH]; intros results; simpl.
  - by rewrite app_nil_r.
  - rewrite IH. unfold projectResult. cbv zeta.
    destruct (0 <? _); [by rewrite <- (assoc_L (++))|done].
Qed.

Lemma searchServices_omap query snapshot :
  forall results,
    searchServices lang query snapshot results
    = results ++ omap (serviceResult lang query) snapshot.
Proof.
  unfold searchServices, forEach.
  induction snapshot as [|child snap IH]; intros results; simpl.
  - by rewrite app_nil_r.
  - rewrite IH. unfold serviceResult. cbv zeta.
    destruct (0 <? _); [by rewrite <- (assoc_L (++))|done].
Qed.

Lemma searchPosts_omap query snapshot :
  forall results,
    searchPosts query snapshot results
    = results ++ omap (postResult query) snapshot.
Proof.
  unfold searchPosts, forEach.
  induction snapshot as [|child snap IH]; intros results; simpl.
  - by rewrite app_nil_r.
  - rewrite IH. unfold postResult. cbv zeta.
    destruct (c_isApproved child.2); [|done].
    destruct (0 <? _); [by rewrite <- (assoc_L (++))|done].
Qed.

Lemma State_eq (s1 s2 : State) :
  searchQuery s1 = searchQuery s2 ->
  searchResults s1 = searchResults s2 ->
  isSearching s1 = isSearching s2 ->
  showResults s1 = showResults s2 ->
  searchHistory s1 = searchHistory s2 ->
  filters s1 = filters s2 ->
  pending s1 = pending s2 ->
  trace s1 = trace s2 ->
  s1 = s2.
Proof. destruct s1, s2; cbn; intros; by subst. Qed.

Lemma trace_emit e s : trace (emit e s) = trace s ++ [e].
Proof. reflexivity. Qed.
Lemma trace_with_isSearching v s : trace (with_isSearching v s) = trace s.
Proof. reflexivity. Qed.
Lemma trace_with_showResults v s : trace (with_showResults v s) = trace s.
Proof. reflexivity. Qed.
Lemma trace_with_searchResults v s : trace (with_searchResults v s) = trace s.
Proof. reflexivity. Qed.
Lemma trace_with_searchHistory v s : trace (with_searchHistory v s) = trace s.
Proof. reflexivity. Qed.
Lemma trace_with_pending v s : trace (with_pending v s) = trace s.
Proof. reflexivity. Qed.
Lemma trace_with_searchQuery v s : trace (with_searchQuery v s) = trace s.
Proof. reflexivity. Qed.
Lemma trace_with_filters v s : trace (with_filters v s) = trace s.
Proof. reflexivity. Qed.

(** Rewrites the trace of a state built by setters. *)
Ltac trace_of_setters :=
  rewrite ?trace_emit, ?trace_with_isSearching, ?trace_with_showResults,
    ?trace_with_searchResults, ?trace_with_searchHistory, ?trace_with_pending,
    ?trace_with_searchQuery, ?trace_with_filters.

(** The state a search leaves when every read it makes resolves. *)
Lemma performSearch_resolved_state E c s :
  isEmpty (trim (cl_query c)) = false ->
  readRejected (cl_filters c) (db E) = false ->
  exec (performSearch E c) s
  = {| searchQuery := searchQuery s;
       searchResults := sortResults localeCompare (f_sortBy (cl_filters c))
                          (matches lang E c);
       isSearching := false;
       showResults := true;
       searchHistory := newHistory (cl_query c) (cl_history c);
       filters := filters s;
       pending := pending s;
       trace := trace s
                ++ (Fetch <$> selectedCollections (cl_filters c))
                ++ [LocalStorageSet "searchHistory"
                      (newHistory (cl_query c) (cl_history c))]
                ++ counterEffects E (cl_query c) |}.
Proof.
  intros Hq Hr. unfold exec, SearchSystem.performSearch. rewrite Hq.
  unfold readRejected in Hr.
  unfold matches, selectedCollections, newHistory, counterEffects.
  unfold try_catch_finally, searchBody, saveSearchToHistory, transaction, once.
  destruct E as [[ps ss cs] d ok].
  cbn [db projects services communityPosts today validPath] in *.
  destruct (typeSelected (cl_filters c) "project");
    destruct (typeSelected (cl_filters c) "service");
    destruct (typeSelected (cl_filters c) "post");
    destruct ps as [ps|]; destruct ss as [ss|]; destruct cs as [cs|];
    try discriminate Hr;
    destruct (ok ("analytics/searches/" +:+ d));
    destruct (ok ("analytics/popularSearches/" +:+ cl_query c));
    unfold mbind, mret, M_bind, M_ret, modify, throw; cbn;
    rewrite ?searchProjects_omap, ?searchServices_omap, ?searchPosts_omap;
    (apply State_eq;
     [reflexivity
     |cbn; rewrite ?app_nil_r, <- ?(assoc_L (++)); reflexivity
     |reflexivity|reflexivity|reflexivity|reflexivity|reflexivity
     |trace_of_setters; cbn; rewrite <- ?(assoc_L (++)); reflexivity]).
Qed.

(** *** The sort *)

Lemma sort_insert_perm {A} (cmp : A -> A -> Z) x l :
  sort_insert cmp x l ≡ₚ x :: l.
Proof.
  induction l as [|y l IH]; cbn [sort_insert]; [done|].
  destruct (cmp x y <=? 0); [done|]. rewrite IH. apply Permutation_swap.
Qed.

Lemma sort_perm {A} (cmp : A -> A -> Z) l : sort cmp l ≡ₚ l.
Proof.
  unfold sort. induction l as [|x l IH]; cbn [foldr]; [done|].
  by rewrite sort_insert_perm, IH.
Qed.

(** With a comparator [k b - k a], the sort puts the larger keys
    first. *)
Lemma sort_insert_sorted {A} (k : A -> Z) x l :
  StronglySorted (fun a b => k b <= k a) l ->
  StronglySorted (fun a b => k b <= k a) (sort_insert (fun a b => k b - k a) x l).
Proof.
  induction 1 as [|y l Hl IH Hy]; cbn [sort_insert].
  - repeat constructor.
  - destruct (Z.leb_spec (k y - k x) 0) as [Hle|Hgt].
    + constructor; [by constructor|].
      constructor; [lia|]. eapply Forall_impl; [exact Hy|]. cbn. intros; lia.
    + constructor; [exact IH|].
      rewrite (sort_insert_perm _ x l). constructor; [lia|exact Hy].
Qed.

Lemma sort_sorted {A} (k : A -> Z) l :
  StronglySorted (fun a b => k b <= k a) (sort (fun a b => k b - k a) l).
Proof.
  unfold sort. induction l as [|x l IH]; cbn [foldr]; [constructor|].
  by apply sort_insert_sorted.
Qed.

Lemma sortResults_perm sortBy results :
  sortResults localeCompare sortBy results ≡ₚ results.
Proof.
  unfold sortResults. destruct (String.eqb sortBy "relevance"); [apply sort_perm|].
  destruct (String.eqb sortBy "title"); [apply sort_perm|done].
Qed.

Lemma StronglySorted_app_le {A} (R : A -> A -> Prop) l1 l2 :
  StronglySorted R (l1 ++ l2) ->
  forall a b, a ∈ l1 -> b ∈ l2 -> R a b.
Proof.
  induction l1 as [|x l1 IH]; intros Hs a b Ha Hb; [inversion Ha|].
  cbn in Hs. apply StronglySorted_inv in Hs as [Hs Hx].
  apply elem_of_cons in Ha as [->|Ha]; [|by eapply IH].
  rewrite Forall_forall in Hx. apply Hx, elem_of_app. by right.
Qed.

(** *** What holds between two events *)

Lemma rev_app_length s1 s2 :
  String.length (String.rev_app s1 s2) = (String.length s1 + String.length s2)%nat.
Proof.
  revert s2. induction s1 as [|c s1 IH]; intros s2; cbn; [done|].
  rewrite IH. cbn. lia.
Qed.

Lemma trimStart_length s : (String.length (trimStart s) <= String.length s)%nat.
Proof.
  induction s as [|c s IH]; cbn; [lia|]. destruct (isWhiteSpace c); cbn; lia.
Qed.

Lemma trim_length s : (String.length (trim s) <= String.length s)%nat.
Proof.
  unfold trim, trimEnd, String.rev. rewrite rev_app_length. cbn.
  etrans; [rewrite Nat.add_0_r; apply trimStart_length|].
  rewrite rev_app_length. cbn. rewrite Nat.add_0_r. apply trimStart_length.
Qed.

Lemma storedHistory_reads t reads msg :
  storedHistory (t ++ (Fetch <$> reads) ++ [ConsoleError msg]) = storedHistory t.
Proof.
  unfold storedHistory. rewrite !omap_app.
  assert (Hr : forall l, omap (fun e => match e with
                                     | LocalStorageSet _ value => Some value
                                     | _ => None
                                     end) (Fetch <$> l) = []).
  { induction l; [done|]. done. }
  rewrite Hr. cbn. by rewrite app_nil_r.
Qed.

Lemma storedHistory_saved t reads key value E query :
  storedHistory (t ++ (Fetch <$> reads)
                 ++ [LocalStorageSet key value] ++ counterEffects E query)
  = Some value.
Proof.
  unfold storedHistory. rewrite !omap_app.
  assert (Hr : forall l, omap (fun e => match e with
                                     | LocalStorageSet _ value => Some value
                                     | _ => None
                                     end) (Fetch <$> l) = []).
  { induction l; [done|]. done. }
  rewrite Hr. unfold counterEffects.
  destruct (validPath E _); [destruct (validPath E _)|]; cbn;
    rewrite ?app_nil_r; apply last_snoc.
Qed.

Lemma newHistory_NoDup q h : NoDup h -> NoDup (newHistory q h).
Proof.
  intros Hh. unfold newHistory.
  eapply sublist_NoDup; [|apply sublist_take].
  apply NoDup_cons. split; [|by apply NoDup_filter].
  rewrite list_elem_of_filter. by intros [? _].
Qed.

Lemma newHistory_long q h : long q -> Forall long h -> Forall long (newHistory q h).
Proof.
  intros Hq Hh. unfold newHistory. apply Forall_take.
  constructor; [done|]. rewrite Forall_forall in Hh |- *.
  intros x [_ Hx]%list_elem_of_filter. by apply Hh.
Qed.

Lemma long_not_blank q : long q -> isEmpty (trim q) = false.
Proof. unfold long. destruct (trim q); cbn; [lia|done]. Qed.

Lemma settled_initial : settled initial.
Proof.
  unfold settled. split_and!; try done.
  - apply NoDup_nil_2.
Qed.

Lemma settled_effect s :
  isSearching s = false ->
  NoDup (searchHistory s) ->
  Forall long (searchHistory s) ->
  default [] (storedHistory (trace s)) = searchHistory s ->
  settled (debounceEffect s).
Proof.
  intros Hi Hn Hl Hst. unfold debounceEffect. cbv zeta.
  change (searchQuery (with_pending None s)) with (searchQuery s).
  pose proof (trim_length (searchQuery s)) as Htrim.
  destruct (Nat.ltb_spec 2 (String.length (trim (searchQuery s)))) as [Hlong|Hshort];
    unfold settled; split_and!; try done.
  all: try (intros c [= <-]; split; [reflexivity|exact Hlong]).
  all: try (cbn; unfold long; intros; lia).
Qed.

Lemma settled_step s ev : settled s -> settled (step s ev).
Proof.
  intros Hsettled. pose proof Hsettled as (Hi & Hp & Hr & Hs & Hn & Hl & Hst).
  destruct ev as [text|f| | |E]; cbn [SearchSystem.step].
  - by apply settled_effect.
  - by apply settled_effect.
  - pose proof (trim_length (searchQuery s)).
    unfold settled; split_and!; try done.
    intros Hlen. change ((2 <? String.length (searchQuery s))%nat = false).
    apply Nat.ltb_ge. exact Hlen.
  - by apply settled_effect.
  - destruct (pending s) as [c|] eqn:Hpend; [|exact Hsettled].
    destruct (Hp c eq_refl) as [-> Hlong].
    pose proof (long_not_blank _ Hlong) as Hq.
    pose proof (trim_length (searchQuery s)) as Htrim. unfold long in Hlong.
    destruct (readRejected (filters s) (db E)) eqn:Hrej.
    + destruct (performSearch_rejected localeCompare lang E (closureOf s)
                  (with_pending None s) Hq Hrej)
        as (R1 & R2 & R3 & R4 & R5 & R6 & R7 & earlier & failed & later & _ & _ & _ & R8).
      cbn in R1, R2, R3, R4, R5, R8.
      unfold settled; split_and!.
      * exact R6.
      * intros c. rewrite R5. discriminate.
      * rewrite R3, R1. exact Hr.
      * rewrite R3. intros. lia.
      * by rewrite R2.
      * by rewrite R2.
      * by rewrite R8, storedHistory_reads, R2.
    + rewrite (performSearch_resolved_state E (closureOf s) _ Hq Hrej).
      unfold settled; split_and!; cbn.
      * done.
      * discriminate.
      * intros Hnot. by destruct Hnot.
      * intros. lia.
      * by apply newHistory_NoDup.
      * by apply newHistory_long.
      * pose proof (storedHistory_saved (trace s)
                      (selectedCollections (filters s)) "searchHistory"
                      (newHistory (searchQuery s) (searchHistory s))
                      E (searchQuery s)) as Hsaved.
        cbn in Hsaved. by rewrite Hsaved.
Qed.

Lemma settled_run evs : forall s, settled s -> settled (run s evs).
Proof.
  induction evs as [|ev evs IH]; intros s Hs; [done|].
  cbn [SearchSystem.run fold_left]. by apply IH, settled_step.
Qed.

Lemma matches_origin E c r :
  r ∈ matches lang E c ->
  0 < relevanceScore r
  /\ typeSelected (cl_filters c) (kindName (type r)) = true
  /\ match type r with
     | project_ => exists p, (id r, p) ∈ default [] (projects (db E))
     | service_ => exists sv, (id r, sv) ∈ default [] (services (db E))
     | post_ =>
         exists post, (id r, post) ∈ default [] (communityPosts (db E))
                      /\ c_isApproved post = true
     end.
Proof.
  unfold matches. rewrite !elem_of_app. intros [Hr|[Hr|Hr]].
  - destruct (typeSelected (cl_filters c) "project") eqn:Hsel; [|inversion Hr].
    apply list_elem_of_omap in Hr as ([k p] & Hin & Hres).
    revert Hres. unfold projectResult. cbv zeta. cbn [fst snd].
    destruct (Z.ltb_spec 0 (calculateRelevance (cl_query c)
                [pick lang (p_title p); pick lang (p_description p);
                 pick lang (p_category p)])) as [Hpos|]; [|discriminate].
    intros [= <-]. cbn. split_and!; [done..|]. by exists p.
  - destruct (typeSelected (cl_filters c) "service") eqn:Hsel; [|inversion Hr].
    apply list_elem_of_omap in Hr as ([k sv] & Hin & Hres).
    revert Hres. unfold serviceResult. cbv zeta. cbn [fst snd].
    destruct (Z.ltb_spec 0 (calculateRelevance (cl_query c)
                [pick lang (s_title sv); pick lang (s_desc sv)]))
      as [Hpos|]; [|discriminate].
    intros [= <-]. cbn. split_and!; [done..|]. by exists sv.
  - destruct (typeSelected (cl_filters c) "post") eqn:Hsel; [|inversion Hr].
    apply list_elem_of_omap in Hr as ([k post] & Hin & Hres).
    revert Hres. unfold postResult. cbn [snd fst].
    destruct (c_isApproved post) eqn:Happ; [|discriminate].
    cbv zeta.
    destruct (Z.ltb_spec 0 (calculateRelevance (cl_query c)
                [c_title post; c_description post])) as [Hpos|]; [|discriminate].
    intros [= <-]. cbn. split_and!; [done..|]. by exists post.
Qed.

(** X4.  A search whose reads resolve publishes, sorted as the sort
    mode asks, the results of the projects, then of the services, then
    of the approved posts, for the collections that the type filter
    selects; the panel is shown and the searching mark is cleared. *)
Theorem search_publishes_sorted_matches (s : State) (c : Closure) (E : Env) :
  pending s = Some c ->
  isEmpty (trim (cl_query c)) = false ->
  readRejected (cl_filters c) (db E) = false ->
  let s' := step s (TimerFired E) in
  searchResults s'
  = sortResults localeCompare (f_sortBy (cl_filters c)) (matches lang E c)
  /\ showResults s' = true
  /\ isSearching s' = false.
Proof.
  intros Hp Hq Hr. cbn [SearchSystem.step]. rewrite Hp.
  by rewrite (performSearch_resolved_state E c _ Hq Hr).
Qed.

(** X5.  A search whose reads resolve reads the collections that the
    type filter selects, once each and in the order projects, services,
    communityPosts (none for a type that is no collection); then it
    writes the new history to the local storage and starts the counter
    of the day and then the counter of the query, whether or not
    anything matched.  A counter whose path the library rejects is not
    started, nor is the counter after it, and the error goes to the
    console; the history is the new one in every case. *)
Theorem search_reads_then_records (s : State) (c : Closure) (E : Env) :
  pending s = Some c ->
  isEmpty (trim (cl_query c)) = false ->
  readRejected (cl_filters c) (db E) = false ->
  let s' := step s (TimerFired E) in
  let ofTheDay := "analytics/searches/" +:+ today E in
  let ofTheQuery := "analytics/popularSearches/" +:+ cl_query c in
  trace s'
  = trace s
    ++ (Fetch <$> selectedCollections (cl_filters c))
    ++ [LocalStorageSet "searchHistory" (newHistory (cl_query c) (cl_history c))]
    ++ (if validPath E ofTheDay
        then Transaction ofTheDay
             :: (if validPath E ofTheQuery
                 then [Transaction ofTheQuery]
                 else [ConsoleError "Error performing search:"])
        else [ConsoleError "Error performing search:"])
  /\ searchHistory s' = newHistory (cl_query c) (cl_history c).
Proof.
  intros Hp Hq Hr. cbn [SearchSystem.step]. rewrite Hp.
  by rewrite (performSearch_resolved_state E c _ Hq Hr).
Qed.

(** X6.  Every result that a search publishes has a positive score and
    a type that the filter selects, and carries the key of a record of
    the collection of its type; a post among them is an approved
    post. *)
Theorem search_results_positive_selected_approved (s : State) (c : Closure)
    (E : Env) (r : SearchResult) :
  pending s = Some c ->
  isEmpty (trim (cl_query c)) = false ->
  readRejected (cl_filters c) (db E) = false ->
  r ∈ searchResults (step s (TimerFired E)) ->
  0 < relevanceScore r
  /\ typeSelected (cl_filters c) (kindName (type r)) = true
  /\ match type r with
     | project_ => exists p, (id r, p) ∈ default [] (projects (db E))
     | service_ => exists sv, (id r, sv) ∈ default [] (services (db E))
     | post_ =>
         exists post, (id r, post) ∈ default [] (communityPosts (db E))
                      /\ c_isApproved post = true
     end.
Proof.
  intros Hp Hq Hr. cbn [SearchSystem.step]. rewrite Hp.
  rewrite (performSearch_resolved_state E c _ Hq Hr). cbn [searchResults].
  rewrite sortResults_perm. apply matches_origin.
Qed.

(** X7.  The sort loses and repeats no result, whatever the sort mode
    and the collation; and in the mode relevance the published list is
    in the order of decreasing scores. *)
Theorem search_results_ordered (s : State) (c : Closure) (E : Env) :
  pending s = Some c ->
  isEmpty (trim (cl_query c)) = false ->
  readRejected (cl_filters c) (db E) = false ->
  let s' := step s (TimerFired E) in
  searchResults s' ≡ₚ matches lang E c
  /\ (f_sortBy (cl_filters c) = "relevance" ->
      StronglySorted (fun a b => relevanceScore b <= relevanceScore a)
        (searchResults s')).
Proof.
  intros Hp Hq Hr. cbn [SearchSystem.step]. rewrite Hp.
  rewrite (performSearch_resolved_state E c _ Hq Hr). cbn [searchResults].
  split; [apply sortResults_perm|].
  intros ->. unfold sortResults. cbn [String.eqb Ascii.eqb].
  change (String.eqb "relevance" "relevance") with true. cbv iota.
  apply (sort_sorted relevanceScore).
Qed.

(** X8.  From the empty history, whatever the events: the history
    holds no query twice, every query in it has more than two
    characters once trimmed, and it is the value that the last write
    left in the local storage (the empty list when there was none). *)
Theorem history_distinct_long_and_stored (evs : list Event) :
  let s := run initial evs in
  NoDup (searchHistory s)
  /\ Forall long (searchHistory s)
  /\ default [] (storedHistory (trace s)) = searchHistory s.
Proof.
  destruct (settled_run evs initial settled_initial) as (_ & _ & _ & _ & ? & ? & ?).
  done.
Qed.

(** X11.  The block of recent and popular searches, which is rendered
    inside the panel for a query of at most two characters, is never
    on screen: whatever the events, the panel is hidden whenever the
    query is that short. *)
Theorem suggestions_never_visible (evs : list Event) :
  suggestionsVisible (run initial evs) = false.
Proof.
  destruct (settled_run evs initial settled_initial) as (_ & _ & _ & Hs & _).
  unfold suggestionsVisible.
  destruct (Nat.leb_spec (String.length (searchQuery (run initial evs))) 2)
    as [Hle|Hgt]; [|apply andb_false_r].
  by rewrite (Hs Hle).
Qed.

End SearchMore.

Lemma search_publishes_sorted_matches_witness :
  let s' := SearchSystem.step example_localeCompare en example_typed
              (SearchSystem.TimerFired example_empty_store) in
  SearchSystem.searchResults s'
  = SearchSystem.sortResults example_localeCompare
      (SearchSystem.f_sortBy (SearchSystem.cl_filters example_closure))
      (matches en example_empty_store example_closure)
  /\ SearchSystem.showResults s' = true
  /\ SearchSystem.isSearching s' = false.
Proof.
  apply (search_publishes_sorted_matches example_localeCompare en
           example_typed example_closure example_empty_store);
    vm_compute; reflexivity.
Defined.

Lemma search_reads_then_records_witness :
  SearchSystem.fetches
    (SearchSystem.trace
       (SearchSystem.step example_localeCompare en example_typed
          (SearchSystem.TimerFired example_empty_store)))
  = ["projects"; "services"; "communityPosts"].
Proof.
  destruct (search_reads_then_records example_localeCompare en
              example_typed example_closure example_empty_store)
    as [Ht _]; [vm_compute; reflexivity..|].
  cbv zeta in Ht. rewrite Ht. vm_compute. reflexivity.
Defined.

Lemma search_results_positive_selected_approved_witness :
  0 < SearchSystem.relevanceScore
        {| SearchSystem.id := "s1";
           SearchSystem.title := "Process Automation";
           SearchSystem.description := "Workflows that run by themselves";
           SearchSystem.type := SearchSystem.service_;
           SearchSystem.category := None;
           SearchSystem.image := None;
           SearchSystem.relevanceScore := 24 |}.
Proof.
  apply (search_results_positive_selected_approved example_localeCompare en
           example_typed example_closure example_empty_store
           {| SearchSystem.id := "s1";
              SearchSystem.title := "Process Automation";
              SearchSystem.description := "Workflows that run by themselves";
              SearchSystem.type := SearchSystem.service_;
              SearchSystem.category := None;
              SearchSystem.image := None;
              SearchSystem.relevanceScore := 24 |});
    [vm_compute; reflexivity..|].
  vm_compute. constructor.
Defined.

Lemma search_results_ordered_witness :
  StronglySorted
    (fun a b => SearchSystem.relevanceScore b <= SearchSystem.relevanceScore a)
    (SearchSystem.searchResults
       (SearchSystem.step example_localeCompare en example_typed
          (SearchSystem.TimerFired example_empty_store))).
Proof.
  apply (search_results_ordered example_localeCompare en
           example_typed example_closure example_empty_store);
    vm_compute; reflexivity.
Defined.

(** ** The search component under interleaving *)

Section SearchAsyncFacts.

Import SearchSystem SearchAsync.

Variable localeCompare : string -> string -> Z.
Variable lang : Lang.

Local Abbreviation conclude := (SearchAsync.conclude localeCompare).
Local Abbreviation advance := (SearchAsync.advance localeCompare).
Local Abbreviation start := (SearchAsync.start localeCompare).
Local Abbreviation settle := (SearchAsync.settle localeCompare lang).
Local Abbreviation astep := (SearchAsync.step localeCompare lang).
Local Abbreviation arun := (SearchAsync.run localeCompare lang).

(** The state that the end of a search leaves. *)
Lemma conclude_state E c results s :
  let s' := exec (conclude E c results) s in
  searchQuery s' = searchQuery s
  /\ filters s' = filters s
  /\ pending s' = pending s
  /\ showResults s' = showResults s
  /\ isSearching s' = false
  /\ searchResults s'
     = sortResults localeCompare (f_sortBy (cl_filters c)) results
  /\ searchHistory s' = newHistory (cl_query c) (cl_history c)
  /\ trace s'
     = trace s
       ++ [LocalStorageSet "searchHistory" (newHistory (cl_query c) (cl_history c))]
       ++ counterEffects E (cl_query c).
Proof.
  unfold exec, SearchAsync.conclude, try_catch_finally, saveSearchToHistory,
    transaction, counterEffects, newHistory.
  unfold mbind, mret, M_bind, M_ret, modify, throw.
  destruct (validPath E ("analytics/searches/" +:+ today E));
    [destruct (validPath E ("analytics/popularSearches/" +:+ cl_query c))|];
    cbn; split_and!; try reflexivity;
    rewrite <- ?(assoc_L (++)); reflexivity.
Qed.

(** The state that an abandoned search leaves. *)
Lemma abandon_state s :
  let s' := exec abandon s in
  searchQuery s' = searchQuery s
  /\ filters s' = filters s
  /\ pending s' = pending s
  /\ showResults s' = showResults s
  /\ isSearching s' = false
  /\ searchResults s' = searchResults s
  /\ searchHistory s' = searchHistory s
  /\ trace s' = trace s ++ [ConsoleError "Error performing search:"].
Proof. cbn. by split_and!. Qed.

(** A search that goes on either starts a read and waits, or ends. *)
Lemma advance_cases E c results ahead s :
  (exists k, advance E c results ahead s
             = (emit (Fetch (refOf k)) s,
                Some {| fl_closure := c; fl_stage := k; fl_results := results |}))
  \/ advance E c results ahead s = (exec (conclude E c results) s, None).
Proof.
  induction ahead as [|k ahead IH]; cbn [SearchAsync.advance]; [by right|].
  destruct (typeSelected (cl_filters c) (kindOf k)); [|exact IH].
  left. by exists k.
Qed.

Lemma storedHistory_quiet t e :
  (forall key value, e <> LocalStorageSet key value) ->
  storedHistory (t ++ [e]) = storedHistory t.
Proof.
  intros He. unfold storedHistory. rewrite omap_app.
  destruct e; cbn; rewrite ?app_nil_r; try done. by destruct (He key value).
Qed.

Lemma storedHistory_concluded t value E query :
  storedHistory (t ++ [LocalStorageSet "searchHistory" value]
                   ++ counterEffects E query)
  = Some value.
Proof.
  apply (storedHistory_saved t [] "searchHistory" value E query).
Qed.

Lemma steady_initial : steady initialPage.
Proof.
  unfold steady. cbn. split_and!; try done.
  - apply NoDup_nil_2.
Qed.

(** The effect on the query and the filters keeps a page steady. *)
Lemma steady_effect s fls :
  (fls = [] -> isSearching s = false) ->
  NoDup (searchHistory s) ->
  Forall long (searchHistory s) ->
  default [] (storedHistory (trace s)) = searchHistory s ->
  Forall (fun fl => wellKept (fl_closure fl)) fls ->
  steady {| component := debounceEffect s; flights := fls |}.
Proof.
  intros Hi Hn Hl Hst Hfl. unfold debounceEffect. cbv zeta.
  change (searchQuery (with_pending None s)) with (searchQuery s).
  pose proof (trim_length (searchQuery s)) as Htrim.
  destruct (Nat.ltb_spec 2 (String.length (trim (searchQuery s)))) as [Hlong|Hshort];
    unfold steady; cbn; split_and!; try done.
  - intros c [= <-]. cbn. by split_and!.
  - intros. lia.
Qed.

(** The end of a search keeps a page steady. *)
Lemma steady_concluded E c results s fls :
  steady {| component := s; flights := fls |} ->
  wellKept c ->
  forall fls',
    Forall (fun fl => wellKept (fl_closure fl)) fls' ->
    steady {| component := exec (conclude E c results) s; flights := fls' |}.
Proof.
  intros (Hp & _ & Hs & _ & _ & _ & _) (Hq & Hn & Hl) fls' Hfls'.
  destruct (conclude_state E c results s)
    as (C1 & C2 & C3 & C4 & C5 & C6 & C7 & C8).
  cbn in Hp, Hs. unfold steady. cbn [component flights].
  rewrite C1, C2, C3, C4, C5, C7, C8. split_and!; try done.
  - by apply newHistory_NoDup.
  - by apply newHistory_long.
  - by rewrite storedHistory_concluded.
Qed.

Lemma steady_step p ev : steady p -> steady (astep p ev).
Proof.
  intros Hsteady. pose proof Hsteady as (Hp & Hi & Hs & Hn & Hl & Hst & Hfl).
  destruct p as [s fls]. cbn [component flights] in *.
  destruct ev as [text|f| | |E|i E]; cbn [SearchAsync.step onComponent component flights].
  - by apply steady_effect.
  - by apply steady_effect.
  - pose proof (trim_length (searchQuery s)).
    unfold steady; cbn; split_and!; try done.
    intros Hlen. change ((2 <? String.length (searchQuery s))%nat = false).
    apply Nat.ltb_ge. exact Hlen.
  - by apply steady_effect.
  - unfold SearchAsync.start. cbn [component flights].
    destruct (pending s) as [c|] eqn:Hpend; [|exact Hsteady].
    destruct (Hp c eq_refl) as (Hcq & Hcf & Hkept).
    pose proof Hkept as (Hlong & _ & _).
    rewrite (long_not_blank _ Hlong).
    pose proof (trim_length (searchQuery s)) as Htrim.
    rewrite Hcq in Hlong. unfold long in Hlong.
    set (s1 := with_showResults true (with_isSearching true (with_pending None s))).
    assert (Hs1 : steady {| component := s1; flights := fls ++ [{| fl_closure := c; fl_stage := AwaitProjects; fl_results := [] |}] |}).
    { unfold steady; cbn; split_and!; try done.
      - by intros [_ ?]%app_eq_nil.
      - intros. lia.
      - apply Forall_app. split; [done|]. by constructor. }
    destruct (advance_cases E c [] [AwaitProjects; AwaitServices; AwaitPosts] s1)
      as [[k ->] | ->].
    + destruct Hs1 as (H1 & H2 & H3 & H4 & H5 & H6 & H7).
      unfold steady; cbn [component flights] in *; split_and!; try done.
      * by intros [? ?]%app_eq_nil.
      * change (trace (emit (Fetch (refOf k)) s1)) with (trace s1 ++ [Fetch (refOf k)]).
        by rewrite storedHistory_quiet.
      * apply Forall_app. split; [done|]. by constructor.
    + eapply steady_concluded; [exact Hs1|done|done].
  - unfold SearchAsync.settle. cbn [component flights].
    destruct (fls !! i) as [fl|] eqn:Hfl_i; [|exact Hsteady].
    assert (Hkept : wellKept (fl_closure fl)).
    { rewrite Forall_forall in Hfl. apply Hfl. by eapply list_elem_of_lookup_2. }
    destruct (resumed lang E fl) as [results|].
    + destruct (advance_cases E (fl_closure fl) results (after (fl_stage fl)) s)
        as [[k ->] | ->].
      * unfold steady; cbn [component flights]; split_and!; try done.
        -- intros Hnil. apply (f_equal length) in Hnil.
           rewrite length_insert in Hnil. apply lookup_lt_Some in Hfl_i.
           cbn in Hnil. lia.
        -- change (trace (emit (Fetch (refOf k)) s)) with (trace s ++ [Fetch (refOf k)]).
           by rewrite storedHistory_quiet.
        -- by apply Forall_insert.
      * eapply steady_concluded; [exact Hsteady|done|]. by apply Forall_delete.
    + unfold steady; cbn [component flights]; split_and!; try done.
      * change (trace (exec abandon s))
          with (trace s ++ [ConsoleError "Error performing search:"]).
        by rewrite storedHistory_quiet.
      * by apply Forall_delete.
Qed.

Lemma steady_run evs : forall p, steady p -> steady (arun p evs).
Proof.
  induction evs as [|ev evs IH]; intros p Hp; [done|].
  cbn [SearchAsync.run fold_left]. by apply IH, steady_step.
Qed.

(** A search that no event interrupts: the end of the timer, then its
    reads settling in turn.  It leaves the state of the one step
    TimerFired of [SearchSystem.step], and no search in flight. *)
Lemma uninterrupted_search E s :
  arun {| component := s; flights := [] |}
    [TimerEnded E; ReadSettled 0 E; ReadSettled 0 E; ReadSettled 0 E]
  = {| component := SearchSystem.step localeCompare lang s (TimerFired E);
       flights := [] |}.
Proof.
  cbn [SearchAsync.run fold_left SearchAsync.step SearchSystem.step].
  unfold SearchAsync.start at 1. cbn [component flights].
  destruct (pending s) as [c|]; [|reflexivity].
  unfold SearchSystem.performSearch.
  destruct (isEmpty (trim (cl_query c))); [reflexivity|].
  unfold searchBody, once.
  destruct E as [[ps ss cs] d ok].
  destruct (typeSelected (cl_filters c) "project") eqn:H1;
    destruct (typeSelected (cl_filters c) "service") eqn:H2;
    destruct (typeSelected (cl_filters c) "post") eqn:H3;
    destruct ps as [ps|]; destruct ss as [ss|]; destruct cs as [cs|].
  all: repeat
         (cbn [SearchAsync.settle SearchAsync.advance kindOf refOf after resumed
               component flights fl_closure fl_stage fl_results
               lookup list_lookup delete list_delete insert list_insert app
               fmap option_fmap option_map
               db projects services communityPosts];
          rewrite ?H1, ?H2, ?H3).
  all: reflexivity.
Qed.

(** X9.  Whatever the events and however the searches in flight
    interleave with them: a pending timer is for the query and the
    filters of the current state, and that query has more than two
    characters once trimmed.  The history that the timer keeps is the
    one of the render that set it, which can be older than the
    current one. *)
Theorem pending_search_has_current_query (evs : list Event) (c : Closure) :
  let s := component (arun initialPage evs) in
  pending s = Some c ->
  cl_query c = searchQuery s
  /\ cl_filters c = filters s
  /\ long (searchQuery s)
  /\ NoDup (cl_history c)
  /\ Forall long (cl_history c).
Proof.
  destruct (steady_run evs initialPage steady_initial) as (Hp & _).
  cbv zeta. intros Hc. destruct (Hp c Hc) as (Hq & Hf & Hlong & Hn & Hl).
  split_and!; try done. by rewrite <- Hq.
Qed.

(** X10.  Whatever the events and however the searches in flight
    interleave with them: a query of at most two characters once
    trimmed has no timer; the searching mark is off whenever no search
    is in flight; and every search in flight is for a query of more
    than two characters once trimmed. *)
Theorem idle_component_is_not_searching (evs : list Event) :
  let p := arun initialPage evs in
  (~ long (searchQuery (component p)) -> pending (component p) = None)
  /\ (flights p = [] -> isSearching (component p) = false)
  /\ Forall (fun fl => long (cl_query (fl_closure fl))) (flights p).
Proof.
  destruct (steady_run evs initialPage steady_initial)
    as (Hp & Hi & _ & _ & _ & _ & Hfl).
  cbv zeta. split_and!.
  - intros Hshort. destruct (pending _) as [c|] eqn:Hc; [|done].
    destruct (Hp c eq_refl) as (Hq & _ & Hlong & _). by rewrite Hq in Hlong.
  - exact Hi.
  - eapply Forall_impl; [exact Hfl|]. by intros fl (? & _).
Qed.

(** X25.  Whatever the events and however the searches in flight
    interleave with them: the history holds no query twice, every
    query in it has more than two characters once trimmed, and it is
    the value that the last write left in the local storage; and the
    block of recent and popular searches is never on screen. *)
Theorem interleaved_history_and_panel (evs : list Event) :
  let s := component (arun initialPage evs) in
  NoDup (searchHistory s)
  /\ Forall long (searchHistory s)
  /\ default [] (storedHistory (trace s)) = searchHistory s
  /\ suggestionsVisible s = false.
Proof.
  destruct (steady_run evs initialPage steady_initial)
    as (_ & _ & Hs & Hn & Hl & Hst & _).
  cbv zeta. split_and!; try done.
  unfold suggestionsVisible.
  destruct (Nat.leb_spec (String.length (searchQuery (component (arun initialPage evs)))) 2)
    as [Hle|Hgt].
  - by rewrite Hs.
  - apply andb_false_r.
Qed.

End SearchAsyncFacts.

Lemma pending_search_has_current_query_witness :
  let s := SearchAsync.component
             (SearchAsync.run example_localeCompare en SearchAsync.initialPage
                [SearchAsync.Typed "automation"]) in
  SearchSystem.cl_query example_closure = SearchSystem.searchQuery s
  /\ SearchSystem.cl_filters example_closure = SearchSystem.filters s
  /\ long (SearchSystem.searchQuery s)
  /\ NoDup (SearchSystem.cl_history example_closure)
  /\ Forall long (SearchSystem.cl_history example_closure).
Proof.
  apply (pending_search_has_current_query example_localeCompare en
           [SearchAsync.Typed "automation"] example_closure).
  vm_compute. reflexivity.
Defined.

(** A second query typed while the search of the first is in flight:
    its timer keeps the history of before, so that the first query is
    lost from the history when the second search ends; searched one
    after the other, both are kept. *)
Example overlapping_searches_lose_history :
  let E := example_empty_store in
  let settled3 := [SearchAsync.ReadSettled 0 E; SearchAsync.ReadSettled 0 E;
                   SearchAsync.ReadSettled 0 E] in
  let overlapped :=
    SearchAsync.run example_localeCompare en SearchAsync.initialPage
      ([SearchAsync.Typed "automation"; SearchAsync.TimerEnded E;
        SearchAsync.Typed "bot"] ++ settled3) in
  SearchSystem.searchHistory (SearchAsync.component overlapped) = ["automation"]
  /\ SearchSystem.cl_history
       <$> SearchSystem.pending (SearchAsync.component overlapped)
     = Some []
  /\ SearchSystem.searchHistory
       (SearchAsync.component
          (SearchAsync.run example_localeCompare en overlapped
             (SearchAsync.TimerEnded E :: settled3)))
     = ["bot"]
  /\ SearchSystem.searchHistory
       (SearchSystem.run example_localeCompare en SearchSystem.initial
          [SearchSystem.SetSearchQuery "automation"; SearchSystem.TimerFired E;
           SearchSystem.SetSearchQuery "bot"; SearchSystem.TimerFired E])
     = ["bot"; "automation"].
Proof. vm_compute. by split_and!. Qed.

(** A query cleared while its search is in flight: the results of the
    search are set when its reads have settled, under the empty
    query. *)
Example cleared_query_gets_results :
  let E := example_empty_store in
  let p := SearchAsync.run example_localeCompare en SearchAsync.initialPage
             [SearchAsync.Typed "automation"; SearchAsync.TimerEnded E;
              SearchAsync.Typed EmptyString;
              SearchAsync.ReadSettled 0 E; SearchAsync.ReadSettled 0 E;
              SearchAsync.ReadSettled 0 E] in
  SearchSystem.searchQuery (SearchAsync.component p) = EmptyString
  /\ SearchSystem.title <$> SearchSystem.searchResults (SearchAsync.component p)
     = ["Process Automation"]
  /\ SearchSystem.showResults (SearchAsync.component p) = false.
Proof. vm_compute. by split_and!. Qed.

(** A query that holds a dot: the reference of its counter throws, so
    that the search ends in the [catch] after the history is written;
    the results are on screen all the same. *)
Example dotted_query_skips_its_counter :
  let s0 := SearchSystem.step example_localeCompare en SearchSystem.initial
              (SearchSystem.SetSearchQuery "automation.js") in
  let s := SearchSystem.step example_localeCompare en s0
             (SearchSystem.TimerFired example_empty_store) in
  SearchSystem.trace s
  = [SearchSystem.Fetch "projects"; SearchSystem.Fetch "services";
     SearchSystem.Fetch "communityPosts";
     SearchSystem.LocalStorageSet "searchHistory" ["automation.js"];
     SearchSystem.Transaction "analytics/searches/2025-01-01";
     SearchSystem.ConsoleError "Error performing search:"]
  /\ SearchSystem.searchHistory s = ["automation.js"]
  /\ SearchSystem.isSearching s = false.
Proof. vm_compute. by split_and!. Qed.

(** The popular searches *)

Lemma StronglySorted_take {A} (R : A -> A -> Prop) n l :
  StronglySorted R l -> StronglySorted R (take n l).
Proof.
  intros Hl. revert n. induction Hl as [|x l Hl IH Hx]; intros [|n]; cbn;
    try constructor; [apply IH|by apply Forall_take].
Qed.

(** X12.  loadPopularSearches keeps the terms of the five largest
    counters, the larger counter first: it returns at most five terms,
    every counter that it leaves out is at most every counter that it
    keeps, and no counter is invented.  A null value gives the empty
    list, and a rejected read leaves the list as it was. *)
Theorem popular_searches_are_the_top_five
    (read : option (option (list (string * Z)))) (current : list string) :
  let out := (loadPopularSearches read current).1 in
  match read with
  | None => out = current
  | Some val =>
      let popular := default [] val in
      length out = (5 `min` length popular)%nat
      /\ exists kept dropped,
           popular ≡ₚ kept ++ dropped
           /\ out = kept.*1
           /\ StronglySorted (fun a b => b.2 <= a.2) kept
           /\ (forall a b, a ∈ kept -> b ∈ dropped -> b.2 <= a.2)
  end.
Proof.
  destruct read as [val|]; [|reflexivity]. cbn [loadPopularSearches fst].
  cbv zeta. unfold topSearches.
  set (popular := default [] val).
  set (sorted := SearchSystem.sort (fun a b => b.2 - a.2) popular).
  assert (Hperm : sorted ≡ₚ popular) by apply sort_perm.
  assert (Hsorted : StronglySorted (fun a b : string * Z => b.2 <= a.2) sorted)
    by apply (sort_sorted (fun a : string * Z => a.2)).
  split.
  - rewrite length_fmap, length_take. by rewrite Hperm.
  - exists (take 5 sorted), (drop 5 sorted). split_and!.
    + by rewrite take_drop.
    + reflexivity.
    + by apply StronglySorted_take.
    + apply StronglySorted_app_le. by rewrite take_drop.
Qed.

(** ** The Gemini service wrappers *)

Section ServiceMore.

Import Gemini.

Variable JSON_parse : string -> option Json.Value.
Variable translations : Lang -> string -> string.

(** X13.  A call of a wrapper sends at most one request to the model,
    and none when no client is configured; the lead qualification
    sends none for an empty transcript either. *)
Theorem wrappers_send_at_most_one_request (ai : option AiClient)
    (prompt idea serviceTitle problem : string) (chatHistory : list Turn)
    (lang : Lang) :
  let sent := fun {A} (r : A * list Effect) => length (generated r.2) in
  (sent (getChatbotResponse translations ai prompt chatHistory lang) <= 1
   /\ sent (getBrainstormResponse translations ai idea serviceTitle lang) <= 1
   /\ sent (getAiConsultation JSON_parse ai problem) <= 1
   /\ sent (analyzeChatForLeadQualification JSON_parse ai chatHistory) <= 1)%nat
  /\ (ai = None ->
      sent (getChatbotResponse translations ai prompt chatHistory lang) = 0%nat
      /\ sent (getBrainstormResponse translations ai idea serviceTitle lang) = 0%nat
      /\ sent (getAiConsultation JSON_parse ai problem) = 0%nat
      /\ sent (analyzeChatForLeadQualification JSON_parse ai chatHistory) = 0%nat)
  /\ sent (analyzeChatForLeadQualification JSON_parse ai []) = 0%nat.
Proof.
  cbv zeta. split; [|split].
  - unfold getChatbotResponse, getBrainstormResponse, getAiConsultation,
      analyzeChatForLeadQualification.
    destruct ai as [client|]; [|cbn; lia].
    split_and!.
    + destruct (client _); cbn; lia.
    + destruct (client _); cbn; lia.
    + destruct (client _) as [|text]; [cbn; lia|].
      cbv zeta. destruct (JSON_parse _); cbn; lia.
    + destruct (length chatHistory =? 0)%nat; [cbn; lia|].
      destruct (client _) as [|text]; [cbn; lia|].
      cbv zeta. destruct (JSON_parse _); cbn; lia.
  - by intros ->.
  - by destruct ai.
Qed.

End ServiceMore.

(** ** The chat widget *)

Section ChatMore.

Import Gemini Chatbot.

Variable JSON_parse : string -> option Json.Value.
Variable JSON_stringify : Json.Value -> string.
Variable translations : Lang -> string -> string.
Variable lang : Lang.

Local Abbreviation handleCloseChat := (Chatbot.handleCloseChat JSON_parse).
Local Abbreviation handleConsultationSubmit :=
  (Chatbot.handleConsultationSubmit JSON_parse JSON_stringify).
Local Abbreviation handleShowServiceDetail :=
  (Chatbot.handleShowServiceDetail translations lang).
Local Abbreviation handleBrainstormSubmit :=
  (Chatbot.handleBrainstormSubmit translations lang).
Local Abbreviation handleAction := (Chatbot.handleAction JSON_parse).

(** Runs the statements of a handler on a symbolic state. *)
Ltac run_statements :=
  unfold call, setView, pushTurn, postWebhook, resetChat, try_catch;
  unfold mbind, mret, M_bind, M_ret, modify, throw, get; cbn.

(** Splits on whether the state is in the view [v] already. *)
Ltac case_view s v :=
  let Hv := fresh "Hv" in
  destruct (decide (view s = v)) as [Hv|Hv];
  [rewrite (bool_decide_eq_true_2 _ Hv); cbn; rewrite ?Hv
  |rewrite (bool_decide_eq_false_2 _ Hv); cbn].

Lemma text_request_sent {A} (r : A * list Gemini.Effect) t :
  requestsSent (t ++ (Service <$> r.2)) = requestsSent t ++ generated r.2.
Proof.
  unfold requestsSent. rewrite omap_app. f_equal.
  apply (requestsSent_service r.2).
Qed.

(** X14.  Showing a service adds two turns to the transcript, the
    question of the user about the service and the answer that is put
    on screen; it ends in the view serviceDetail, not loading.  The
    model is asked with the prompt alone: the earlier turns of the
    transcript are not sent. *)
Theorem service_detail_adds_question_and_answer (E : Env) (serviceTitle : string)
    (s : State) :
  let s' := exec (handleShowServiceDetail E serviceTitle) s in
  let answer := getChatbotResponse translations (ai E)
                  (servicePrompt serviceTitle) [] lang in
  chatHistory s'
  = chatHistory s
    ++ [{| role := user; text := serviceQuestion serviceTitle |};
        {| role := model; text := answer.1 |}]
  /\ serviceDetail s'
     = Some {| sd_title := serviceTitle; sd_content := answer.1 |}
  /\ view s' = View_serviceDetail
  /\ isLoading s' = false
  /\ requestsSent (trace s')
     = requestsSent (trace s)
       ++ match ai E with
          | Some _ =>
              [{| contents := [{| role := user; text := servicePrompt serviceTitle |}];
                  systemInstruction := systemInstruction_ lang;
                  responseSchema := None |}]
          | None => []
          end.
Proof.
  unfold exec, Chatbot.handleShowServiceDetail. run_statements.
  fold (servicePrompt serviceTitle). fold (serviceQuestion serviceTitle).
  case_view s View_serviceDetail.
  all: rewrite text_request_sent, <- !(assoc_L (++)); split_and!; try done.
  all: f_equal; unfold getChatbotResponse; destruct (ai E) as [client|]; [|done];
    by destruct (client _).
Qed.

(** X15.  Submitting an idea adds two turns to the transcript, the
    idea of the user and the answer, which is also the result on
    screen; it ends in the view brainstormResult, not loading. *)
Theorem brainstorm_adds_idea_and_answer (E : Env) (s : State) :
  let s' := exec (handleBrainstormSubmit E) s in
  let answer := getBrainstormResponse translations (ai E)
                  (brainstormIdea s) (titleOrEmpty s) lang in
  chatHistory s'
  = chatHistory s
    ++ [{| role := user;
           text := "User idea for " +:+ titleText s +:+ ": " +:+ brainstormIdea s |};
        {| role := model; text := answer.1 |}]
  /\ brainstormResult s' = answer.1
  /\ view s' = View_brainstormResult
  /\ isLoading s' = false
  /\ brainstormIdea s' = brainstormIdea s.
Proof.
  unfold exec, Chatbot.handleBrainstormSubmit. run_statements.
  fold (titleText s). fold (titleOrEmpty s).
  case_view s View_brainstormResult.
  all: rewrite <- !(assoc_L (++)); split_and!; done.
Qed.

(** The state after a consultation whose answer is a value that counts
    as true. *)
Lemma consultation_answered E s client answer v :
  ai E = Some client ->
  client (consultationRequest (consultationProblem s)) = Resolved answer ->
  JSON_parse (trim answer) = Some v ->
  Json.truthy v = true ->
  let s' := exec (handleConsultationSubmit E) s in
  view s' = View_consultationResult
  /\ consultationResult s' = Some v
  /\ isLoading s' = false
  /\ chatHistory s'
     = chatHistory s
       ++ [{| role := user;
              text := "Business Problem: " +:+ consultationProblem s |};
           {| role := model;
              text := "Generated Proposal: " +:+ JSON_stringify v |}].
Proof.
  intros Hai Hc Hp Hv. unfold exec, Chatbot.handleConsultationSubmit.
  run_statements. rewrite Hai. unfold getAiConsultation.
  fold (consultationRequest (consultationProblem s)). rewrite Hc.
  cbv zeta. rewrite Hp. cbn. rewrite Hv.
  case_view s View_consultationResult.
  all: rewrite <- !(assoc_L (++)); split_and!; done.
Qed.

(** X16.  When the model answers a consultation with a JSON value
    that counts as true, the chat ends in the view consultationResult
    with that value as the proposal, not loading, and the transcript
    has two turns more: the problem and the proposal. *)
Theorem answered_consultation_shows_proposal (E : Env) (s : State)
    (client : AiClient) (answer : string) (v : Json.Value) :
  ai E = Some client ->
  client (consultationRequest (consultationProblem s)) = Resolved answer ->
  JSON_parse (trim answer) = Some v ->
  Json.truthy v = true ->
  let s' := exec (handleConsultationSubmit E) s in
  view s' = View_consultationResult
  /\ consultationResult s' = Some v
  /\ isLoading s' = false
  /\ chatHistory s'
     = chatHistory s
       ++ [{| role := user;
              text := "Business Problem: " +:+ consultationProblem s |};
           {| role := model;
              text := "Generated Proposal: " +:+ JSON_stringify v |}].
Proof. apply consultation_answered. Qed.

(** X17.  The answer of the model is not checked against the shape of
    a proposal: a value that counts as true and has no array
    suggestedServices is taken as the proposal, and the render of the
    result view throws. *)
Theorem misshapen_proposal_breaks_render (E : Env) (s : State)
    (client : AiClient) (answer : string) (v : Json.Value) :
  ai E = Some client ->
  client (consultationRequest (consultationProblem s)) = Resolved answer ->
  JSON_parse (trim answer) = Some v ->
  Json.truthy v = true ->
  hasServiceList v = false ->
  let s' := exec (handleConsultationSubmit E) s in
  consultationResult s' = Some v
  /\ renderContent s' = RenderThrows.
Proof.
  intros Hai Hc Hp Hv Hlist.
  destruct (consultation_answered E s client answer v Hai Hc Hp Hv)
    as (Hview & Hres & Hload & _).
  cbv zeta. split; [exact Hres|].
  unfold renderContent. rewrite Hview, Hload, Hres.
  unfold hasServiceList in Hlist.
  destruct (Json.prop v "suggestedServices") as [[]|]; done.
Qed.

Lemma or_NA_truthy v : Json.truthy (or_NA v) = true.
Proof. destruct v as [x|]; [|done]. cbn. by destruct (Json.truthy x) eqn:Hx. Qed.

(** X18.  Closing the chat posts to the webhook at most once, and
    exactly when the transcript is not empty and the isHotLead of the
    analysis counts as true; the score plays no part.  The body then
    carries the score and the summary of the analysis, and a name, an
    email and a phone that are never empty. *)
Theorem close_chat_posts_hot_leads_only (E : Env) (s : State) :
  let s' := exec (handleCloseChat E) s in
  let analysis :=
    (analyzeChatForLeadQualification JSON_parse (ai E) (chatHistory s)).1 in
  webhookPosts (trace s')
  = webhookPosts (trace s)
    ++ (if negb (bool_decide (chatHistory s = []))
           && Json.truthy_opt (Json.prop analysis "isHotLead")
        then [hotLeadBody analysis (now E)]
        else [])
  /\ Json.truthy (leadName (hotLeadBody analysis (now E))) = true
  /\ Json.truthy (leadEmail (hotLeadBody analysis (now E))) = true
  /\ Json.truthy (leadPhone (hotLeadBody analysis (now E))) = true.
Proof.
  cbv zeta. split; [|split_and!; apply or_NA_truthy].
  unfold exec, Chatbot.handleCloseChat. run_statements.
  destruct (chatHistory s) as [|t h] eqn:Hh.
  - cbn. case_view s View_main; by rewrite app_nil_r.
  - rewrite bool_decide_eq_false_2 by done. cbn.
    destruct (analyzeChatForLeadQualification JSON_parse (ai E) (t :: h))
      as [analysis effs]. cbn.
    fold (hotLeadBody analysis (now E)).
    assert (Hs : webhookPosts (Service <$> effs) = []).
    { induction effs as [|e effs IH]; [done|exact IH]. }
    destruct (Json.truthy_opt (Json.prop analysis "isHotLead"));
      [destruct (fetch_resolves E)|]; cbn;
      case_view s View_main;
      unfold webhookPosts; rewrite !omap_app;
      fold (webhookPosts (Service <$> effs)); rewrite Hs; cbn;
      by rewrite ?app_nil_r.
Qed.

(** X19.  Until the chat is closed the transcript only grows: showing
    a service, submitting an idea and submitting a consultation keep
    every earlier turn in place, and the moves to the main menu, to
    the services and to the consultation form change neither the
    transcript nor the trace. *)
Theorem transcript_only_grows (E : Env) (s : State) (serviceTitle : string) :
  chatHistory s `prefix_of` chatHistory (exec (handleShowServiceDetail E serviceTitle) s)
  /\ chatHistory s `prefix_of` chatHistory (exec (handleBrainstormSubmit E) s)
  /\ chatHistory s `prefix_of` chatHistory (exec (handleConsultationSubmit E) s)
  /\ (forall action,
        action = action_main \/ action = action_services
        \/ action = action_consultation ->
        chatHistory (exec (handleAction E action) s) = chatHistory s
        /\ trace (exec (handleAction E action) s) = trace s).
Proof.
  split_and!.
  - unfold exec, Chatbot.handleShowServiceDetail. run_statements.
    case_view s View_serviceDetail;
      rewrite <- ?(assoc_L (++)); by apply prefix_app_r.
  - unfold exec, Chatbot.handleBrainstormSubmit. run_statements.
    case_view s View_brainstormResult;
      rewrite <- ?(assoc_L (++)); by apply prefix_app_r.
  - unfold exec, Chatbot.handleConsultationSubmit. run_statements.
    destruct (getAiConsultation JSON_parse (ai E) (consultationProblem s))
      as [r effs]. cbn.
    destruct (Json.truthy r); cbn; case_view s View_consultationResult;
      rewrite <- ?(assoc_L (++)); by apply prefix_app_r.
  - intros action [->|[->| ->]]; unfold exec; cbn; run_statements.
    + by case_view s View_main.
    + by case_view s View_services.
    + by case_view s View_consultationInput.
Qed.

Lemma close_clears_mark E s :
  isConvoSaved (exec (handleCloseChat E) s) = false.
Proof.
  unfold exec, Chatbot.handleCloseChat. run_statements.
  destruct (chatHistory s) as [|t h]; cbn;
    [|destruct (analyzeChatForLeadQualification JSON_parse (ai E) (t :: h))
        as [analysis effs]; cbn;
      destruct (Json.truthy_opt (Json.prop analysis "isHotLead"));
      [destruct (fetch_resolves E)|]; cbn];
    done.
Qed.

(** X20.  The saved mark never follows the chat into another view:
    after a handler that leaves the chat in a view other than the one
    it started in, the mark is off. *)
Theorem saved_mark_cleared_on_view_change (E : Env) (s : State)
    (serviceTitle : string) (action : Action) :
  let cleared (s' : State) := view s' <> view s -> isConvoSaved s' = false in
  cleared (exec (handleAction E action) s)
  /\ cleared (exec (handleShowServiceDetail E serviceTitle) s)
  /\ cleared (exec (handleBrainstormSubmit E) s)
  /\ cleared (exec (handleConsultationSubmit E) s).
Proof.
  cbv zeta. split_and!.
  - destruct action; unfold exec; cbn.
    + run_statements. by case_view s View_main.
    + run_statements. by case_view s View_services.
    + intros _. apply (close_clears_mark E (emit (ScrollIntoView "projects") s)).
    + intros _. apply (close_clears_mark E (emit (ScrollIntoView "contact") s)).
    + run_statements. by case_view s View_consultationInput.
  - unfold exec, Chatbot.handleShowServiceDetail. run_statements.
    by case_view s View_serviceDetail.
  - unfold exec, Chatbot.handleBrainstormSubmit. run_statements.
    by case_view s View_brainstormResult.
  - unfold exec, Chatbot.handleConsultationSubmit. run_statements.
    destruct (getAiConsultation JSON_parse (ai E) (consultationProblem s))
      as [r effs]. cbn.
    destruct (Json.truthy r); cbn; case_view s View_consultationResult; done.
Qed.

End ChatMore.

Lemma answered_consultation_shows_proposal_witness :
  let s' := exec (Chatbot.handleConsultationSubmit Json.parse example_stringify
                    (example_env (Some example_proposing)))
              example_consulting in
  Chatbot.view s' = Chatbot.View_consultationResult
  /\ Chatbot.consultationResult s' = Some example_proposal
  /\ Chatbot.isLoading s' = false
  /\ Chatbot.chatHistory s'
     = Chatbot.chatHistory example_consulting
       ++ [{| Gemini.role := Gemini.user;
              Gemini.text := "Business Problem: "
                             +:+ Chatbot.consultationProblem example_consulting |};
           {| Gemini.role := Gemini.model;
              Gemini.text := "Generated Proposal: "
                             +:+ example_stringify example_proposal |}].
Proof.
  apply (answered_consultation_shows_proposal Json.parse example_stringify
           (example_env (Some example_proposing)) example_consulting
           example_proposing example_proposal_text example_proposal);
    vm_compute; reflexivity.
Defined.

Lemma misshapen_proposal_breaks_render_witness :
  let s' := exec (Chatbot.handleConsultationSubmit Json.parse example_stringify
                    (example_env (Some example_hollow)))
              example_consulting in
  Chatbot.consultationResult s' = Some (Json.Obj [])
  /\ Chatbot.renderContent s' = Chatbot.RenderThrows.
Proof.
  apply (misshapen_proposal_breaks_render Json.parse example_stringify
           (example_env (Some example_hollow)) example_consulting
           example_hollow "{}" (Json.Obj []));
    vm_compute; reflexivity.
Defined.

(** ** The forms of the chat widget and the hand-over to the contact form *)

Section FormsMore.

Import Gemini Chatbot.

Variable JSON_parse : string -> option Json.Value.

Local Abbreviation handleDiscussIdea := (ChatForms.handleDiscussIdea JSON_parse).
Local Abbreviation handleCloseChat := (Chatbot.handleCloseChat JSON_parse).

(** Runs the statements of a form handler on a symbolic page. *)
Ltac run_page :=
  unfold saveConversation, liftC, did, setView, try_catch, try_catch_finally;
  unfold mbind, mret, M_bind, M_ret, modify, throw, get; cbn.

Lemma filter_absent (value : string) (l : list string) :
  value ∉ l -> filter (fun m => m <> value) l = l.
Proof.
  induction l as [|x l IH]; [done|]. intros [Hx Hl]%not_elem_of_cons.
  rewrite filter_cons, decide_True by done. by rewrite IH.
Qed.

(** X21.  Unchecking a contact method removes every occurrence of it
    from the form and keeps the other methods in their order; on a
    form that does not have the method, checking it and then
    unchecking it gives the form back. *)
Theorem checkbox_uncheck_undoes_check (value : string) (s : State) :
  value ∉ rf_contactMethod (requestFormData s) ->
  requestFormData
    (handleBotCheckboxChange value false (handleBotCheckboxChange value true s))
  = requestFormData s
  /\ (forall s0 : State,
        let methods := rf_contactMethod (requestFormData s0) in
        let methods' :=
          rf_contactMethod
            (requestFormData (handleBotCheckboxChange value false s0)) in
        (value ∉ methods')
        /\ (methods' `sublist_of` methods)
        /\ forall m, m <> value -> m ∈ methods -> m ∈ methods').
Proof.
  intros Hv. split.
  - unfold handleBotCheckboxChange. cbn.
    destruct (requestFormData s) as [n e p m ms]. cbn in *. f_equal.
    rewrite filter_app. cbn. rewrite decide_False by (intros H; by apply H).
    cbn. rewrite app_nil_r.
    apply filter_absent, Hv.
  - intros s0. cbn. split_and!.
    + intros [H _]%list_elem_of_filter. by apply H.
    + apply sublist_filter.
    + intros m Hm Hin. by apply list_elem_of_filter.
Qed.

(** X22.  Submitting the request form sends one POST with the form
    and the title of the service in view.  The chat is not loading
    afterwards on either path; it is in the view requestSuccess when
    the POST resolves, and in the view it was in, with an error
    logged, when the POST is rejected.  The form is not cleared and
    the request is not added to the transcript. *)
Theorem service_request_posts_once (E : Env) (s : State)
    (effects : list FormEffect) :
  let p' := exec (handleServiceRequestSubmit E) (s, effects) in
  p'.2
  = effects
    ++ RequestPost {| sr_leadType := "Service Request from Bot";
                      sr_serviceType := sd_title <$> serviceDetail s;
                      sr_form := requestFormData s;
                      sr_timestamp := now E |}
       :: (if fetch_resolves E then []
           else [FormConsoleError "Service request submission error:"])
  /\ isLoading p'.1 = false
  /\ view p'.1 = (if fetch_resolves E then View_requestSuccess else view s)
  /\ requestFormData p'.1 = requestFormData s
  /\ chatHistory p'.1 = chatHistory s
  /\ trace p'.1 = trace s.
Proof.
  unfold exec, handleServiceRequestSubmit. run_page.
  destruct (fetch_resolves E); cbn.
  - destruct (decide (view s = View_requestSuccess)) as [Hv|Hv].
    + rewrite (bool_decide_eq_true_2 _ Hv). cbn. by rewrite Hv.
    + by rewrite (bool_decide_eq_false_2 _ Hv).
  - by rewrite <- (assoc_L (++)).
Qed.

(** X23.  Saving a brainstorm or a consultation does nothing for a
    visitor who is not signed in, and nothing when there is no result.
    Otherwise it pushes one record under the conversations of the
    signed-in user, stamped with that user; the saved mark is set when
    the push resolves, and an error is logged and the mark left as it
    was when it is rejected. *)
Theorem save_needs_user_and_result (U : Session) (clock : string) (s : State)
    (effects : list FormEffect) :
  let b := exec (handleSaveBrainstorm U clock) (s, effects) in
  let c := exec (handleSaveConsultation U clock) (s, effects) in
  match currentUser U with
  | None => b = (s, effects) /\ c = (s, effects)
  | Some uid =>
      (if isEmpty (brainstormResult s) then b = (s, effects)
       else exists record,
           cv_userId record = uid
           /\ cv_userInput record = brainstormIdea s
           /\ cv_aiResponse record = Json.Str (brainstormResult s)
           /\ b = if save_resolves U
                  then (with_isConvoSaved true s,
                        effects ++ [Push ("users/" +:+ uid +:+ "/conversations") record])
                  else (s, effects
                           ++ [Push ("users/" +:+ uid +:+ "/conversations") record;
                               FormConsoleError "Failed to save brainstorm:"]))
      /\ match consultationResult s with
         | None => c = (s, effects)
         | Some result =>
             exists record,
               cv_userId record = uid
               /\ cv_userInput record = consultationProblem s
               /\ cv_aiResponse record = result
               /\ c = if save_resolves U
                      then (with_isConvoSaved true s,
                            effects ++ [Push ("users/" +:+ uid +:+ "/conversations") record])
                      else (s, effects
                               ++ [Push ("users/" +:+ uid +:+ "/conversations") record;
                                   FormConsoleError "Failed to save consultation:"])
         end
  end.
Proof.
  cbv zeta. unfold exec, handleSaveBrainstorm, handleSaveConsultation.
  run_page.
  destruct (currentUser U) as [uid|]; [|done]. split.
  - destruct (isEmpty (brainstormResult s)); [done|].
    eexists. split_and!; [| | |destruct (save_resolves U); cbn;
      rewrite <- ?(assoc_L (++)); reflexivity]; reflexivity.
  - destruct (consultationResult s) as [result|]; [|done].
    eexists. split_and!; [| | |destruct (save_resolves U); cbn;
      rewrite <- ?(assoc_L (++)); reflexivity]; reflexivity.
Qed.

Lemma prefillSlot_set effects value :
  prefillSlot (effects ++ [SessionStorageSet "prefillContactForm" value])
  = Some value.
Proof. unfold prefillSlot. rewrite omap_app. cbn. apply last_snoc. Qed.

Lemma prefillSlot_other effects e :
  (forall k v, e <> SessionStorageSet k v) ->
  prefillSlot (effects ++ [e]) = prefillSlot effects.
Proof.
  intros He. unfold prefillSlot. rewrite omap_app.
  destruct e; cbn; rewrite ?app_nil_r; try done. by destruct (He key value).
Qed.

(** X24.  Discussing an idea hands it to the contact form once: the
    text is made from the service, the idea and the feedback as they
    were before the chat is reset; the contact form takes it as its
    message when it mounts and empties the slot, so a later mount
    leaves the message of the form alone.  The chat itself ends as
    after a close. *)
Theorem discussed_idea_reaches_contact_form_once (E : Env) (s : State)
    (effects : list FormEffect) (message later : string) :
  let p' := exec (handleDiscussIdea E) (s, effects) in
  let mounted := takePrefill (prefillSlot p'.2) message in
  mounted = (None, ideaText s)
  /\ takePrefill mounted.1 later = (None, later)
  /\ p'.1 = exec (handleCloseChat E) s
  /\ p'.2 = effects ++ [SessionStorageSet "prefillContactForm" (ideaText s);
                        Scroll "contact"].
Proof.
  cbv zeta.
  assert (Hp : exec (handleDiscussIdea E) (s, effects)
               = (exec (handleCloseChat E) s,
                  effects ++ [SessionStorageSet "prefillContactForm" (ideaText s);
                              Scroll "contact"])).
  { unfold exec, ChatForms.handleDiscussIdea. run_page.
    destruct (Chatbot.handleCloseChat JSON_parse E s) as [c s'']. cbn.
    by rewrite <- (assoc_L (++)). }
  rewrite Hp. cbn [fst snd].
  replace (effects ++ [SessionStorageSet "prefillContactForm" (ideaText s);
                       Scroll "contact"])
    with ((effects ++ [SessionStorageSet "prefillContactForm" (ideaText s)])
            ++ [Scroll "contact"]) by by rewrite <- (assoc_L (++)).
  rewrite prefillSlot_other by done. rewrite prefillSlot_set.
  split_and!; done.
Qed.

End FormsMore.

Lemma checkbox_uncheck_undoes_check_witness :
  Chatbot.requestFormData
    (handleBotCheckboxChange "email" false
       (handleBotCheckboxChange "email" true example_requesting))
  = Chatbot.requestFormData example_requesting.
Proof.
  apply (checkbox_uncheck_undoes_check "email" example_requesting).
  apply (bool_decide_unpack _). vm_compute. exact I.
Defined.
